(** * raw-cacher-go: freshness model, key derivation and request coordinator

    A shallow embedding of the cache package (Meta, IsFresh, IsNegativeFresh,
    ObjectKey, MetaKey) and of the two HTTP handlers of package server,
    together with the properties of the cache-coherence core.

    Strings are Go strings (byte sequences), integers are [Z] with the
    64-bit wrap-around written out where the code multiplies, the store and
    the upstream are external: every call on them is an event whose answer
    the environment chooses. *)

From Stdlib Require Import ZArith Lia ZifyBool Ascii DecimalString.
From stdpp Require Import base strings list gmap.

Local Open Scope Z_scope.

(** ** Go primitives used by the code *)

Module Go.

(** [int], [int64] and [time.Duration] are 64-bit signed on the amd64
    target of the build; arithmetic wraps around. *)
Definition minInt64 : Z := - 2 ^ 63.
Definition maxInt64 : Z := 2 ^ 63 - 1.

Definition wrap64 (x : Z) : Z := (x + 2 ^ 63) mod 2 ^ 64 - 2 ^ 63.

Definition inInt64 (x : Z) : Prop := minInt64 <= x <= maxInt64.

(** [time.Second], in nanoseconds. *)
Definition Second : Z := 1000000000.

(** [time.Duration(n) * time.Second]. *)
Definition DurationSeconds (n : Z) : Z := wrap64 (n * Second).

(** A [time.Time] is the number of nanoseconds since the Unix epoch.
    [t.Sub(u)] saturates at the ends of the Duration range. *)
Definition Sub (t u : Z) : Z := Z.max minInt64 (Z.min maxInt64 (t - u)).

(** [time.Since(t)] with [now] the reading of the clock it takes. *)
Definition Since (now t : Z) : Z := Sub now t.

(** [len(s) > 0 && s[0] == '/'], then [s = s[1:]], until it fails:
    the loop of ObjectKey and MetaKey, also [strings.TrimLeft(s, "/")]. *)
Fixpoint TrimLeftSlash (s : string) : string :=
  match s with
  | String "/" s' => TrimLeftSlash s'
  | _ => s
  end.

(** [strings.TrimPrefix(s, "/")]. *)
Definition TrimPrefixSlash (s : string) : string :=
  match s with
  | String "/" s' => s'
  | _ => s
  end.

(** [strings.TrimRight(s, "/")]. *)
Fixpoint TrimRightSlash (s : string) : string :=
  match s with
  | EmptyString => EmptyString
  | String c s' =>
      match TrimRightSlash s' with
      | EmptyString => if Ascii.eqb c "/" then EmptyString else String c EmptyString
      | r => String c r
      end
  end.

(** [strings.IndexByte(s, c)]: first index of [c], or -1. *)
Fixpoint IndexByte (s : string) (c : ascii) : Z :=
  match s with
  | EmptyString => -1
  | String a s' =>
      if Ascii.eqb a c then 0
      else let i := IndexByte s' c in if i <? 0 then -1 else i + 1
  end.

(** [s[:i]] and [s[i:]] for [0 <= i <= len(s)]. *)
Fixpoint take (n : nat) (s : string) : string :=
  match n, s with
  | S n', String c s' => String c (take n' s')
  | _, _ => EmptyString
  end.

Fixpoint drop (n : nat) (s : string) : string :=
  match n, s with
  | S n', String _ s' => drop n' s'
  | _, _ => s
  end.

Definition sliceTo (s : string) (i : Z) : string := take (Z.to_nat i) s.
Definition sliceFrom (s : string) (i : Z) : string := drop (Z.to_nat i) s.

Fixpoint len (s : string) : Z :=
  match s with
  | EmptyString => 0
  | String _ s' => 1 + len s'
  end.

(** [strconv.FormatInt(n, 10)]. *)
Definition FormatInt (n : Z) : string := NilZero.string_of_int (Z.to_int n).

(** A string without the byte '/'. *)
Fixpoint noSlash (s : string) : bool :=
  match s with
  | EmptyString => true
  | String c s' => negb (Ascii.eqb c "/") && noSlash s'
  end.

End Go.

(** ** Package cache *)

Module cache.

Record Meta := mkMeta {
  ETag : string;
  LastModified : string;
  CachedAt : string;
  TTL : Z;
  Size : Z;
  Neg : bool
}.

(** The zero value of the struct. *)
Definition zeroMeta : Meta := mkMeta "" "" "" 0 0 false.

Definition withCachedAt (m : Meta) (s : string) : Meta :=
  mkMeta (ETag m) (LastModified m) s (TTL m) (Size m) (Neg m).

Section Freshness.

  (** [time.Parse(time.RFC3339Nano, s)] of the standard library: [None]
      is a parse error. *)
Variable timeParse : string -> option Z.

  (** [now] is the clock reading taken by [time.Since]. *)
Definition IsFresh (now : Z) (m : Meta) (defaultTTL : Z) : bool :=
    if Neg m then false
    else
      let ttl := if TTL m <=? 0 then defaultTTL else TTL m in
      if String.eqb (CachedAt m) "" then false
      else
        match timeParse (CachedAt m) with
        | None => false
        | Some t => Go.Since now t <? Go.DurationSeconds ttl
        end.

Definition IsNegativeFresh (now : Z) (m : Meta) (ttl404 : Z) : bool :=
    if negb (Neg m) || String.eqb (CachedAt m) "" then false
    else
      match timeParse (CachedAt m) with
      | None => false
      | Some t =>
          let ttl := if TTL m <=? 0 then ttl404 else TTL m in
          Go.Since now t <? Go.DurationSeconds ttl
      end.

End Freshness.

Definition ObjectKey (domain route : string) : string :=
  "objects/" +:+ domain +:+ "/" +:+ Go.TrimLeftSlash route.

Definition MetaKey (domain route : string) : string :=
  "meta/" +:+ domain +:+ "/" +:+ Go.TrimLeftSlash route +:+ ".json".

End cache.

(** ** The outside world: store, upstream and clock

    The object store and the upstream HTTP client are external; a call on
    them is an event, and the environment chooses its answer. *)

Definition error := string.

Module http.

(** What [Client.Do] hands back when it does not fail: the status, the
    three headers the handler reads with [Header.Get], and what
    [io.ReadAll(resp.Body)] yields. *)
Record UpstreamResponse := mkUpstreamResponse {
  StatusCode : Z;
  hContentType : string;
  hETag : string;
  hLastModified : string;
  Body : error + string
}.

(** What the handler writes to its [ResponseWriter]: the status passed
    to [WriteHeader], the [Header().Set] calls in order, the bytes
    written. *)
Record Reply := mkReply {
  status : Z;
  header : list (string * string);
  body : string
}.

Definition StatusOK : Z := 200.
Definition StatusNotModified : Z := 304.
Definition StatusBadRequest : Z := 400.
Definition StatusNotFound : Z := 404.
Definition StatusInternalServerError : Z := 500.
Definition StatusBadGateway : Z := 502.

(** [http.Error(w, msg, code)]. *)
Definition Error (msg : string) (code : Z) : Reply :=
  mkReply code
    [("Content-Type", "text/plain; charset=utf-8");
     ("X-Content-Type-Options", "nosniff")]
    (msg +:+ String "010" EmptyString).

End http.

Module storage.

(** What [GetObject] returns when it does not fail: the bytes the reader
    delivers, the size, and the header map in the order the range loop
    of serveFromCache visits it. *)
Record Object := mkObject {
  content : string;
  size : Z;
  hdrs : list (string * string)
}.

End storage.

Inductive Eff : Type -> Type :=
| HasObject (key : string) : Eff (bool * option error)
| GetObject (key : string) : Eff (error + storage.Object)
| PutObject (key data contentType : string) : Eff (option error)
| ReadMeta (key : string) : Eff (cache.Meta * bool * option error)
| WriteMeta (key : string) (m : cache.Meta) : Eff (option error)
| ClientDo (url : string) (ifNoneMatch ifModifiedSince : option string)
    : Eff (error + http.UpstreamResponse)
| Now : Eff Z.

(** Programs over these events; [Panic] is a Go panic (a nil dereference). *)
Inductive Prog (A : Type) : Type :=
| Ret (a : A)
| Panic
| Vis {X : Type} (e : Eff X) (k : X -> Prog A).

Arguments Ret {A} a.
Arguments Panic {A}.
Arguments Vis {A X} e k.

Fixpoint bind {A B} (p : Prog A) (f : A -> Prog B) : Prog B :=
  match p with
  | Ret a => f a
  | Panic => Panic
  | Vis e k => Vis e (fun x => bind (k x) f)
  end.

Definition call {X} (e : Eff X) : Prog X := Vis e Ret.

Declare Scope prog_scope.
Delimit Scope prog_scope with prog.
Notation "x <- p ;; q" := (bind p (fun x => q))
  (at level 20, p at level 99, q at level 200, only parsing) : prog_scope.
Notation "' pat <- p ;; q" := (bind p (fun x => match x with pat => q end))
  (at level 20, pat pattern, p at level 99, q at level 200, only parsing) : prog_scope.
Local Open Scope prog_scope.

(** One entry of the log per call, with the answer it got. *)
Inductive Event :=
| EvHasObject (key : string) (ans : bool * option error)
| EvGetObject (key : string) (ans : error + storage.Object)
| EvPutObject (key data contentType : string) (ans : option error)
| EvReadMeta (key : string) (ans : cache.Meta * bool * option error)
| EvWriteMeta (key : string) (m : cache.Meta) (ans : option error)
| EvClientDo (url : string) (ifNoneMatch ifModifiedSince : option string)
    (ans : error + http.UpstreamResponse)
| EvNow (t : Z).

Definition eventOf {X} (e : Eff X) : X -> Event :=
  match e in Eff X return X -> Event with
  | HasObject k => EvHasObject k
  | GetObject k => EvGetObject k
  | PutObject k d ct => EvPutObject k d ct
  | ReadMeta k => EvReadMeta k
  | WriteMeta k m => EvWriteMeta k m
  | ClientDo u a b => EvClientDo u a b
  | Now => EvNow
  end.

Inductive Outcome (A : Type) : Type :=
| Done (a : A)
| Panicked.
Arguments Done {A} a.
Arguments Panicked {A}.

(** [Run p tr o]: against some environment, [p] makes exactly the calls of
    [tr], gets the answers recorded there, and ends with [o]. *)
Fixpoint Run {A} (p : Prog A) (tr : list Event) (o : Outcome A) : Prop :=
  match p with
  | Ret a => tr = [] /\ o = Done a
  | Panic => tr = [] /\ o = Panicked
  | Vis e k => exists x tr', tr = eventOf e x :: tr' /\ Run (k x) tr' o
  end.

(** Running against a given environment: a state and an answer for every
    call. *)
Section Exec.
Context {W : Type} (env : forall X, Eff X -> W -> X * W).

Fixpoint exec {A} (p : Prog A) (w : W) : list Event * Outcome A * W :=
  match p with
  | Ret a => ([], Done a, w)
  | Panic => ([], Panicked, w)
  | Vis e k =>
      let '(x, w1) := env _ e w in
      let '(tr, o, w2) := exec (k x) w1 in
      (eventOf e x :: tr, o, w2)
  end.

Definition traceOf {A} (r : list Event * Outcome A * W) : list Event := r.1.1.
Definition outcomeOf {A} (r : list Event * Outcome A * W) : Outcome A := r.1.2.
Definition worldOf {A} (r : list Event * Outcome A * W) : W := r.2.
End Exec.

(** Observations on a log. *)
Inductive StoreWrite :=
| WroteObject (key data contentType : string)
| WroteMeta (key : string) (m : cache.Meta).

Definition writeOf (ev : Event) : option StoreWrite :=
  match ev with
  | EvPutObject k d ct _ => Some (WroteObject k d ct)
  | EvWriteMeta k m _ => Some (WroteMeta k m)
  | _ => None
  end.

Definition fetchOf (ev : Event) : option (string * (error + http.UpstreamResponse)) :=
  match ev with
  | EvClientDo u _ _ ans => Some (u, ans)
  | _ => None
  end.

(** The writes issued on the store, in order. *)
Fixpoint writes (tr : list Event) : list StoreWrite :=
  match tr with
  | [] => []
  | ev :: tr' =>
      match writeOf ev with
      | Some w => w :: writes tr'
      | None => writes tr'
      end
  end.

(** The upstream fetches issued, with their answers. *)
Fixpoint fetches (tr : list Event) : list (string * (error + http.UpstreamResponse)) :=
  match tr with
  | [] => []
  | ev :: tr' =>
      match fetchOf ev with
      | Some f => f :: fetches tr'
      | None => fetches tr'
      end
  end.

(** ** Package server *)

(** The fields of [Server] the handler reads; [Store], [Client] and [sf]
    are the outside world. *)
Record Server := mkServer {
  TTLDefault : Z;
  TTL404 : Z;
  ServeIfPresent : bool
}.

Definition kindServeCache : Z := 1.
Definition kindNotFound : Z := 2.
Definition kindUpstreamError : Z := 3.
Definition kindWroteBody : Z := 4.

Record fetchResult := mkFetchResult {
  kind : Z;
  status : Z;
  body : string;
  contentType : string;
  etag : string;
  lastModified : string
}.

(** [fetchResult{kind: k}], the other fields at their zero value. *)
Definition resultOfKind (k : Z) : fetchResult := mkFetchResult k 0 "" "" "" "".

(** [singleflight.Group.Do(key, fn)] as seen by a caller that finds no
    call in flight for [key]: it runs [fn] and returns what [fn] returns. *)
Definition sfDo {A} (key : string) (fn : Prog A) : Prog A := fn.

Section Common.

(** [time.Parse(time.RFC3339Nano, _)], [Time.UTC().Format(time.RFC3339Nano)]
    and whether [http.NewRequestWithContext] accepts the URL (it returns
    a nil request otherwise). *)
Variable timeParse : string -> option Z.
Variable timeFormat : Z -> string.
Variable urlOK : string -> bool.

(** [cache.NowISO()]. *)
Definition NowISO : Prog string := now <- call Now ;; Ret (timeFormat now).

(** [hasMeta && cache.IsNegativeFresh(meta, ttl404)]: the clock is
    read by the right operand only. *)
Definition negativeFresh (hasMeta : bool) (meta : cache.Meta) (ttl404 : Z) : Prog bool :=
  if hasMeta
  then now <- call Now ;; Ret (cache.IsNegativeFresh timeParse now meta ttl404)
  else Ret false.

(** [hasMeta && cache.IsFresh(meta, ttlDefault)]. *)
Definition positiveFresh (hasMeta : bool) (meta : cache.Meta) (ttlDefault : Z) : Prog bool :=
  if hasMeta
  then now <- call Now ;; Ret (cache.IsFresh timeParse now meta ttlDefault)
  else Ret false.

(** What serveFromCache writes for a stored object: its non-empty
    headers, Content-Length, status 200 and the bytes of the reader. *)
Definition cacheReply (o : storage.Object) : http.Reply :=
  http.mkReply http.StatusOK
    (filter (fun kv => kv.2 <> "") (storage.hdrs o)
       ++ [("Content-Length", Go.FormatInt (storage.size o))])
    (storage.content o).

(** [serveFromCache] (a method of Server): [None] is the result false (nothing was
    written), [Some r] the result true after writing [r]. *)
Definition serveFromCache (key : string) : Prog (option http.Reply) :=
  r <- call (GetObject key) ;;
  match r with
  | inl _ => Ret None
  | inr o => Ret (Some (cacheReply o))
  end.

(** [if ok, _ := s.Store.HasObject(ctx, objKey); ok { if s.serveFromCache(..) { return } }]
    followed by [rest]. *)
Definition serveIfStored (objKey : string) (rest : Prog http.Reply) : Prog http.Reply :=
  '(ok, _) <- call (HasObject objKey) ;;
  if ok then
    served <- serveFromCache objKey ;;
    match served with
    | Some reply => Ret reply
    | None => rest
    end
  else rest.

(** The switch on [res.kind] that ends both handlers. *)
Definition respond (objKey : string) (res : fetchResult) : Prog http.Reply :=
  if kind res =? kindServeCache then
    served <- serveFromCache objKey ;;
    match served with
    | Some reply => Ret reply
    | None => Ret (http.Error "cache read failed" http.StatusInternalServerError)
    end
  else if kind res =? kindNotFound then
    Ret (http.Error "Upstream 404" http.StatusNotFound)
  else if kind res =? kindUpstreamError then
    if (status res >=? 400) && (status res <=? 599)
    then Ret (http.Error "Upstream error" (status res))
    else Ret (http.Error "Upstream error" http.StatusBadGateway)
  else if kind res =? kindWroteBody then
    let ct := if String.eqb (contentType res) ""
              then "application/octet-stream" else contentType res in
    Ret (http.mkReply http.StatusOK
           ([("Content-Type", ct)]
              ++ (if String.eqb (etag res) "" then [] else [("ETag", etag res)])
              ++ (if String.eqb (lastModified res) "" then []
                  else [("Last-Modified", lastModified res)])
              ++ [("Content-Length", Go.FormatInt (Go.len (body res)))])
           (body res))
  else Ret (http.Error "unexpected state" http.StatusInternalServerError).

(** What follows [s.sf.Do]: an error is a 502 carrying its text. *)
Definition afterDo (objKey : string) (r : error + fetchResult) : Prog http.Reply :=
  match r with
  | inl err => Ret (http.Error ("upstream error: " +:+ err) http.StatusBadGateway)
  | inr res => respond objKey res
  end.

Definition headerOf (v : string) : option string :=
  if String.eqb v "" then None else Some v.

(** What both handlers do between parsing the path and entering
    [s.sf.Do]: the eager serve when configured, the metadata read, the
    two fast paths. [slow] is the rest of the handler. *)
Definition fastPaths (s : Server) (objKey metaKey : string)
    (slow : Prog http.Reply) : Prog http.Reply :=
  let lookup : Prog http.Reply :=
    '(meta, hasMeta, _) <- call (ReadMeta metaKey) ;;
    neg <- negativeFresh hasMeta meta (TTL404 s) ;;
    if neg then
      Ret (http.Error "Upstream negative-cached 404" http.StatusNotFound)
    else
      fresh <- positiveFresh hasMeta meta (TTLDefault s) ;;
      if fresh then serveIfStored objKey slow else slow in
  if ServeIfPresent s then serveIfStored objKey lookup else lookup.

End Common.

(** *** The handler with the fetch and the persist steps inline *)

Module server.
Section Handler.

Variable timeParse : string -> option Z.
Variable timeFormat : Z -> string.
Variable urlOK : string -> bool.

Definition splitDomainAndRoute (path : string) : option (string * string) :=
  let p := Go.TrimPrefixSlash path in
  let i := Go.IndexByte p "/" in
  if i <=? 0 then None
  else Some (Go.sliceTo p i, Go.sliceFrom p (i + 1)).

Definition buildUpstreamURL (domain route rawQuery : string) : string :=
  let u := "https://" +:+ Go.TrimRightSlash domain +:+ "/" +:+ Go.TrimLeftSlash route in
  if String.eqb rawQuery "" then u else u +:+ "?" +:+ rawQuery.

(** The function passed to [s.sf.Do]. *)
Definition fetchAndPersist (s : Server) (objKey metaKey upstreamURL : string)
  : Prog (error + fetchResult) :=
  '(meta, hasMeta, _) <- call (ReadMeta metaKey) ;;
  neg <- negativeFresh timeParse hasMeta meta (TTL404 s) ;;
  if neg then Ret (inr (resultOfKind kindNotFound))
  else
    let fetch : Prog (error + fetchResult) :=
      if urlOK upstreamURL then
        resp <- call (ClientDo upstreamURL
                        (if hasMeta then headerOf (cache.ETag meta) else None)
                        (if hasMeta then headerOf (cache.LastModified meta) else None)) ;;
        match resp with
        | inl err => Ret (inl err)
        | inr resp =>
            if (http.StatusCode resp =? http.StatusNotModified) && hasMeta then
              now <- NowISO timeFormat ;;
              _ <- call (WriteMeta metaKey (cache.withCachedAt meta now)) ;;
              Ret (inr (resultOfKind kindServeCache))
            else if http.StatusCode resp =? http.StatusNotFound then
              now <- NowISO timeFormat ;;
              _ <- call (WriteMeta metaKey
                           (cache.mkMeta "" "" now (TTL404 s) 0 true)) ;;
              Ret (inr (resultOfKind kindNotFound))
            else if (http.StatusCode resp <? 200) || (http.StatusCode resp >=? 300) then
              Ret (inr (mkFetchResult kindUpstreamError (http.StatusCode resp) "" "" "" ""))
            else
              match http.Body resp with
              | inl err => Ret (inl err)
              | inr body =>
                  let ct := http.hContentType resp in
                  let etag := http.hETag resp in
                  let lm := http.hLastModified resp in
                  put <- call (PutObject objKey body ct) ;;
                  match put with
                  | Some err => Ret (inl err)
                  | None =>
                      now <- NowISO timeFormat ;;
                      _ <- call (WriteMeta metaKey
                                   (cache.mkMeta etag lm now (TTLDefault s)
                                      (Go.len body) false)) ;;
                      Ret (inr (mkFetchResult kindWroteBody 0 body ct etag lm))
                  end
              end
        end
      else Panic in
    fresh <- positiveFresh timeParse hasMeta meta (TTLDefault s) ;;
    if fresh then
      '(ok, _) <- call (HasObject objKey) ;;
      if ok then Ret (inr (resultOfKind kindServeCache)) else fetch
    else fetch.

Definition ServeHTTP (s : Server) (path rawQuery : string) : Prog http.Reply :=
  match splitDomainAndRoute path with
  | None => Ret (http.Error "path must be /<domain>/<route>" http.StatusBadRequest)
  | Some (domain, route) =>
      let upstreamURL := buildUpstreamURL domain route rawQuery in
      let objKey := cache.ObjectKey domain route in
      let metaKey := cache.MetaKey domain route in
      fastPaths timeParse s objKey metaKey
        (r <- sfDo objKey (fetchAndPersist s objKey metaKey upstreamURL) ;;
         afterDo objKey r)
  end.

End Handler.
End server.

(** *** The handler over the Store interface, with download and persist *)

Module server_iface.

Record fetched := mkFetched {
  status : Z;
  notModified : bool;
  body : string;
  contentType : string;
  etag : string;
  lastModified : string
}.

(** [extractHeaders(resp.Header)]. *)
Definition extractHeaders (resp : http.UpstreamResponse) : string * string * string :=
  (http.hContentType resp, http.hETag resp, http.hLastModified resp).

Section Handler.

Variable timeParse : string -> option Z.
Variable timeFormat : Z -> string.
Variable urlOK : string -> bool.

Definition download (url : string) (prior : cache.Meta) : Prog (error + fetched) :=
  if urlOK url then
    resp <- call (ClientDo url (headerOf (cache.ETag prior))
                    (headerOf (cache.LastModified prior))) ;;
    match resp with
    | inl err => Ret (inl err)
    | inr resp =>
        if http.StatusCode resp =? http.StatusNotModified then
          Ret (inr (mkFetched (http.StatusCode resp) true "" "" "" ""))
        else
          match http.Body resp with
          | inl err => Ret (inl err)
          | inr body =>
              let '(ct, etag, lm) := extractHeaders resp in
              Ret (inr (mkFetched (http.StatusCode resp) false body ct etag lm))
          end
    end
  else Panic.

(** [persist]: [None] is a nil error. *)
Definition persist (objKey metaKey : string) (fr : fetched) (ttlDefault : Z)
  : Prog (option error) :=
  put <- call (PutObject objKey (body fr) (contentType fr)) ;;
  match put with
  | Some err => Ret (Some err)
  | None =>
      now <- NowISO timeFormat ;;
      call (WriteMeta metaKey
              (cache.mkMeta (etag fr) (lastModified fr) now ttlDefault
                 (Go.len (body fr)) false))
  end.

Definition parseAndBuildUpstream (path rawQuery : string)
  : option (string * string * string) :=
  let p := Go.TrimPrefixSlash path in
  let i := Go.IndexByte p "/" in
  if i <=? 0 then None
  else
    let domain := Go.sliceTo p i in
    let route := Go.sliceFrom p (i + 1) in
    let url := "https://" +:+ Go.TrimRightSlash domain +:+ "/" +:+ Go.TrimLeftSlash route in
    Some (domain, route, if String.eqb rawQuery "" then url else url +:+ "?" +:+ rawQuery).

(** The function passed to [s.sf.Do]. *)
Definition fetchAndPersist (s : Server) (objKey metaKey upstreamURL : string)
  : Prog (error + fetchResult) :=
  '(meta, hasMeta, _) <- call (ReadMeta metaKey) ;;
  neg <- negativeFresh timeParse hasMeta meta (TTL404 s) ;;
  if neg then Ret (inr (resultOfKind kindNotFound))
  else
    let fetch : Prog (error + fetchResult) :=
      dl <- download upstreamURL meta ;;
      match dl with
      | inl err => Ret (inl err)
      | inr fr =>
          if notModified fr && hasMeta then
            now <- NowISO timeFormat ;;
            _ <- call (WriteMeta metaKey (cache.withCachedAt meta now)) ;;
            Ret (inr (resultOfKind kindServeCache))
          else if status fr =? http.StatusNotFound then
            now <- NowISO timeFormat ;;
            _ <- call (WriteMeta metaKey
                         (cache.mkMeta "" "" now (TTL404 s) 0 true)) ;;
            Ret (inr (resultOfKind kindNotFound))
          else if (status fr <? 200) || (status fr >=? 300) then
            Ret (inr (mkFetchResult kindUpstreamError (status fr) "" "" "" ""))
          else
            perr <- persist objKey metaKey fr (TTLDefault s) ;;
            match perr with
            | Some err => Ret (inl err)
            | None =>
                Ret (inr (mkFetchResult kindWroteBody 0 (body fr) (contentType fr)
                            (etag fr) (lastModified fr)))
            end
      end in
    fresh <- positiveFresh timeParse hasMeta meta (TTLDefault s) ;;
    if fresh then
      '(ok, _) <- call (HasObject objKey) ;;
      if ok then Ret (inr (resultOfKind kindServeCache)) else fetch
    else fetch.

Definition ServeHTTP (s : Server) (path rawQuery : string) : Prog http.Reply :=
  match parseAndBuildUpstream path rawQuery with
  | None => Ret (http.Error "path must be /<domain>/<route>" http.StatusBadRequest)
  | Some (domain, route, upstreamURL) =>
      let objKey := cache.ObjectKey domain route in
      let metaKey := cache.MetaKey domain route in
      fastPaths timeParse s objKey metaKey
        (r <- sfDo objKey (fetchAndPersist s objKey metaKey upstreamURL) ;;
         afterDo objKey r)
  end.

End Handler.
End server_iface.

(** ** A concrete environment, to run the handlers on examples *)

(** Timestamps in UTC written with a final Z, as NowISO produces them:
    YYYY-MM-DDThh:mm:ss, an optional fraction of one to nine digits, Z.
    On these strings [parse] is [time.Parse(time.RFC3339Nano, _)] and
    [format] is [Time.UTC().Format(time.RFC3339Nano)], for the years 0000
    to 9999; [parse] rejects every other string. *)
Module utctime.

Definition digit (c : ascii) : option Z :=
  let n := Z.of_nat (nat_of_ascii c) in
  if (48 <=? n) && (n <=? 57) then Some (n - 48) else None.

Fixpoint digits (k : nat) (s : string) (acc : Z) : option (Z * string) :=
  match k with
  | O => Some (acc, s)
  | S k' =>
      match s with
      | String c s' =>
          match digit c with
          | Some d => digits k' s' (acc * 10 + d)
          | None => None
          end
      | EmptyString => None
      end
  end.

Definition expect (c : ascii) (s : string) : option string :=
  match s with
  | String a s' => if Ascii.eqb a c then Some s' else None
  | EmptyString => None
  end.

(** Up to [k] digits of a fraction, scaled to nanoseconds. *)
Fixpoint fraction (k : nat) (s : string) (acc scale : Z) : option (Z * string) :=
  match s with
  | String c s' =>
      match digit c with
      | Some d =>
          match k with
          | O => None
          | S k' => fraction k' s' (acc + d * scale) (scale / 10)
          end
      | None => Some (acc, s)
      end
  | EmptyString => Some (acc, s)
  end.

Definition isLeap (y : Z) : bool :=
  ((y mod 4 =? 0) && negb (y mod 100 =? 0)) || (y mod 400 =? 0).

Definition daysIn (y m : Z) : Z :=
  if m =? 2 then (if isLeap y then 29 else 28)
  else if (m =? 4) || (m =? 6) || (m =? 9) || (m =? 11) then 30
  else 31.

(** Days from 1970-01-01 to the given civil date. *)
Definition daysFromCivil (y m d : Z) : Z :=
  let y := if m <=? 2 then y - 1 else y in
  let era := y / 400 in
  let yoe := y - era * 400 in
  let doy := (153 * (if m >? 2 then m - 3 else m + 9) + 2) / 5 + d - 1 in
  let doe := yoe * 365 + yoe / 4 - yoe / 100 + doy in
  era * 146097 + doe - 719468.

Definition civilFromDays (z : Z) : Z * Z * Z :=
  let z := z + 719468 in
  let era := z / 146097 in
  let doe := z - era * 146097 in
  let yoe := (doe - doe / 1460 + doe / 36524 - doe / 146096) / 365 in
  let doy := doe - (365 * yoe + yoe / 4 - yoe / 100) in
  let mp := (5 * doy + 2) / 153 in
  let d := doy - (153 * mp + 2) / 5 + 1 in
  let m := if mp <? 10 then mp + 3 else mp - 9 in
  ((yoe + era * 400) + (if m <=? 2 then 1 else 0), m, d).

Definition parse (s : string) : option Z :=
  '(y, s) ← digits 4 s 0;
  s ← expect "-" s;
  '(mo, s) ← digits 2 s 0;
  s ← expect "-" s;
  '(d, s) ← digits 2 s 0;
  s ← expect "T" s;
  '(h, s) ← digits 2 s 0;
  s ← expect ":" s;
  '(mi, s) ← digits 2 s 0;
  s ← expect ":" s;
  '(sec, s) ← digits 2 s 0;
  '(ns, s) ← match s with
             | String "." (String c s') =>
                 match digit c with
                 | Some _ => fraction 9 (String c s') 0 100000000
                 | None => None
                 end
             | _ => Some (0, s)
             end;
  if String.eqb s "Z"
     && (1 <=? mo) && (mo <=? 12) && (1 <=? d) && (d <=? daysIn y mo)
     && (h <? 24) && (mi <? 60) && (sec <? 60)
  then Some ((((daysFromCivil y mo d * 24 + h) * 60 + mi) * 60 + sec) * 1000000000 + ns)
  else None.

Definition digitChar (d : Z) : ascii := ascii_of_nat (Z.to_nat (48 + d mod 10)).

(** [n] written with exactly [k] digits. *)
Fixpoint fixed (k : nat) (n : Z) (acc : string) : string :=
  match k with
  | O => acc
  | S k' => fixed k' (n / 10) (String (digitChar n) acc)
  end.

(** The fraction of a second, without its trailing zeros. *)
Fixpoint fracDigits (k : nat) (ns : Z) : string :=
  match k with
  | O => ""
  | S k' =>
      if ns mod 10 =? 0 then fracDigits k' (ns / 10) else fixed k ns ""
  end.

Definition format (t : Z) : string :=
  let secs := t / 1000000000 in
  let ns := t mod 1000000000 in
  let days := secs / 86400 in
  let rem := secs mod 86400 in
  let '(y, m, d) := civilFromDays days in
  fixed 4 y "" +:+ "-" +:+ fixed 2 m "" +:+ "-" +:+ fixed 2 d "" +:+ "T"
    +:+ fixed 2 (rem / 3600) "" +:+ ":" +:+ fixed 2 (rem / 60 mod 60) ""
    +:+ ":" +:+ fixed 2 (rem mod 60) ""
    +:+ (if ns =? 0 then "" else "." +:+ fracDigits 9 ns) +:+ "Z".

End utctime.

(** An in-memory implementation of the Store interface, an upstream given
    as a table, and a clock. Every store call consumes one entry of
    [faults]; [true] makes that call fail. *)
Module memory.

Record World := mkWorld {
  objects : gmap string storage.Object;
  metas : gmap string cache.Meta;
  clock : Z;
  upstream : string -> error + http.UpstreamResponse;
  faults : list bool
}.

Definition nextFault (w : World) : bool * World :=
  match faults w with
  | [] => (false, w)
  | f :: fs => (f, mkWorld (objects w) (metas w) (clock w) (upstream w) fs)
  end.

Definition unreachable : error := "store unreachable".

Definition env (X : Type) (e : Eff X) : World -> X * World :=
  match e in Eff X return World -> X * World with
  | HasObject k => fun w =>
      let '(f, w) := nextFault w in
      if f then ((false, Some unreachable), w)
      else ((bool_decide (is_Some (objects w !! k)), None), w)
  | GetObject k => fun w =>
      let '(f, w) := nextFault w in
      if f then (inl unreachable, w)
      else match objects w !! k with
           | Some o => (inr o, w)
           | None => (inl "NoSuchKey", w)
           end
  | PutObject k d ct => fun w =>
      let '(f, w) := nextFault w in
      if f then (Some unreachable, w)
      else (None,
            mkWorld (<[k := storage.mkObject d (Go.len d) [("Content-Type", ct)]]> (objects w))
              (metas w) (clock w) (upstream w) (faults w))
  | ReadMeta k => fun w =>
      let '(f, w) := nextFault w in
      if f then ((cache.zeroMeta, false, Some unreachable), w)
      else match metas w !! k with
           | Some m => ((m, true, None), w)
           | None => ((cache.zeroMeta, false, None), w)
           end
  | WriteMeta k m => fun w =>
      let '(f, w) := nextFault w in
      if f then (Some unreachable, w)
      else (None,
            mkWorld (objects w) (<[k := m]> (metas w)) (clock w) (upstream w) (faults w))
  | ClientDo u _ _ => fun w => (upstream w u, w)
  | Now => fun w =>
      (clock w, mkWorld (objects w) (metas w) (clock w + 1) (upstream w) (faults w))
  end.

(** The world a given time later, and with other faults ahead. *)
Definition later (dt : Z) (fs : list bool) (w : World) : World :=
  mkWorld (objects w) (metas w) (clock w + dt) (upstream w) fs.

(** The same world in front of another upstream. *)
Definition withUpstream (u : string -> error + http.UpstreamResponse) (w : World) : World :=
  mkWorld (objects w) (metas w) (clock w) u (faults w).

End memory.

(** ** The vocabulary of the specification *)

(** The TTL the spec calls effective: the record's own when positive,
    else the default of the caller. *)
Definition effectiveTTL (m : cache.Meta) (defaultTTL : Z) : Z :=
  if 0 <? cache.TTL m then cache.TTL m else defaultTTL.

(** The characterization of positive freshness, in the spec's words: the
    record is not negative, cachedAt is non-empty and parses, and the time
    elapsed is below the effective TTL in seconds. *)
Definition freshSpec (timeParse : string -> option Z) (now : Z)
    (m : cache.Meta) (defaultTTL : Z) : Prop :=
  cache.Neg m = false /\ cache.CachedAt m <> "" /\
  exists t, timeParse (cache.CachedAt m) = Some t /\
            now - t < effectiveTTL m defaultTTL * Go.Second.

(** Two (domain, route) pairs are the same after the leading slashes of
    the route are trimmed. *)
Definition sameAfterTrim (d1 r1 d2 r2 : string) : Prop :=
  (d1, Go.TrimLeftSlash r1) = (d2, Go.TrimLeftSlash r2).

(** Injectivity of the key derivation on two given pairs. *)
Definition keysDistinct (d1 r1 d2 r2 : string) : Prop :=
  cache.ObjectKey d1 r1 <> cache.ObjectKey d2 r2 /\
  cache.MetaKey d1 r1 <> cache.MetaKey d2 r2.

(** The answer to the last metadata read of a log: the prior metadata the
    fetch steps work with. *)
Fixpoint lastReadMeta (tr : list Event) : option (cache.Meta * bool) :=
  match tr with
  | [] => None
  | ev :: tr' =>
      match lastReadMeta tr' with
      | Some r => Some r
      | None =>
          match ev with
          | EvReadMeta _ (m, found, _) => Some (m, found)
          | _ => None
          end
      end
  end.

(** Prior metadata existed. *)
Definition hadMeta (tr : list Event) : bool :=
  match lastReadMeta tr with
  | Some (_, found) => found
  | None => false
  end.

(** The last clock reading of a log. *)
Fixpoint lastNow (tr : list Event) : option Z :=
  match tr with
  | [] => None
  | ev :: tr' =>
      match lastNow tr' with
      | Some t => Some t
      | None =>
          match ev with
          | EvNow t => Some t
          | _ => None
          end
      end
  end.

(** The answers of the metadata reads of a log, and its clock readings. *)
Fixpoint metaReads (tr : list Event) : list (cache.Meta * bool) :=
  match tr with
  | [] => []
  | EvReadMeta _ (m, found, _) :: tr' => (m, found) :: metaReads tr'
  | _ :: tr' => metaReads tr'
  end.

Fixpoint clockReads (tr : list Event) : list Z :=
  match tr with
  | [] => []
  | EvNow t :: tr' => t :: clockReads tr'
  | _ :: tr' => clockReads tr'
  end.

(** During a request the store holds the record [rec] under the metadata
    key: every metadata read finds it. *)
Definition storeHolds (rec : cache.Meta) (tr : list Event) : Prop :=
  forall a, In a (metaReads tr) -> a = (rec, true).

(** The record is negative-fresh at every clock reading of the request. *)
Definition negativeFreshDuring (timeParse : string -> option Z) (rec : cache.Meta)
    (ttl404 : Z) (tr : list Event) : Prop :=
  forall t, In t (clockReads tr) -> cache.IsNegativeFresh timeParse t rec ttl404 = true.

(** The negative record written for an upstream 404 at clock reading [t]. *)
Definition negativeRecord (timeFormat : Z -> string) (s : Server) (t : Z) : cache.Meta :=
  cache.mkMeta "" "" (timeFormat t) (TTL404 s) 0 true.

(** The errors returned by the writes of objects and by the writes of
    metadata. *)
Fixpoint putErrors (tr : list Event) : list error :=
  match tr with
  | [] => []
  | EvPutObject _ _ _ (Some err) :: tr' => err :: putErrors tr'
  | _ :: tr' => putErrors tr'
  end.

Fixpoint metaWriteErrors (tr : list Event) : list error :=
  match tr with
  | [] => []
  | EvWriteMeta _ _ (Some err) :: tr' => err :: metaWriteErrors tr'
  | _ :: tr' => metaWriteErrors tr'
  end.

(** The reply to a request whose single-flight section returned an error. *)
Definition failedReply (err : error) : http.Reply :=
  http.Error ("upstream error: " +:+ err) http.StatusBadGateway.

(** Calls that neither write to the store nor reach the upstream. *)
Definition isQuiet (ev : Event) : bool :=
  match ev with
  | EvPutObject _ _ _ _ | EvWriteMeta _ _ _ | EvClientDo _ _ _ _ => false
  | _ => true
  end.

(** Existence checks and reads of stored objects. *)
Definition isProbe (ev : Event) : bool :=
  match ev with
  | EvHasObject _ _ | EvGetObject _ _ => true
  | _ => false
  end.

(** The upstream answered a fetch of the log with the response [resp]. *)
Definition upstreamAnswered (tr : list Event) (resp : http.UpstreamResponse) : Prop :=
  exists url, In (url, inr resp) (fetches tr).

Definition is2xx (st : Z) : bool := (200 <=? st) && (st <? 300).

(** The status forwarded for an upstream error: the upstream's own when it
    lies in 400..599, else 502. *)
Definition forwardedStatus (st : Z) : Z :=
  if (400 <=? st) && (st <=? 599) then st else http.StatusBadGateway.

(** The reply of the serve-cache outcome, given the answer of the store
    to the read of the object: the stored object, or a 500. *)
Definition servedOrFailed (ans : error + storage.Object) : http.Reply :=
  match ans with
  | inr obj => cacheReply obj
  | inl _ => http.Error "cache read failed" http.StatusInternalServerError
  end.

(** What a run of the single-flight section and of the final switch
    looks like, [core] being the function passed to [s.sf.Do]. *)
Definition afterCore (objKey : string) (res : Outcome (error + fetchResult))
    (post : list Event) (o : Outcome http.Reply) : Prop :=
  match res with
  | Done r => Run (afterDo objKey r) post o
  | Panicked => post = [] /\ o = Panicked
  end.

(** A run of either handler of the repository. *)
Definition handlerRun (timeParse : string -> option Z) (timeFormat : Z -> string)
    (urlOK : string -> bool) (s : Server) (path rawQuery : string)
    (tr : list Event) (o : Outcome http.Reply) : Prop :=
  Run (server.ServeHTTP timeParse timeFormat urlOK s path rawQuery) tr o \/
  Run (server_iface.ServeHTTP timeParse timeFormat urlOK s path rawQuery) tr o.

(** Negative caching as the specification states it, for the requests
    of one path: an upstream 404 makes the handler write the negative
    record and answer 404, and every later request made while the store
    holds that record and it is negative-fresh is answered 404 without an
    upstream fetch. *)
Definition negativeCachingAsStated (timeParse : string -> option Z)
    (timeFormat : Z -> string) (urlOK : string -> bool)
    (s : Server) (path : string) : Prop :=
  forall rawQuery tr o resp,
    Run (server.ServeHTTP timeParse timeFormat urlOK s path rawQuery) tr o ->
    upstreamAnswered tr resp ->
    http.StatusCode resp = http.StatusNotFound ->
    exists d r t,
      server.splitDomainAndRoute path = Some (d, r) /\
      lastNow tr = Some t /\
      writes tr = [WroteMeta (cache.MetaKey d r) (negativeRecord timeFormat s t)] /\
      o = Done (http.Error "Upstream 404" http.StatusNotFound) /\
      forall rawQuery' tr' o',
        Run (server.ServeHTTP timeParse timeFormat urlOK s path rawQuery') tr' o' ->
        storeHolds (negativeRecord timeFormat s t) tr' ->
        negativeFreshDuring timeParse (negativeRecord timeFormat s t) (TTL404 s) tr' ->
        fetches tr' = [] /\
        exists msg, o' = Done (http.Error msg http.StatusNotFound).

(** The path has a route component: after a leading slash is stripped, a
    second segment follows a slash. *)
Definition hasRouteComponent (path : string) : Prop :=
  exists d r, Go.TrimPrefixSlash path = d +:+ "/" +:+ r.

(** The path has a domain and a route component: after a leading slash is
    stripped, a non-empty first segment is followed by a slash. *)
Definition hasDomainAndRoute (path : string) : Prop :=
  exists d r, d <> "" /\ Go.noSlash d = true /\
              Go.TrimPrefixSlash path = d +:+ "/" +:+ r.

(** The reply to a path that fails validation. *)
Definition badPathReply : http.Reply :=
  http.Error "path must be /<domain>/<route>" http.StatusBadRequest.

(** Path validation as the specification states it, on one run that ends
    with a reply: the status is 400 exactly when the path has no route
    component. *)
Definition pathValidationAsStated (timeParse : string -> option Z)
    (timeFormat : Z -> string) (urlOK : string -> bool)
    (s : Server) (path rawQuery : string)
    (tr : list Event) (reply : http.Reply) : Prop :=
  Run (server.ServeHTTP timeParse timeFormat urlOK s path rawQuery) tr (Done reply) ->
  (http.status reply = http.StatusBadRequest <-> ~ hasRouteComponent path).

(** ** Example scenarios *)

Module scenario.

(** 2025-01-01T00:00:00Z. *)
Definition t0 : Z := 1735689600000000000.

Definition origin (url : string) : error + http.UpstreamResponse :=
  if String.eqb url "https://example.com/a.txt"
  then inr (http.mkUpstreamResponse 200 "text/plain" "x1" "" (inr "hello"))
  else if String.eqb url "https://example.com/missing"
  then inr (http.mkUpstreamResponse 404 "text/plain" "" "" (inr "not here"))
  else if String.eqb url "https://example.com/down"
  then inr (http.mkUpstreamResponse 503 "text/plain" "" "" (inr "try later"))
  else if String.eqb url "https://example.com/bad"
  then inr (http.mkUpstreamResponse 400 "text/plain" "" "" (inr "bad request"))
  else inl "dial tcp: no such host".

(** The same origin once a.txt is unchanged and answers conditionally. *)
Definition originUnchanged (url : string) : error + http.UpstreamResponse :=
  if String.eqb url "https://example.com/a.txt"
  then inr (http.mkUpstreamResponse 304 "" "x1" "" (inr ""))
  else origin url.

Definition emptyStore : memory.World := memory.mkWorld ∅ ∅ t0 origin [].

Definition srv : Server := mkServer 3600 60 false.
Definition srvEager : Server := mkServer 3600 60 true.

Definition anyURL (url : string) : bool := true.

(** One request against the handler with inline steps. *)
Definition get (s : Server) (path : string) (w : memory.World) :=
  exec memory.env (server.ServeHTTP utctime.parse utctime.format anyURL s path "") w.

(** One request against the handler over the Store interface. *)
Definition getIface (s : Server) (path : string) (w : memory.World) :=
  exec memory.env (server_iface.ServeHTTP utctime.parse utctime.format anyURL s path "") w.

(** Scenario C: a.txt is fetched and stored; two hours later, past its
    TTL, it is requested again and the origin answers 304. *)
Definition firstGet := get srv "/example.com/a.txt" emptyStore.
Definition revalidation :=
  get srv "/example.com/a.txt"
    (memory.withUpstream originUnchanged
       (memory.later 7200000000000 [] (worldOf firstGet))).

(** The record stored by the first request. *)
Definition storedMeta : cache.Meta :=
  cache.mkMeta "x1" "" "2025-01-01T00:00:00Z" 3600 5 false.

(** Scenario B: a miss on a path the origin does not have, and the same
    request one second later. *)
Definition missGet := get srv "/example.com/missing" emptyStore.
Definition missAgain :=
  get srv "/example.com/missing" (memory.later 1000000000 [] (worldOf missGet)).

(** A store still holding an object the origin has since removed, with
    its expired record; the server is configured to serve if present. The
    existence check of the first request fails, the second request comes
    one second later. *)
Definition staleStore : memory.World :=
  memory.mkWorld
    {[ "objects/example.com/missing" :=
         storage.mkObject "old" 3 [("Content-Type", "text/plain")] ]}
    {[ "meta/example.com/missing.json" :=
         cache.mkMeta "v0" "" "2024-12-31T00:00:00Z" 3600 3 false ]}
    t0 origin [true].
Definition staleGet := get srvEager "/example.com/missing" staleStore.
Definition staleWorld : memory.World := memory.later 1000000000 [] (worldOf staleGet).
Definition staleAgain := get srvEager "/example.com/missing" staleWorld.

(** Scenario A on a store whose fourth call, the write of the metadata,
    fails. *)
Definition metaWriteFails : memory.World :=
  memory.mkWorld ∅ ∅ t0 origin [false; false; false; true].

(** A request the origin answers with status 400. *)
Definition badGet := get srv "/example.com/bad" emptyStore.

End scenario.

(** ** Further vocabulary *)

(** The record read as a positive one: the same fields, Neg false. *)
Definition asPositive (m : cache.Meta) : cache.Meta :=
  cache.mkMeta (cache.ETag m) (cache.LastModified m) (cache.CachedAt m)
    (cache.TTL m) (cache.Size m) false.

(** The conditional headers of the upstream fetches of a log:
    If-None-Match and If-Modified-Since, [None] when not set. *)
Fixpoint conditionals (tr : list Event) : list (option string * option string) :=
  match tr with
  | [] => []
  | EvClientDo _ inm ims _ :: tr' => (inm, ims) :: conditionals tr'
  | _ :: tr' => conditionals tr'
  end.

(** The transport failed on a fetch of the log, with the error [err]. *)
Definition transportFailed (tr : list Event) (err : error) : Prop :=
  exists url, In (url, inl err) (fetches tr).

(** Every existence check of the log finds the object and every read of
    an object succeeds. *)
Definition objectsServed (tr : list Event) : bool :=
  forallb (fun ev =>
             match ev with
             | EvHasObject _ (ok, _) => ok
             | EvGetObject _ (inl _) => false
             | _ => true
             end) tr.


(** The call is on the object key, on the metadata key or on the
    upstream URL given, or reads the clock. *)
Definition touches (objKey metaKey url : string) (ev : Event) : Prop :=
  match ev with
  | EvHasObject k _ | EvGetObject k _ | EvPutObject k _ _ _ => k = objKey
  | EvReadMeta k _ | EvWriteMeta k _ _ => k = metaKey
  | EvClientDo u _ _ _ => u = url
  | EvNow _ => True
  end.

(** The positive record written after a 2xx answer read at clock
    reading [t]. *)
Definition positiveRecord (timeFormat : Z -> string) (s : Server)
    (resp : http.UpstreamResponse) (body : string) (t : Z) : cache.Meta :=
  cache.mkMeta (http.hETag resp) (http.hLastModified resp) (timeFormat t)
    (TTLDefault s) (Go.len body) false.

(** The reply that carries the bytes just fetched. *)
Definition fetchedReply (resp : http.UpstreamResponse) (body : string) : http.Reply :=
  http.mkReply http.StatusOK
    ([("Content-Type",
       if String.eqb (http.hContentType resp) "" then "application/octet-stream"
       else http.hContentType resp)]
       ++ (if String.eqb (http.hETag resp) "" then [] else [("ETag", http.hETag resp)])
       ++ (if String.eqb (http.hLastModified resp) "" then []
           else [("Last-Modified", http.hLastModified resp)])
       ++ [("Content-Length", Go.FormatInt (Go.len body))])
    body.

(** The function either handler passes to [s.sf.Do] for a request. *)
Definition isCore (timeParse : string -> option Z) (timeFormat : Z -> string)
    (urlOK : string -> bool) (s : Server) (objKey metaKey url : string)
    (core : Prog (error + fetchResult)) : Prop :=
  core = server.fetchAndPersist timeParse timeFormat urlOK s objKey metaKey url \/
  core = server_iface.fetchAndPersist timeParse timeFormat urlOK s objKey metaKey url.

(** ** Further scenarios *)

Module more.

(** The origin of the scenarios, with a page that has moved. *)
Definition origin (url : string) : error + http.UpstreamResponse :=
  if String.eqb url "https://example.com/moved"
  then inr (http.mkUpstreamResponse 302 "" "" "" (inr ""))
  else scenario.origin url.

(** A redirect the client did not follow ends the fetch: the handler
    sees the 302. *)
Definition movedGet :=
  scenario.get scenario.srv "/example.com/moved"
    (memory.withUpstream origin scenario.emptyStore).

(** A URL is refused when it holds a space. *)
Fixpoint noSpace (url : string) : bool :=
  match url with
  | EmptyString => true
  | String c url' => negb (Ascii.eqb c " ") && noSpace url'
  end.

Definition spaceGet :=
  exec memory.env
    (server.ServeHTTP utctime.parse utctime.format noSpace scenario.srv
       "/exa mple.com/a.txt" "")
    scenario.emptyStore.

Definition unreachableGet :=
  scenario.get scenario.srv "/nowhere.invalid/x" scenario.emptyStore.



(** Scenario A with a query. *)
Definition queryGet :=
  exec memory.env
    (server.ServeHTTP utctime.parse utctime.format scenario.anyURL scenario.srv
       "/example.com/a.txt" "v=2")
    scenario.emptyStore.

End more.

(** ** Package storage, over the MinIO client *)

(** The MinIO client is external: a call on it is an event of its own
    kind, with the answer the client gives. *)
Module minio.

(** An error of the client, as [minio.ToErrorResponse] shows it. *)
Record Err := mkErr {
  Code : string;
  StatusCode : Z;
  Message : string
}.

(** The fields of [minio.ObjectInfo] the store reads; [LastModified] is a
    time in nanoseconds since the Unix epoch. *)
Record ObjectInfo := mkObjectInfo {
  ETag : string;
  ContentType : string;
  LastModified : Z;
  Size : Z
}.

(** The zero [time.Time]: January 1 of the year 1, UTC. *)
Definition zeroTime : Z := -62135596800000000000.

(** A reader handed out by [GetObject]: what reading it to the end gives. *)
Definition Reader : Type := Err + string.

Inductive Call : Type -> Type :=
| New (endpoint access secret : string) (secure : bool) : Call (option Err)
| BucketExists (bucket : string) : Call (bool * option Err)
| MakeBucket (bucket : string) : Call (option Err)
| StatObject (bucket key : string) : Call (Err + ObjectInfo)
| GetObject (bucket key : string) : Call (Err + Reader)
| PutObject (bucket key data : string) (size : Z) (contentType : string)
    : Call (option Err).

Inductive Prog (A : Type) : Type :=
| Ret (a : A)
| Vis {X : Type} (c : Call X) (k : X -> Prog A).

Arguments Ret {A} a.
Arguments Vis {A X} c k.

Fixpoint bind {A B} (p : Prog A) (f : A -> Prog B) : Prog B :=
  match p with
  | Ret a => f a
  | Vis c k => Vis c (fun x => bind (k x) f)
  end.

Definition call {X} (c : Call X) : Prog X := Vis c Ret.

Inductive Event :=
| EvNew (endpoint access secret : string) (secure : bool) (ans : option Err)
| EvBucketExists (bucket : string) (ans : bool * option Err)
| EvMakeBucket (bucket : string) (ans : option Err)
| EvStatObject (bucket key : string) (ans : Err + ObjectInfo)
| EvGetObject (bucket key : string) (ans : Err + Reader)
| EvPutObject (bucket key data : string) (size : Z) (contentType : string)
    (ans : option Err).

Definition eventOf {X} (c : Call X) : X -> Event :=
  match c in Call X return X -> Event with
  | New e a s sec => EvNew e a s sec
  | BucketExists b => EvBucketExists b
  | MakeBucket b => EvMakeBucket b
  | StatObject b k => EvStatObject b k
  | GetObject b k => EvGetObject b k
  | PutObject b k d n ct => EvPutObject b k d n ct
  end.

(** [Run p tr a]: [p] makes exactly the calls of [tr], gets the answers
    recorded there, and returns [a]. *)
Fixpoint Run {A} (p : Prog A) (tr : list Event) (a : A) : Prop :=
  match p with
  | Ret a' => tr = [] /\ a = a'
  | Vis c k => exists x tr', tr = eventOf c x :: tr' /\ Run (k x) tr' a
  end.

End minio.

Declare Scope mprog_scope.
Delimit Scope mprog_scope with mprog.
Notation "x <- p ;; q" := (minio.bind p (fun x => q))
  (at level 20, p at level 99, q at level 200, only parsing) : mprog_scope.
Notation "' pat <- p ;; q" := (minio.bind p (fun x => match x with pat => q end))
  (at level 20, pat pattern, p at level 99, q at level 200, only parsing) : mprog_scope.

Module store.

(** A Go error of this package: one of the client, or one made here or by
    the JSON codec. *)
Inductive Error :=
| ClientError (e : minio.Err)
| OtherError (text : string).

(** [Store]: the client is the outside world. *)
Record Store := mkStore { bucket : string }.

(** [len(s) >= n && s[:n] == prefix], with [n] the length of the prefix. *)
Definition startsWith (s prefix : string) : bool :=
  (Go.len prefix <=? Go.len s) && String.eqb (Go.sliceTo s (Go.len prefix)) prefix.

(** The scheme handling at the head of NewStore: whether the client is to
    use TLS, and the endpoint handed to it. *)
Definition schemeOf (endpoint : string) : bool * string :=
  if startsWith endpoint "https://" then (true, Go.sliceFrom endpoint 8)
  else if startsWith endpoint "http://" then (false, Go.sliceFrom endpoint 7)
  else (false, endpoint).

Section Store.

(** [json.Marshal] of a Meta, [json.Unmarshal] into a zero Meta (the
    record as the call leaves it, and the error), and
    [Time.UTC().Format(time.RFC1123)]. *)
Variable jsonMarshal : cache.Meta -> string + string.
Variable jsonUnmarshal : string -> cache.Meta * option string.
Variable formatRFC1123 : Z -> string.

Local Open Scope mprog_scope.

Definition NewStore (endpoint access secret bucket : string)
  : minio.Prog (Error + Store) :=
  let '(secure, endpoint) := schemeOf endpoint in
  cl <- minio.call (minio.New endpoint access secret secure) ;;
  match cl with
  | Some err => minio.Ret (inl (ClientError err))
  | None =>
      '(exists_, err) <- minio.call (minio.BucketExists bucket) ;;
      match err with
      | Some err => minio.Ret (inl (ClientError err))
      | None =>
          if exists_ : bool then minio.Ret (inr (mkStore bucket))
          else
            mk <- minio.call (minio.MakeBucket bucket) ;;
            match mk with
            | Some err => minio.Ret (inl (ClientError err))
            | None => minio.Ret (inr (mkStore bucket))
            end
      end
  end.

Definition HasObject (s : Store) (key : string) : minio.Prog (bool * option Error) :=
  st <- minio.call (minio.StatObject (bucket s) key) ;;
  match st with
  | inl err =>
      if String.eqb (minio.Code err) "NoSuchKey"
         || String.eqb (minio.Code err) "NoSuchBucket"
         || (minio.StatusCode err =? 404)
      then minio.Ret (false, None)
      else minio.Ret (false, Some (ClientError err))
  | inr _ => minio.Ret (true, None)
  end.

(** The header map GetObject builds from the stat of the object. *)
Definition headersOf (st : minio.ObjectInfo) : gmap string string :=
  let h : gmap string string :=
    {[ "ETag" := minio.ETag st; "Content-Type" := minio.ContentType st ]} in
  if minio.LastModified st =? minio.zeroTime then h
  else <[ "Last-Modified" := formatRFC1123 (minio.LastModified st) ]> h.

Definition GetObject (s : Store) (key : string)
  : minio.Prog (Error + (minio.Reader * Z * gmap string string)) :=
  st <- minio.call (minio.StatObject (bucket s) key) ;;
  match st with
  | inl err => minio.Ret (inl (ClientError err))
  | inr st =>
      obj <- minio.call (minio.GetObject (bucket s) key) ;;
      match obj with
      | inl err => minio.Ret (inl (ClientError err))
      | inr obj => minio.Ret (inr (obj, minio.Size st, headersOf st))
      end
  end.

Definition PutObject (s : Store) (key data contentType : string)
  : minio.Prog (option Error) :=
  r <- minio.call (minio.PutObject (bucket s) key data (Go.len data) contentType) ;;
  match r with
  | Some err => minio.Ret (Some (ClientError err))
  | None => minio.Ret None
  end.

Definition ReadMeta (s : Store) (key : string)
  : minio.Prog (cache.Meta * bool * option Error) :=
  obj <- minio.call (minio.GetObject (bucket s) key) ;;
  match obj with
  | inl err =>
      if String.eqb (minio.Code err) "NoSuchKey" || (minio.StatusCode err =? 404)
      then minio.Ret (cache.zeroMeta, false, None)
      else minio.Ret (cache.zeroMeta, false, Some (ClientError err))
  | inr reader =>
      match reader with
      | inl err => minio.Ret (cache.zeroMeta, false, Some (ClientError err))
      | inr b =>
          match jsonUnmarshal b with
          | (m, Some _) => minio.Ret (m, false, None)
          | (m, None) => minio.Ret (m, true, None)
          end
      end
  end.

Definition WriteMeta (s : Store) (key : string) (m : cache.Meta)
  : minio.Prog (option Error) :=
  match jsonMarshal m with
  | inl err => minio.Ret (Some (OtherError err))
  | inr b =>
      r <- minio.call (minio.PutObject (bucket s) key b (Go.len b) "application/json") ;;
      match r with
      | Some err => minio.Ret (Some (ClientError err))
      | None => minio.Ret None
      end
  end.

Definition Ping (s : Store) : minio.Prog (option Error) :=
  '(exists_, err) <- minio.call (minio.BucketExists (bucket s)) ;;
  match err with
  | Some err => minio.Ret (Some (ClientError err))
  | None =>
      if exists_ : bool then minio.Ret None
      else minio.Ret (Some (OtherError ("bucket " +:+ bucket s +:+ " not found")))
  end.

End Store.
End store.

(** ** Package metrics *)

Module metrics.

Definition StatusServiceUnavailable : Z := 503.

Section Health.

(** What [json.NewEncoder(w).Encode] writes for
    [healthResponse{Status: status}]. *)
Variable encodeHealth : string -> string.

Definition writeHealth (code : Z) (status : string) : http.Reply :=
  http.mkReply code [("Content-Type", "application/json")] (encodeHealth status).

Local Open Scope mprog_scope.

(** The function [HealthCheckHandler] returns. *)
Definition HealthCheckHandler (s : store.Store) : minio.Prog http.Reply :=
  err <- store.Ping s ;;
  match err with
  | Some _ => minio.Ret (writeHealth StatusServiceUnavailable "down")
  | None => minio.Ret (writeHealth http.StatusOK "up")
  end.

End Health.
End metrics.

(** ** Package config *)

Module config.

Record Config := mkConfig {
  MinioEndpoint : string;
  MinioAccess : string;
  MinioSecret : string;
  MinioBucket : string;
  TTLDefault : Z;
  TTL404 : Z;
  ServeIf : bool;
  ListenAddr : string
}.

(** The values Load starts from. *)
Definition defaults : Config :=
  mkConfig "" "" "" "proxy-cache" 3600 60 false ":8080".

Section Load.

(** The process environment ([os.Getenv]: the empty string for a variable
    that is not set), the file system ([os.ReadFile]: [None] for an
    error), [yaml.Unmarshal] into a Config (the record as the call leaves
    it, its error being dropped), [strconv.Atoi] and [strings.EqualFold]. *)
Variable getenv : string -> string.
Variable readFile : string -> option string.
Variable yamlUnmarshal : string -> Config -> Config.
Variable Atoi : string -> option Z.
Variable EqualFold : string -> string -> bool.

(** [if v := os.Getenv(name); v != "" { field = v }]. *)
Definition override (name : string) (current : string) : string :=
  let v := getenv name in
  if String.eqb v "" then current else v.

(** The same for a field set through [strconv.Atoi]. *)
Definition overrideInt (name : string) (current : Z) : Z :=
  let v := getenv name in
  if String.eqb v "" then current
  else match Atoi v with
       | Some n => n
       | None => current
       end.

Definition Load : Config * option string :=
  let path := override "RAW_CACHER_CONFIG" "config.yaml" in
  let cfg :=
    match readFile path with
    | Some b => yamlUnmarshal b defaults
    | None => defaults
    end in
  let cfg :=
    mkConfig
      (override "MINIO_ENDPOINT" (MinioEndpoint cfg))
      (override "MINIO_ACCESS_KEY" (MinioAccess cfg))
      (override "MINIO_SECRET_KEY" (MinioSecret cfg))
      (override "MINIO_BUCKET" (MinioBucket cfg))
      (overrideInt "TTL_DEFAULT" (TTLDefault cfg))
      (overrideInt "TTL_404" (TTL404 cfg))
      (let v := getenv "SERVE_IF_PRESENT" in
       if String.eqb v "" then ServeIf cfg
       else EqualFold v "true" || String.eqb v "1")
      (override "LISTEN_ADDR" (ListenAddr cfg)) in
  if String.eqb (MinioEndpoint cfg) "" || String.eqb (MinioAccess cfg) ""
     || String.eqb (MinioSecret cfg) "" || String.eqb (MinioBucket cfg) ""
  then (cfg, Some "minio config incomplete (endpoint/access/secret/bucket)")
  else (cfg, None).

End Load.
End config.



(** ** Instances of the codecs and of the environment, for examples *)

Module samples.

(** [json.Marshal] of a Meta whose strings hold neither quotes nor
    backslashes, control or non-ASCII bytes, nor the characters the
    encoder escapes for HTML: the fields in the order of the struct, each
    left out when empty, zero or false. *)
Definition field (name value : string) : list string :=
  [String "034" name +:+ String "034" (":" +:+ value)].

Definition quoted (v : string) : string := String "034" v +:+ String "034" "".

Fixpoint joinComma (l : list string) : string :=
  match l with
  | [] => ""
  | [x] => x
  | x :: l' => x +:+ "," +:+ joinComma l'
  end.

Definition encodeMeta (m : cache.Meta) : string :=
  "{" +:+ joinComma
    ((if String.eqb (cache.ETag m) "" then [] else field "etag" (quoted (cache.ETag m)))
     ++ (if String.eqb (cache.LastModified m) "" then []
         else field "last_modified" (quoted (cache.LastModified m)))
     ++ (if String.eqb (cache.CachedAt m) "" then []
         else field "cached_at" (quoted (cache.CachedAt m)))
     ++ (if cache.TTL m =? 0 then [] else field "ttl_sec" (Go.FormatInt (cache.TTL m)))
     ++ (if cache.Size m =? 0 then [] else field "size" (Go.FormatInt (cache.Size m)))
     ++ (if cache.Neg m then field "neg" "true" else []))
    +:+ "}".

Definition jsonMarshal (m : cache.Meta) : string + string := inr (encodeMeta m).

(** [json.Unmarshal] on the texts of the examples: the encoding of the
    record of scenario A decodes to it, a text cut short is a syntax
    error that leaves the record untouched; every other text is refused. *)
Definition jsonUnmarshal (b : string) : cache.Meta * option string :=
  if String.eqb b (encodeMeta scenario.storedMeta) then (scenario.storedMeta, None)
  else (cache.zeroMeta, Some "unexpected end of JSON input").

(** The text [Encode] writes for a health response whose status needs no
    escaping. *)
Definition encodeHealth (status : string) : string :=
  "{" +:+ String "034" "status" +:+ String "034" ":" +:+ quoted status +:+ "}"
    +:+ String "010" "".

(** [strconv.Atoi] on an optional sign followed by digits, within the
    range of int. *)
Fixpoint digitsValue (s : string) (acc : Z) : option Z :=
  match s with
  | EmptyString => Some acc
  | String c s' =>
      match utctime.digit c with
      | Some d => digitsValue s' (acc * 10 + d)
      | None => None
      end
  end.

Definition Atoi (s : string) : option Z :=
  let unsigned (t : string) : option Z :=
    match t with
    | EmptyString => None
    | _ => digitsValue t 0
    end in
  let r :=
    match s with
    | String "-" t => Z.opp <$> unsigned t
    | String "+" t => unsigned t
    | _ => unsigned s
    end in
  match r with
  | Some n => if (Go.minInt64 <=? n) && (n <=? Go.maxInt64) then Some n else None
  | None => None
  end.

(** [strings.EqualFold] on ASCII strings. *)
Definition lower (c : ascii) : ascii :=
  let n := nat_of_ascii c in
  if (65 <=? n)%nat && (n <=? 90)%nat then ascii_of_nat (n + 32) else c.

Fixpoint EqualFold (a b : string) : bool :=
  match a, b with
  | EmptyString, EmptyString => true
  | String x a', String y b' => Ascii.eqb (lower x) (lower y) && EqualFold a' b'
  | _, _ => false
  end.

(** A machine without a configuration file and with the three MinIO
    variables set. *)
Definition getenv (name : string) : string :=
  if String.eqb name "MINIO_ENDPOINT" then "minio:9000"
  else if String.eqb name "MINIO_ACCESS_KEY" then "minio"
  else if String.eqb name "MINIO_SECRET_KEY" then "minio12345"
  else if String.eqb name "TTL_DEFAULT" then "1h"
  else if String.eqb name "TTL_404" then "0"
  else "".

Definition noFiles (path : string) : option string := None.

Definition yamlUnmarshal (b : string) (cfg : config.Config) : config.Config := cfg.

Definition loaded : config.Config * option string :=
  config.Load getenv noFiles yamlUnmarshal Atoi EqualFold.



(** The calls of NewStore on a server that does not have the bucket yet. *)
Definition firstOpen : list minio.Event :=
  [minio.EvNew "minio:9000" "minio" "minio12345" false None;
   minio.EvBucketExists "proxy-cache" (false, None);
   minio.EvMakeBucket "proxy-cache" None].

Definition opened : store.Error + store.Store := inr (store.mkStore "proxy-cache").

End samples.

(** ** Vocabulary for the store *)

(** The client says the object is not there: the status 404. *)
Definition isNotFound (e : minio.Err) : bool := minio.StatusCode e =? 404.

(** The data handed to the client by the puts of a log, with the bucket,
    the key and the content type. *)
Fixpoint puts (tr : list minio.Event) : list (string * string * string * string) :=
  match tr with
  | [] => []
  | minio.EvPutObject b k d _ ct _ :: tr' => (b, k, d, ct) :: puts tr'
  | _ :: tr' => puts tr'
  end.

(** The environment with one variable unset. *)
Definition unsetenv (getenv : string -> string) (name : string) : string -> string :=
  fun n => if String.eqb n name then "" else getenv n.

Example IndexByte_ex : Go.IndexByte "example.com/a.txt" "/" = 11.
Proof. reflexivity. Qed.
Example TrimRight_ex : Go.TrimRightSlash "a/b//" = "a/b".
Proof. reflexivity. Qed.
Example FormatInt_ex : Go.FormatInt 5 = "5" /\ Go.FormatInt 0 = "0" /\ Go.FormatInt (-12) = "-12".
Proof. repeat split; reflexivity. Qed.
Example ObjectKey_ex : cache.ObjectKey "example.com" "//a.txt" = "objects/example.com/a.txt".
Proof. reflexivity. Qed.
Example MetaKey_ex : cache.MetaKey "example.com" "a.txt" = "meta/example.com/a.txt.json".
Proof. reflexivity. Qed.

Example parse_epoch : utctime.parse "1970-01-01T00:00:00Z" = Some 0.
Proof. reflexivity. Qed.
Example parse_2025 : utctime.parse "2025-01-01T00:00:00Z" = Some 1735689600000000000.
Proof. reflexivity. Qed.
Example parse_frac : utctime.parse "2025-01-01T00:00:00.5Z" = Some 1735689600500000000.
Proof. reflexivity. Qed.
Example parse_bad : utctime.parse "yesterday" = None /\ utctime.parse "2025-02-30T00:00:00Z" = None.
Proof. split; reflexivity. Qed.
Example format_2025 : utctime.format 1735689600000000000 = "2025-01-01T00:00:00Z".
Proof. reflexivity. Qed.
Example format_frac : utctime.format 1735689661500000001 = "2025-01-01T00:01:01.500000001Z".
Proof. reflexivity. Qed.
Example format_frac2 : utctime.format 1709209999120000000 = "2024-02-29T12:33:19.12Z".
Proof. vm_compute. reflexivity. Qed.

(** * Properties *)

(** ** Freshness model *)

Lemma wrap64_small x : Go.inInt64 x -> Go.wrap64 x = x.
Proof.
  unfold Go.inInt64, Go.minInt64, Go.maxInt64, Go.wrap64. intros H.
  rewrite Z.mod_small; lia.
Qed.

(** Against a bound that a Duration can hold and that is not its least
    value, the saturated difference compares as the exact one. *)
Lemma Since_lt now t d :
  Go.minInt64 < d <= Go.maxInt64 ->
  (Go.Since now t <? d) = (now - t <? d).
Proof.
  unfold Go.Since, Go.Sub. intros H.
  destruct (Z.ltb_spec (now - t) d); [apply Z.ltb_lt | apply Z.ltb_ge]; lia.
Qed.

Lemma seconds_not_min n : n * Go.Second <> Go.minInt64.
Proof.
  unfold Go.Second, Go.minInt64. intros H.
  assert (Hm : (n * 1000000000) mod 5 = (- 2 ^ 63) mod 5) by (now rewrite H).
  replace (n * 1000000000) with (n * 200000000 * 5) in Hm by lia.
  rewrite Z.mod_mul in Hm by lia. vm_compute in Hm. discriminate.
Qed.

Lemma ttl_choice m d :
  (if cache.TTL m <=? 0 then d else cache.TTL m) = effectiveTTL m d.
Proof.
  unfold effectiveTTL.
  destruct (Z.leb_spec (cache.TTL m) 0), (Z.ltb_spec 0 (cache.TTL m)); lia.
Qed.

Lemma eqb_empty s : String.eqb s "" = false <-> s <> "".
Proof. apply String.eqb_neq. Qed.

Lemma IsFresh_true_inv timeParse now m d :
  cache.IsFresh timeParse now m d = true ->
  cache.Neg m = false /\ cache.CachedAt m <> "" /\
  exists t, timeParse (cache.CachedAt m) = Some t /\
            Go.Since now t < Go.DurationSeconds (effectiveTTL m d).
Proof.
  unfold cache.IsFresh. rewrite ttl_choice.
  destruct (cache.Neg m); [discriminate |].
  destruct (String.eqb (cache.CachedAt m) "") eqn:He; [discriminate |].
  destruct (timeParse (cache.CachedAt m)) as [t |]; [| discriminate].
  intros H. apply Z.ltb_lt in H. apply eqb_empty in He. eauto.
Qed.

Lemma IsNegativeFresh_true_inv timeParse now m d :
  cache.IsNegativeFresh timeParse now m d = true ->
  cache.Neg m = true /\ cache.CachedAt m <> "" /\
  exists t, timeParse (cache.CachedAt m) = Some t /\
            Go.Since now t < Go.DurationSeconds (effectiveTTL m d).
Proof.
  unfold cache.IsNegativeFresh.
  destruct (cache.Neg m); [| discriminate]. cbn [negb orb].
  destruct (String.eqb (cache.CachedAt m) "") eqn:He; [discriminate |].
  destruct (timeParse (cache.CachedAt m)) as [t |]; [| discriminate].
  rewrite ttl_choice. intros H. apply Z.ltb_lt in H. apply eqb_empty in He. eauto.
Qed.

(** When the TTL in nanoseconds fits a Duration, the comparison of the
    code is the comparison of the exact values. *)
Lemma Since_lt_seconds now t ttl :
  Go.inInt64 (ttl * Go.Second) ->
  (Go.Since now t <? Go.DurationSeconds ttl) = (now - t <? ttl * Go.Second).
Proof.
  intros Hfit. unfold Go.DurationSeconds. rewrite wrap64_small by exact Hfit.
  apply Since_lt. pose proof (seconds_not_min ttl).
  unfold Go.inInt64 in Hfit. lia.
Qed.

(** C2, as amended: when the effective TTL in nanoseconds fits a 64-bit
    Duration, IsFresh is true exactly when the record is not negative,
    cachedAt is non-empty and parses, and now - cachedAt is below the
    effective TTL in seconds. *)
Theorem IsFresh_characterization (timeParse : string -> option Z)
    (now : Z) (m : cache.Meta) (defaultTTL : Z) :
  Go.inInt64 (effectiveTTL m defaultTTL * Go.Second) ->
  cache.IsFresh timeParse now m defaultTTL = true <->
  freshSpec timeParse now m defaultTTL.
Proof.
  intros Hfit. unfold freshSpec. split.
  - intros H. apply IsFresh_true_inv in H as (Hn & He & t & Hp & Hlt).
    repeat split; try assumption. exists t. split; [assumption |].
    apply Z.ltb_lt. rewrite <- Since_lt_seconds by exact Hfit. now apply Z.ltb_lt.
  - intros (Hn & He & t & Hp & Hlt).
    unfold cache.IsFresh. rewrite ttl_choice, Hn.
    apply eqb_empty in He. rewrite He, Hp, Since_lt_seconds by exact Hfit.
    now apply Z.ltb_lt.
Qed.

(** C2 at a record cached one minute ago with the default TTL of an hour. *)
Lemma IsFresh_characterization_witness :
  Go.inInt64 (effectiveTTL (cache.mkMeta "x1" "" "2025-01-01T00:00:00Z" 0 5 false) 3600
              * Go.Second) /\
  (cache.IsFresh utctime.parse 1735689660000000000
    (cache.mkMeta "x1" "" "2025-01-01T00:00:00Z" 0 5 false) 3600 = true <->
  freshSpec utctime.parse 1735689660000000000
    (cache.mkMeta "x1" "" "2025-01-01T00:00:00Z" 0 5 false) 3600).
Proof.
  assert (H : Go.inInt64
                (effectiveTTL (cache.mkMeta "x1" "" "2025-01-01T00:00:00Z" 0 5 false) 3600
                 * Go.Second)) by (vm_compute; split; discriminate).
  split; [exact H |].
  exact (IsFresh_characterization utctime.parse 1735689660000000000
           (cache.mkMeta "x1" "" "2025-01-01T00:00:00Z" 0 5 false) 3600 H).
Defined.

(** C2 as stated fails on a TTL whose nanoseconds overflow the Duration:
    a record cached at this very instant, default TTL 9223372037 seconds,
    is within its TTL and yet not fresh. *)
Lemma IsFresh_overflow_counterexample :
  ~ (cache.IsFresh utctime.parse 1735689600000000000
       (cache.mkMeta "" "" "2025-01-01T00:00:00Z" 0 0 false) 9223372037 = true <->
     freshSpec utctime.parse 1735689600000000000
       (cache.mkMeta "" "" "2025-01-01T00:00:00Z" 0 0 false) 9223372037).
Proof.
  intros [_ H].
  assert (Hf : cache.IsFresh utctime.parse 1735689600000000000
                 (cache.mkMeta "" "" "2025-01-01T00:00:00Z" 0 0 false) 9223372037
               = false) by (vm_compute; reflexivity).
  rewrite H in Hf; [discriminate |].
  unfold freshSpec. cbn [cache.Neg cache.CachedAt].
  repeat split; [discriminate |].
  exists 1735689600000000000. split; [vm_compute; reflexivity |].
  vm_compute. reflexivity.
Qed.

(** C3: a record whose cachedAt is empty or does not parse is neither
    fresh nor negative-fresh, whatever its other fields, the TTLs and the
    clock; both predicates are total functions into bool. *)
Theorem freshness_parse_failure (timeParse : string -> option Z)
    (m : cache.Meta) (now now' defaultTTL ttl404 : Z) :
  cache.CachedAt m = "" \/ timeParse (cache.CachedAt m) = None ->
  cache.IsFresh timeParse now m defaultTTL = false /\
  cache.IsNegativeFresh timeParse now' m ttl404 = false.
Proof.
  intros H. unfold cache.IsFresh, cache.IsNegativeFresh.
  destruct H as [H | H]; rewrite H.
  - cbn. rewrite orb_true_r. now destruct (cache.Neg m).
  - destruct (cache.Neg m), (String.eqb (cache.CachedAt m) ""); auto.
Qed.

Lemma freshness_parse_failure_witness :
  utctime.parse "yesterday" = None /\
  cache.IsFresh utctime.parse 1735689600000000000
    (cache.mkMeta "x1" "" "yesterday" 60 5 true) 3600 = false /\
  cache.IsNegativeFresh utctime.parse 1735689600000000000
    (cache.mkMeta "x1" "" "yesterday" 60 5 true) 60 = false.
Proof.
  split; [vm_compute; reflexivity |].
  apply (freshness_parse_failure utctime.parse
           (cache.mkMeta "x1" "" "yesterday" 60 5 true)).
  right. vm_compute. reflexivity.
Defined.

(** C10: no record is fresh and negative-fresh at once, whatever the TTLs
    and the clock readings: the first needs Neg false, the second Neg
    true. *)
Theorem fresh_negative_exclusive (timeParse : string -> option Z)
    (m : cache.Meta) (now now' defaultTTL ttl404 : Z) :
  cache.IsFresh timeParse now m defaultTTL
    && cache.IsNegativeFresh timeParse now' m ttl404 = false.
Proof.
  unfold cache.IsFresh, cache.IsNegativeFresh.
  destruct (cache.Neg m); cbn; [reflexivity |]. apply andb_false_r.
Qed.

(** ** Key derivation *)

Lemma append_cancel_l (a x y : string) : a +:+ x = a +:+ y -> x = y.
Proof. induction a as [| c a IH]; cbn; intros H; [assumption | injection H; auto]. Qed.

Lemma length_append (a b : string) :
  String.length (a +:+ b) = (String.length a + String.length b)%nat.
Proof. induction a as [| c a IH]; simpl; [reflexivity | now f_equal]. Qed.

Lemma append_cancel_r (t x y : string) : x +:+ t = y +:+ t -> x = y.
Proof.
  revert y. induction x as [| c x IH]; intros [| c' y] H.
  - reflexivity.
  - apply (f_equal String.length) in H.
    change (String.length t = S (String.length (y +:+ t))) in H.
    rewrite length_append in H. lia.
  - apply (f_equal String.length) in H.
    change (S (String.length (x +:+ t)) = String.length t) in H.
    rewrite length_append in H. lia.
  - injection H as -> H. f_equal. now apply IH.
Qed.

(** A slash-free prefix followed by a slash determines the split. *)
Lemma split_at_first_slash (d1 d2 x y : string) :
  Go.noSlash d1 = true -> Go.noSlash d2 = true ->
  d1 +:+ "/" +:+ x = d2 +:+ "/" +:+ y -> d1 = d2 /\ x = y.
Proof.
  revert d2. induction d1 as [| c d1 IH]; intros [| c' d2] H1 H2 H; cbn in *.
  - injection H as H. subst. auto.
  - injection H as Hc _. subst c'. cbn in H2. discriminate.
  - injection H as Hc _. subst c. cbn in H1. discriminate.
  - injection H as Hc H. subst c'.
    apply andb_prop in H1 as [_ H1]. apply andb_prop in H2 as [_ H2].
    destruct (IH d2 H1 H2 H) as [Hd Hx]. subst. auto.
Qed.

Lemma ObjectKey_inj (d1 r1 d2 r2 : string) :
  Go.noSlash d1 = true -> Go.noSlash d2 = true ->
  cache.ObjectKey d1 r1 = cache.ObjectKey d2 r2 -> sameAfterTrim d1 r1 d2 r2.
Proof.
  unfold cache.ObjectKey, sameAfterTrim. intros H1 H2 H.
  apply append_cancel_l in H.
  destruct (split_at_first_slash _ _ _ _ H1 H2 H) as [-> ->]. reflexivity.
Qed.

Lemma MetaKey_inj (d1 r1 d2 r2 : string) :
  Go.noSlash d1 = true -> Go.noSlash d2 = true ->
  cache.MetaKey d1 r1 = cache.MetaKey d2 r2 -> sameAfterTrim d1 r1 d2 r2.
Proof.
  unfold cache.MetaKey, sameAfterTrim. intros H1 H2 H.
  apply append_cancel_l in H.
  destruct (split_at_first_slash _ _ _ _ H1 H2 H) as [-> H'].
  apply append_cancel_r in H'. now rewrite H'.
Qed.

(** C8, as amended: for domains without a slash, as the handlers derive
    them, two pairs that differ after the leading slashes of the route are
    trimmed get distinct object keys and distinct metadata keys. *)
Theorem key_derivation_injective (d1 r1 d2 r2 : string) :
  Go.noSlash d1 = true -> Go.noSlash d2 = true ->
  ~ sameAfterTrim d1 r1 d2 r2 -> keysDistinct d1 r1 d2 r2.
Proof.
  intros H1 H2 Hne. split; intros H; apply Hne.
  - now apply ObjectKey_inj.
  - now apply MetaKey_inj.
Qed.

Lemma key_derivation_injective_witness :
  ~ sameAfterTrim "example.com" "/a.txt" "example.com" "b.txt" /\
  keysDistinct "example.com" "/a.txt" "example.com" "b.txt".
Proof.
  assert (H : ~ sameAfterTrim "example.com" "/a.txt" "example.com" "b.txt")
    by (unfold sameAfterTrim; cbn; discriminate).
  split; [exact H |].
  apply (key_derivation_injective "example.com" "/a.txt" "example.com" "b.txt");
    [reflexivity | reflexivity | exact H].
Defined.

(** C8 as stated fails when a domain holds a slash: the pairs ("a", "b/c")
    and ("a/b", "c") differ and share both keys. *)
Lemma key_collision_counterexample :
  ~ (~ sameAfterTrim "a" "b/c" "a/b" "c" -> keysDistinct "a" "b/c" "a/b" "c").
Proof.
  intros H. destruct H as [H _].
  - unfold sameAfterTrim. cbn. discriminate.
  - apply H. reflexivity.
Qed.

(** ** Runs of the handlers *)

Lemma exec_Run {W A} (env : forall X, Eff X -> W -> X * W) (p : Prog A) (w : W) :
  Run p (traceOf (exec env p w)) (outcomeOf (exec env p w)).
Proof.
  revert w. induction p as [a | | X e k IH]; intros w; cbn.
  - auto.
  - auto.
  - destruct (env X e w) as [x w1] eqn:He.
    specialize (IH x w1). destruct (exec env (k x) w1) as [[tr o] w2].
    exists x, tr. split; [reflexivity | exact IH].
Qed.

(** Every program ends, with a reply or a panic, whatever the
    environment answers. *)
Lemma Run_total {A} (p : Prog A) (oracle : forall X, Eff X -> X) :
  exists tr o, Run p tr o.
Proof.
  exists (traceOf (exec (fun X e (w : unit) => (oracle X e, w)) p tt)),
         (outcomeOf (exec (fun X e (w : unit) => (oracle X e, w)) p tt)).
  apply exec_Run.
Qed.

Lemma Run_deterministic {A} (p : Prog A) tr o o' :
  Run p tr o -> Run p tr o' -> o = o'.
Proof.
  revert tr. induction p as [a | | X e k IH]; intros tr; cbn.
  - intros [_ ->] [_ ->]. reflexivity.
  - intros [_ ->] [_ ->]. reflexivity.
  - intros (x & tr1 & -> & H1) (y & tr2 & Heq & H2).
    destruct e; cbn in Heq; injection Heq as; subst; eauto.
Qed.

Lemma Run_bind {A B} (p : Prog A) (f : A -> Prog B) tr o :
  Run (bind p f) tr o ->
  (exists a tr1 tr2, tr = tr1 ++ tr2 /\ Run p tr1 (Done a) /\ Run (f a) tr2 o)
  \/ (o = Panicked /\ Run p tr Panicked).
Proof.
  revert tr. induction p as [a | | X e k IH]; intros tr; cbn.
  - intros H. left. exists a, [], tr. auto.
  - intros [-> ->]. right. auto.
  - intros (x & tr' & -> & H). destruct (IH x tr' H) as [(a & t1 & t2 & -> & H1 & H2) | [-> H1]].
    + left. exists a, (eventOf e x :: t1), t2. split; [reflexivity |]. split; [| exact H2].
      exists x, t1. auto.
    + right. split; [reflexivity |]. exists x, tr'. auto.
Qed.

(** Unfolds a run call by call, splitting on every answer and test. *)
Ltac run_inv H :=
  repeat (
    lazymatch type of H with
    | _ /\ _ => destruct H as [? ?]; subst
    | exists _, _ => destruct H as (? & ? & ? & H); subst
    | Run ?p _ _ =>
        first [ progress cbn in H
              | match p with
                | context [match ?x with _ => _ end] => destruct x eqn:?
                end ]
    end).

(** *** Observations and concatenation *)

Lemma fetches_app a b : fetches (a ++ b) = fetches a ++ fetches b.
Proof.
  induction a as [| ev a IH]; cbn; [reflexivity |].
  destruct (fetchOf ev); cbn; now rewrite IH.
Qed.

Lemma writes_app a b : writes (a ++ b) = writes a ++ writes b.
Proof.
  induction a as [| ev a IH]; cbn; [reflexivity |].
  destruct (writeOf ev); cbn; now rewrite IH.
Qed.

Lemma lastReadMeta_app a b :
  lastReadMeta (a ++ b) =
  match lastReadMeta b with Some r => Some r | None => lastReadMeta a end.
Proof.
  induction a as [| ev a IH]; cbn.
  - now destruct (lastReadMeta b).
  - rewrite IH. destruct (lastReadMeta b); [reflexivity |].
    now destruct (lastReadMeta a).
Qed.

Lemma lastNow_app a b :
  lastNow (a ++ b) = match lastNow b with Some t => Some t | None => lastNow a end.
Proof.
  induction a as [| ev a IH]; cbn.
  - now destruct (lastNow b).
  - rewrite IH. destruct (lastNow b); [reflexivity |]. now destruct (lastNow a).
Qed.

Lemma quiet_silent l :
  forallb isQuiet l = true -> fetches l = [] /\ writes l = [].
Proof.
  induction l as [| ev l IH]; cbn; [auto |].
  intros H. apply andb_prop in H as [Hq Hl]. destruct (IH Hl) as [-> ->].
  destruct ev; cbn in *; auto; discriminate.
Qed.

Lemma probe_silent l :
  forallb isProbe l = true ->
  fetches l = [] /\ writes l = [] /\ lastReadMeta l = None /\ lastNow l = None.
Proof.
  induction l as [| ev l IH]; cbn; [auto |].
  intros H. apply andb_prop in H as [Hq Hl]. destruct (IH Hl) as (-> & -> & -> & ->).
  destruct ev; cbn in *; auto; discriminate.
Qed.

(** *** The phases of a request *)

(** The reply of the switch on [res.kind] comes after probes of the store
    only. *)
Lemma afterDo_probes objKey r tr o :
  Run (afterDo objKey r) tr o -> forallb isProbe tr = true.
Proof.
  intros H. unfold afterDo, respond, serveFromCache in H.
  run_inv H; reflexivity.
Qed.

Lemma app_cons_split {A} (x : A) l p r : l = p ++ r -> x :: l = (x :: p) ++ r.
Proof. intros ->. reflexivity. Qed.

(** Finds the calls made before the rest [r] of a log. *)
Ltac split_log :=
  repeat match goal with
    | |- ?r = _ ++ ?r => exact (eq_refl : r = [] ++ r)
    | |- _ :: _ = _ ++ _ => apply app_cons_split
    end.

(** A request is answered by the eager serve or a fast path, after quiet
    calls only, or it enters the single-flight section after quiet calls. *)
Lemma fastPaths_run timeParse s objKey metaKey slow tr o :
  Run (fastPaths timeParse s objKey metaKey slow) tr o ->
  (forallb isQuiet tr = true /\
   (o = Done (http.Error "Upstream negative-cached 404" http.StatusNotFound)
    \/ exists obj, o = Done (cacheReply obj)))
  \/ (exists pre rest, tr = pre ++ rest /\ forallb isQuiet pre = true /\ Run slow rest o).
Proof.
  intros H.
  unfold fastPaths, serveIfStored, serveFromCache, negativeFresh, positiveFresh in H.
  run_inv H;
    first
      [ left; split; [reflexivity | eauto]
      | right;
        match goal with
        | H' : Run slow ?rest _ |- _ =>
            eexists _, rest; split; [split_log | split; [reflexivity | exact H']]
        end ].
Qed.

Lemma request_phases timeParse s objKey metaKey (core : Prog (error + fetchResult)) tr o :
  Run (fastPaths timeParse s objKey metaKey
         (r <- sfDo objKey core ;; afterDo objKey r)) tr o ->
  (forallb isQuiet tr = true /\
   (o = Done (http.Error "Upstream negative-cached 404" http.StatusNotFound)
    \/ exists obj, o = Done (cacheReply obj)))
  \/ (exists pre c post res,
        tr = pre ++ c ++ post /\ forallb isQuiet pre = true /\
        forallb isProbe post = true /\ Run core c res /\ afterCore objKey res post o).
Proof.
  intros H. apply fastPaths_run in H as [H | (pre & rest & -> & Hpre & H)]; [now left |].
  right. unfold sfDo in H.
  apply Run_bind in H as [(r & c & post & -> & Hc & Hp) | [-> Hc]].
  - exists pre, c, post, (Done r). repeat split; try assumption.
    eapply afterDo_probes, Hp.
  - exists pre, rest, [], Panicked. rewrite app_nil_r. repeat split; assumption.
Qed.

Lemma phases_observed pre c post :
  forallb isQuiet pre = true -> forallb isProbe post = true ->
  fetches (pre ++ c ++ post) = fetches c /\
  writes (pre ++ c ++ post) = writes c /\
  (forall x, lastReadMeta c = Some x -> lastReadMeta (pre ++ c ++ post) = Some x) /\
  (forall t, lastNow c = Some t -> lastNow (pre ++ c ++ post) = Some t).
Proof.
  intros Hpre Hpost.
  destruct (quiet_silent _ Hpre) as [Hf Hw].
  destruct (probe_silent _ Hpost) as (Hf' & Hw' & Hm & Hn).
  rewrite !fetches_app, !writes_app, !lastReadMeta_app, !lastNow_app.
  rewrite Hf, Hw, Hf', Hw', Hm, Hn, !app_nil_r. cbn.
  repeat split; intros x ->; reflexivity.
Qed.

(** The switch on an upstream error: the status is forwarded when it lies
    in 400..599, else 502; the store is not read. *)
Lemma afterDo_upstream_error objKey st post o :
  Run (afterDo objKey (inr (mkFetchResult kindUpstreamError st "" "" "" ""))) post o ->
  post = [] /\ o = Done (http.Error "Upstream error" (forwardedStatus st)).
Proof.
  unfold afterDo, respond, forwardedStatus. cbn.
  rewrite Z.geb_leb.
  destruct ((400 <=? st) && (st <=? 599)); cbn; intros [-> ->]; auto.
Qed.

Lemma afterDo_not_found objKey post o :
  Run (afterDo objKey (inr (resultOfKind kindNotFound))) post o ->
  post = [] /\ o = Done (http.Error "Upstream 404" http.StatusNotFound).
Proof. cbn. intros [-> ->]; auto. Qed.

Lemma afterDo_error objKey err post o :
  Run (afterDo objKey (inl err)) post o ->
  post = [] /\ o = Done (http.Error ("upstream error: " +:+ err) http.StatusBadGateway).
Proof. cbn. intros [-> ->]; auto. Qed.

(** *** Upstream errors, handler with inline steps *)

Section ServerRuns.

Variable timeParse : string -> option Z.
Variable timeFormat : Z -> string.
Variable urlOK : string -> bool.

Lemma core_reads_meta s objKey metaKey url c res :
  Run (server.fetchAndPersist timeParse timeFormat urlOK s objKey metaKey url) c res ->
  exists m found, lastReadMeta c = Some (m, found) /\
                  (hadMeta c = found).
Proof.
  intros H.
  unfold server.fetchAndPersist, negativeFresh, positiveFresh, NowISO in H.
  run_inv H; unfold hadMeta; cbn; eauto.
Qed.

Lemma core_upstream_error s objKey metaKey url c res resp :
  Run (server.fetchAndPersist timeParse timeFormat urlOK s objKey metaKey url) c res ->
  upstreamAnswered c resp ->
  is2xx (http.StatusCode resp) = false ->
  http.StatusCode resp <> http.StatusNotFound ->
  ~ (http.StatusCode resp = http.StatusNotModified /\ hadMeta c = true) ->
  writes c = [] /\
  res = Done (inr (mkFetchResult kindUpstreamError (http.StatusCode resp) "" "" "" "")).
Proof.
  intros H [u Hu] H2 H4 H3.
  unfold server.fetchAndPersist, negativeFresh, positiveFresh, NowISO in H.
  unfold is2xx, hadMeta, http.StatusNotFound, http.StatusNotModified in *.
  run_inv H; cbn in Hu, H3 |- *; try contradiction;
    destruct Hu as [Hu | []]; simplify_eq;
    try (split; reflexivity); exfalso; lia.
Qed.

End ServerRuns.

(** C6: when the upstream answers with a status that is not 2xx, not 404
    and not a 304 with prior metadata, the request writes neither object
    nor metadata, and the client receives the upstream status when it lies
    in 400..599, else 502. *)
Theorem upstream_error_not_persisted
    (timeParse : string -> option Z) (timeFormat : Z -> string)
    (urlOK : string -> bool) (s : Server) (path rawQuery : string)
    (tr : list Event) (o : Outcome http.Reply) (resp : http.UpstreamResponse) :
  Run (server.ServeHTTP timeParse timeFormat urlOK s path rawQuery) tr o ->
  upstreamAnswered tr resp ->
  is2xx (http.StatusCode resp) = false ->
  http.StatusCode resp <> http.StatusNotFound ->
  ~ (http.StatusCode resp = http.StatusNotModified /\ hadMeta tr = true) ->
  writes tr = [] /\
  o = Done (http.Error "Upstream error" (forwardedStatus (http.StatusCode resp))).
Proof.
  intros H [u Hu] H2 H4 H3. unfold server.ServeHTTP in H.
  destruct (server.splitDomainAndRoute path) as [[d r] |].
  2:{ destruct H as [-> _]. destruct Hu. }
  apply request_phases in H as [[Hq _] | (pre & c & post & res & -> & Hpre & Hpost & Hc & Ho)].
  { apply quiet_silent in Hq as [Hq _]. rewrite Hq in Hu. destruct Hu. }
  destruct (phases_observed pre c post Hpre Hpost) as (Hf & Hw & Hm & _).
  destruct (core_reads_meta _ _ _ _ _ _ _ _ _ Hc) as (m & found & Hlast & Hhad).
  rewrite Hf in Hu. rewrite Hw.
  assert (Hhad' : hadMeta (pre ++ c ++ post) = hadMeta c).
  { unfold hadMeta at 1. rewrite (Hm _ Hlast). symmetry. exact Hhad. }
  rewrite Hhad' in H3.
  destruct (core_upstream_error _ _ _ _ _ _ _ _ _ _ Hc (ex_intro _ u Hu) H2 H4 H3)
    as [Hwc ->].
  split; [exact Hwc |].
  apply afterDo_upstream_error in Ho as [_ ->]. reflexivity.
Qed.

(** Scenario D: the upstream answers 503 on a miss. *)
Lemma upstream_error_not_persisted_witness :
  upstreamAnswered (traceOf (scenario.get scenario.srv "/example.com/down" scenario.emptyStore))
    (http.mkUpstreamResponse 503 "text/plain" "" "" (inr "try later")) /\
  writes (traceOf (scenario.get scenario.srv "/example.com/down" scenario.emptyStore)) = [] /\
  outcomeOf (scenario.get scenario.srv "/example.com/down" scenario.emptyStore)
  = Done (http.Error "Upstream error" 503).
Proof.
  assert (Hup : upstreamAnswered
                  (traceOf (scenario.get scenario.srv "/example.com/down" scenario.emptyStore))
                  (http.mkUpstreamResponse 503 "text/plain" "" "" (inr "try later"))).
  { exists "https://example.com/down". vm_compute. left. reflexivity. }
  split; [exact Hup |].
  apply (upstream_error_not_persisted utctime.parse utctime.format scenario.anyURL
           scenario.srv "/example.com/down" ""
           (traceOf (scenario.get scenario.srv "/example.com/down" scenario.emptyStore))
           (outcomeOf (scenario.get scenario.srv "/example.com/down" scenario.emptyStore))
           (http.mkUpstreamResponse 503 "text/plain" "" "" (inr "try later"))).
  - apply exec_Run.
  - exact Hup.
  - reflexivity.
  - discriminate.
  - intros [Hst _]. discriminate Hst.
Defined.

(** *** Revalidation *)

(** The switch on serve-cache reads the stored object once: the reply is
    the object, or a 500 when the read fails. *)
Lemma afterDo_serve_cache objKey post o :
  Run (afterDo objKey (inr (resultOfKind kindServeCache))) post o ->
  exists ans, post = [EvGetObject objKey ans] /\ o = Done (servedOrFailed ans).
Proof.
  unfold afterDo, respond, serveFromCache. cbn.
  intros (ans & tr' & -> & H). exists ans. destruct ans; cbn in H; destruct H as [-> ->]; auto.
Qed.

Section ServerRevalidation.

Variable timeParse : string -> option Z.
Variable timeFormat : Z -> string.
Variable urlOK : string -> bool.

Lemma core_not_modified s objKey metaKey url c res resp m :
  Run (server.fetchAndPersist timeParse timeFormat urlOK s objKey metaKey url) c res ->
  upstreamAnswered c resp ->
  http.StatusCode resp = http.StatusNotModified ->
  lastReadMeta c = Some (m, true) ->
  exists t, lastNow c = Some t /\
    writes c = [WroteMeta metaKey (cache.withCachedAt m (timeFormat t))] /\
    res = Done (inr (resultOfKind kindServeCache)).
Proof.
  intros H [u Hu] H3 Hm.
  unfold server.fetchAndPersist, negativeFresh, positiveFresh, NowISO in H.
  unfold http.StatusNotModified in *.
  run_inv H; cbn in Hu, Hm |- *; try contradiction;
    destruct Hu as [Hu | []]; simplify_eq; try (exfalso; lia); eauto.
Qed.

Lemma iface_reads_meta s objKey metaKey url c res :
  Run (server_iface.fetchAndPersist timeParse timeFormat urlOK s objKey metaKey url) c res ->
  exists m found, lastReadMeta c = Some (m, found) /\ hadMeta c = found.
Proof.
  intros H.
  unfold server_iface.fetchAndPersist, server_iface.download, server_iface.persist,
    negativeFresh, positiveFresh, NowISO in H.
  run_inv H; unfold hadMeta; cbn; eauto.
Qed.

Lemma iface_not_modified s objKey metaKey url c res resp m :
  Run (server_iface.fetchAndPersist timeParse timeFormat urlOK s objKey metaKey url) c res ->
  upstreamAnswered c resp ->
  http.StatusCode resp = http.StatusNotModified ->
  lastReadMeta c = Some (m, true) ->
  exists t, lastNow c = Some t /\
    writes c = [WroteMeta metaKey (cache.withCachedAt m (timeFormat t))] /\
    res = Done (inr (resultOfKind kindServeCache)).
Proof.
  intros H [u Hu] H3 Hm.
  unfold server_iface.fetchAndPersist, server_iface.download, server_iface.persist,
    negativeFresh, positiveFresh, NowISO in H.
  unfold http.StatusNotModified in *.
  run_inv H; cbn in Hu, Hm |- *; try contradiction;
    destruct Hu as [Hu | []]; simplify_eq; try (exfalso; lia); eauto.
Qed.

End ServerRevalidation.

Lemma parseAndBuildUpstream_split path rawQuery :
  server_iface.parseAndBuildUpstream path rawQuery =
  match server.splitDomainAndRoute path with
  | Some (d, r) => Some (d, r, server.buildUpstreamURL d r rawQuery)
  | None => None
  end.
Proof.
  unfold server_iface.parseAndBuildUpstream, server.splitDomainAndRoute,
    server.buildUpstreamURL.
  now destruct (Go.IndexByte (Go.TrimPrefixSlash path) "/" <=? 0).
Qed.

(** Either handler, on a path that parses, is the common front followed by
    its own single-flight section. *)
Lemma handlerRun_parsed timeParse timeFormat urlOK s path rawQuery tr o d r :
  handlerRun timeParse timeFormat urlOK s path rawQuery tr o ->
  server.splitDomainAndRoute path = Some (d, r) ->
  exists core,
    (core = server.fetchAndPersist timeParse timeFormat urlOK s
              (cache.ObjectKey d r) (cache.MetaKey d r)
              (server.buildUpstreamURL d r rawQuery)
     \/ core = server_iface.fetchAndPersist timeParse timeFormat urlOK s
                (cache.ObjectKey d r) (cache.MetaKey d r)
                (server.buildUpstreamURL d r rawQuery)) /\
    Run (fastPaths timeParse s (cache.ObjectKey d r) (cache.MetaKey d r)
           (x <- sfDo (cache.ObjectKey d r) core ;; afterDo (cache.ObjectKey d r) x)) tr o.
Proof.
  intros [H | H] Hs.
  - unfold server.ServeHTTP in H. rewrite Hs in H. eexists. split; [left; reflexivity | exact H].
  - unfold server_iface.ServeHTTP in H. rewrite parseAndBuildUpstream_split, Hs in H.
    eexists. split; [right; reflexivity | exact H].
Qed.

Lemma handlerRun_unparsed timeParse timeFormat urlOK s path rawQuery tr o :
  handlerRun timeParse timeFormat urlOK s path rawQuery tr o ->
  server.splitDomainAndRoute path = None ->
  tr = [] /\ o = Done (http.Error "path must be /<domain>/<route>" http.StatusBadRequest).
Proof.
  intros [H | H] Hs.
  - unfold server.ServeHTTP in H. rewrite Hs in H. exact H.
  - unfold server_iface.ServeHTTP in H. rewrite parseAndBuildUpstream_split, Hs in H. exact H.
Qed.

Lemma last_app_singleton {A} (l : list A) (x : A) : last (l ++ [x]) = Some x.
Proof. induction l as [| y l IH]; [reflexivity |]. cbn. destruct (l ++ [x]); [discriminate | exact IH]. Qed.

(** C5: when the upstream answers 304 and prior metadata existed, the only
    write of the request is the metadata record, equal to the prior one in
    etag, lastModified, ttlSeconds, sizeBytes and isNegative, with
    cachedAt set to the clock reading just taken; no object is written, and
    the outcome is serve-cache: the reply comes from the read of the stored
    object that ends the request. *)
Theorem revalidation_frame
    (timeParse : string -> option Z) (timeFormat : Z -> string)
    (urlOK : string -> bool) (s : Server) (path rawQuery : string)
    (tr : list Event) (o : Outcome http.Reply)
    (resp : http.UpstreamResponse) (m : cache.Meta) :
  handlerRun timeParse timeFormat urlOK s path rawQuery tr o ->
  upstreamAnswered tr resp ->
  http.StatusCode resp = http.StatusNotModified ->
  lastReadMeta tr = Some (m, true) ->
  exists d r t m' ans,
    server.splitDomainAndRoute path = Some (d, r) /\
    lastNow tr = Some t /\
    writes tr = [WroteMeta (cache.MetaKey d r) m'] /\
    cache.CachedAt m' = timeFormat t /\
    cache.ETag m' = cache.ETag m /\
    cache.LastModified m' = cache.LastModified m /\
    cache.TTL m' = cache.TTL m /\
    cache.Size m' = cache.Size m /\
    cache.Neg m' = cache.Neg m /\
    last tr = Some (EvGetObject (cache.ObjectKey d r) ans) /\
    o = Done (servedOrFailed ans).
Proof.
  intros H [u Hu] H3 Hm.
  destruct (server.splitDomainAndRoute path) as [[d r] |] eqn:Hs.
  2:{ destruct (handlerRun_unparsed _ _ _ _ _ _ _ _ H Hs) as [-> _]. destruct Hu. }
  destruct (handlerRun_parsed _ _ _ _ _ _ _ _ _ _ H Hs) as (core & Hcore & Hrun).
  apply request_phases in Hrun
    as [[Hq _] | (pre & c & post & res & -> & Hpre & Hpost & Hc & Ho)].
  { apply quiet_silent in Hq as [Hq _]. rewrite Hq in Hu. destruct Hu. }
  destruct (phases_observed pre c post Hpre Hpost) as (Hf & Hw & Hlm & Hln).
  rewrite Hf in Hu. rewrite Hw.
  assert (Hread : exists m0 f, lastReadMeta c = Some (m0, f)).
  { destruct Hcore as [-> | ->].
    - destruct (core_reads_meta _ _ _ _ _ _ _ _ _ Hc) as (m0 & f & E & _); eauto.
    - destruct (iface_reads_meta _ _ _ _ _ _ _ _ _ Hc) as (m0 & f & E & _); eauto. }
  destruct Hread as (m0 & f & Hread).
  rewrite (Hlm _ Hread) in Hm. injection Hm as -> ->.
  assert (Hnm : exists t, lastNow c = Some t /\
            writes c = [WroteMeta (cache.MetaKey d r) (cache.withCachedAt m (timeFormat t))] /\
            res = Done (inr (resultOfKind kindServeCache))).
  { destruct Hcore as [-> | ->].
    - eapply core_not_modified; eauto. exists u. exact Hu.
    - eapply iface_not_modified; eauto. exists u. exact Hu. }
  destruct Hnm as (t & Hnow & Hwc & ->).
  apply afterDo_serve_cache in Ho as (ans & -> & ->).
  exists d, r, t, (cache.withCachedAt m (timeFormat t)), ans.
  rewrite (Hln _ Hnow), Hwc, !app_assoc, last_app_singleton.
  repeat split; reflexivity.
Qed.

(** Scenario C: the entry of a.txt is revalidated two hours after it was
    stored. *)
Lemma revalidation_frame_witness :
  upstreamAnswered (traceOf scenario.revalidation)
    (http.mkUpstreamResponse 304 "" "x1" "" (inr "")) /\
  lastReadMeta (traceOf scenario.revalidation) = Some (scenario.storedMeta, true) /\
  exists d r t m' ans,
    server.splitDomainAndRoute "/example.com/a.txt" = Some (d, r) /\
    lastNow (traceOf scenario.revalidation) = Some t /\
    writes (traceOf scenario.revalidation) = [WroteMeta (cache.MetaKey d r) m'] /\
    cache.CachedAt m' = utctime.format t /\
    cache.ETag m' = cache.ETag scenario.storedMeta /\
    cache.LastModified m' = cache.LastModified scenario.storedMeta /\
    cache.TTL m' = cache.TTL scenario.storedMeta /\
    cache.Size m' = cache.Size scenario.storedMeta /\
    cache.Neg m' = cache.Neg scenario.storedMeta /\
    last (traceOf scenario.revalidation) = Some (EvGetObject (cache.ObjectKey d r) ans) /\
    outcomeOf scenario.revalidation = Done (servedOrFailed ans).
Proof.
  assert (Hup : upstreamAnswered (traceOf scenario.revalidation)
                  (http.mkUpstreamResponse 304 "" "x1" "" (inr ""))).
  { exists "https://example.com/a.txt". vm_compute. left. reflexivity. }
  assert (Hm : lastReadMeta (traceOf scenario.revalidation)
               = Some (scenario.storedMeta, true)) by (vm_compute; reflexivity).
  split; [exact Hup |]. split; [exact Hm |].
  apply (revalidation_frame utctime.parse utctime.format scenario.anyURL scenario.srv
           "/example.com/a.txt" "" (traceOf scenario.revalidation)
           (outcomeOf scenario.revalidation)
           (http.mkUpstreamResponse 304 "" "x1" "" (inr "")) scenario.storedMeta).
  - left. apply exec_Run.
  - exact Hup.
  - reflexivity.
  - exact Hm.
Defined.

Example revalidation_scenario :
  writes (traceOf scenario.revalidation)
  = [WroteMeta "meta/example.com/a.txt.json"
       (cache.mkMeta "x1" "" "2025-01-01T02:00:00.000000005Z" 3600 5 false)] /\
  fetches (traceOf scenario.revalidation)
  = [("https://example.com/a.txt", inr (http.mkUpstreamResponse 304 "" "x1" "" (inr "")))] /\
  outcomeOf scenario.revalidation
  = Done (http.mkReply 200 [("Content-Type", "text/plain"); ("Content-Length", "5")] "hello").
Proof. vm_compute. repeat split; reflexivity. Qed.

(** *** Negative caching *)

Section ServerNegative.

Variable timeParse : string -> option Z.
Variable timeFormat : Z -> string.
Variable urlOK : string -> bool.

Lemma core_not_found s objKey metaKey url c res resp :
  Run (server.fetchAndPersist timeParse timeFormat urlOK s objKey metaKey url) c res ->
  upstreamAnswered c resp ->
  http.StatusCode resp = http.StatusNotFound ->
  exists t, lastNow c = Some t /\
    writes c = [WroteMeta metaKey (negativeRecord timeFormat s t)] /\
    res = Done (inr (resultOfKind kindNotFound)).
Proof.
  intros H [u Hu] H4.
  unfold server.fetchAndPersist, negativeFresh, positiveFresh, NowISO in H.
  unfold http.StatusNotFound, http.StatusNotModified in *.
  run_inv H; cbn in Hu |- *; try contradiction;
    destruct Hu as [Hu | []]; simplify_eq; try (exfalso; lia); eauto.
Qed.

(** While the store holds a negative-fresh record, the front of the
    handler answers: the slow path is not entered. *)
Lemma fastPaths_negative s objKey metaKey slow tr o rec :
  Run (fastPaths timeParse s objKey metaKey slow) tr o ->
  storeHolds rec tr ->
  negativeFreshDuring timeParse rec (TTL404 s) tr ->
  forallb isQuiet tr = true /\
  (o = Done (http.Error "Upstream negative-cached 404" http.StatusNotFound)
   \/ (ServeIfPresent s = true /\ exists obj, o = Done (cacheReply obj))).
Proof.
  intros H Hst Hfr.
  unfold fastPaths, serveIfStored, serveFromCache, negativeFresh, positiveFresh in H.
  unfold storeHolds, negativeFreshDuring in *.
  run_inv H; cbn in Hst, Hfr;
    try (split; [reflexivity | eauto]; fail);
    exfalso;
    pose proof (Hst _ (or_introl eq_refl)) as E; simplify_eq;
    pose proof (Hfr _ (or_introl eq_refl)) as E'; congruence.
Qed.

End ServerNegative.

(** C4, as amended: an upstream 404 makes the handler write one record,
    negative, with the 404 TTL and cachedAt the clock reading just taken,
    and answer 404; every later request for the path made while the store
    holds that record and it is negative-fresh issues no upstream fetch,
    and is answered 404 unless the server serves if present and an object
    stored under the key is served first. *)
Theorem negative_caching
    (timeParse : string -> option Z) (timeFormat : Z -> string)
    (urlOK : string -> bool) (s : Server) (path rawQuery : string)
    (tr : list Event) (o : Outcome http.Reply) (resp : http.UpstreamResponse) :
  Run (server.ServeHTTP timeParse timeFormat urlOK s path rawQuery) tr o ->
  upstreamAnswered tr resp ->
  http.StatusCode resp = http.StatusNotFound ->
  exists d r t,
    server.splitDomainAndRoute path = Some (d, r) /\
    lastNow tr = Some t /\
    writes tr = [WroteMeta (cache.MetaKey d r) (negativeRecord timeFormat s t)] /\
    o = Done (http.Error "Upstream 404" http.StatusNotFound) /\
    forall rawQuery' tr' o',
      Run (server.ServeHTTP timeParse timeFormat urlOK s path rawQuery') tr' o' ->
      storeHolds (negativeRecord timeFormat s t) tr' ->
      negativeFreshDuring timeParse (negativeRecord timeFormat s t) (TTL404 s) tr' ->
      fetches tr' = [] /\
      (o' = Done (http.Error "Upstream negative-cached 404" http.StatusNotFound)
       \/ (ServeIfPresent s = true /\ exists obj, o' = Done (cacheReply obj))).
Proof.
  intros H [u Hu] H4. unfold server.ServeHTTP in H.
  destruct (server.splitDomainAndRoute path) as [[d r] |] eqn:Hs.
  2:{ destruct H as [-> _]. destruct Hu. }
  apply request_phases in H as [[Hq _] | (pre & c & post & res & -> & Hpre & Hpost & Hc & Ho)].
  { apply quiet_silent in Hq as [Hq _]. rewrite Hq in Hu. destruct Hu. }
  destruct (phases_observed pre c post Hpre Hpost) as (Hf & Hw & _ & Hln).
  rewrite Hf in Hu. rewrite Hw.
  destruct (core_not_found _ _ _ _ _ _ _ _ _ _ Hc (ex_intro _ u Hu) H4) as (t & Hnow & Hwc & ->).
  apply (afterDo_not_found (cache.ObjectKey d r)) in Ho as [-> ->].
  exists d, r, t. rewrite (Hln _ Hnow), Hwc.
  split; [reflexivity |]. split; [reflexivity |]. split; [reflexivity |].
  split; [reflexivity |].
  intros q' tr' o' H Hst Hfr.
  unfold server.ServeHTTP in H. rewrite Hs in H.
  destruct (fastPaths_negative _ _ _ _ _ _ _ _ H Hst Hfr) as [Hq Ho].
  apply quiet_silent in Hq as [Hq _]. split; [exact Hq | exact Ho].
Qed.

(** Scenario B: a miss answered 404 by the origin, then the same request
    one second later. *)
Lemma negative_caching_witness :
  upstreamAnswered (traceOf scenario.missGet)
    (http.mkUpstreamResponse 404 "text/plain" "" "" (inr "not here")) /\
  writes (traceOf scenario.missGet)
  = [WroteMeta "meta/example.com/missing.json"
       (cache.mkMeta "" "" "2025-01-01T00:00:00Z" 60 0 true)] /\
  outcomeOf scenario.missGet = Done (http.Error "Upstream 404" http.StatusNotFound) /\
  storeHolds (cache.mkMeta "" "" "2025-01-01T00:00:00Z" 60 0 true)
    (traceOf scenario.missAgain) /\
  negativeFreshDuring utctime.parse (cache.mkMeta "" "" "2025-01-01T00:00:00Z" 60 0 true)
    60 (traceOf scenario.missAgain) /\
  fetches (traceOf scenario.missAgain) = [] /\
  (outcomeOf scenario.missAgain
   = Done (http.Error "Upstream negative-cached 404" http.StatusNotFound)
   \/ (ServeIfPresent scenario.srv = true /\
       exists obj, outcomeOf scenario.missAgain = Done (cacheReply obj))).
Proof.
  assert (Hup : upstreamAnswered (traceOf scenario.missGet)
                  (http.mkUpstreamResponse 404 "text/plain" "" "" (inr "not here"))).
  { exists "https://example.com/missing". vm_compute. left. reflexivity. }
  assert (Hst : storeHolds (cache.mkMeta "" "" "2025-01-01T00:00:00Z" 60 0 true)
                  (traceOf scenario.missAgain)).
  { intros a Ha. vm_compute in Ha. destruct Ha as [Ha | []]. symmetry. exact Ha. }
  assert (Hfr : negativeFreshDuring utctime.parse
                  (cache.mkMeta "" "" "2025-01-01T00:00:00Z" 60 0 true) 60
                  (traceOf scenario.missAgain)).
  { intros t Ht. vm_compute in Ht. destruct Ht as [Ht | []]. subst t.
    vm_compute. reflexivity. }
  destruct (negative_caching utctime.parse utctime.format scenario.anyURL scenario.srv
              "/example.com/missing" "" (traceOf scenario.missGet)
              (outcomeOf scenario.missGet)
              (http.mkUpstreamResponse 404 "text/plain" "" "" (inr "not here"))
              (exec_Run _ _ _) Hup eq_refl)
    as (d & r & t & Hs & Hnow & Hw & Ho & Hlater).
  vm_compute in Hs. injection Hs as Hd Hr. subst d r.
  vm_compute in Hnow. injection Hnow as Ht. subst t.
  split; [exact Hup |]. split; [exact Hw |]. split; [exact Ho |].
  split; [exact Hst |]. split; [exact Hfr |].
  exact (Hlater "" (traceOf scenario.missAgain) (outcomeOf scenario.missAgain)
           (exec_Run _ _ _) Hst Hfr).
Defined.

Example negative_scenario :
  writes (traceOf scenario.missGet)
  = [WroteMeta "meta/example.com/missing.json"
       (cache.mkMeta "" "" "2025-01-01T00:00:00Z" 60 0 true)] /\
  fetches (traceOf scenario.missAgain) = [] /\
  outcomeOf scenario.missAgain
  = Done (http.Error "Upstream negative-cached 404" 404).
Proof. vm_compute. repeat split; reflexivity. Qed.

(** The server serves if present and the store still holds an old object
    under the key: the request after the 404 finds the negative record in
    the store, fresh, and is answered 200 with the old object. *)
Example stale_object_scenario :
  writes (traceOf scenario.staleGet)
  = [WroteMeta "meta/example.com/missing.json"
       (cache.mkMeta "" "" "2025-01-01T00:00:00.000000004Z" 60 0 true)] /\
  outcomeOf scenario.staleGet = Done (http.Error "Upstream 404" 404) /\
  memory.metas scenario.staleWorld !! "meta/example.com/missing.json"
  = Some (cache.mkMeta "" "" "2025-01-01T00:00:00.000000004Z" 60 0 true) /\
  cache.IsNegativeFresh utctime.parse (memory.clock scenario.staleWorld)
    (cache.mkMeta "" "" "2025-01-01T00:00:00.000000004Z" 60 0 true) 60 = true /\
  traceOf scenario.staleAgain
  = [EvHasObject "objects/example.com/missing" (true, None);
     EvGetObject "objects/example.com/missing"
       (inr (storage.mkObject "old" 3 [("Content-Type", "text/plain")]))] /\
  outcomeOf scenario.staleAgain
  = Done (http.mkReply 200 [("Content-Type", "text/plain"); ("Content-Length", "3")] "old").
Proof. vm_compute. repeat split; reflexivity. Qed.

(** C4 as stated fails when the server serves if present: in the scenario
    above the later request is answered 200, not 404. *)
Lemma negative_caching_counterexample :
  ~ negativeCachingAsStated utctime.parse utctime.format scenario.anyURL
      scenario.srvEager "/example.com/missing".
Proof.
  intros H.
  assert (Hup : upstreamAnswered (traceOf scenario.staleGet)
                  (http.mkUpstreamResponse 404 "text/plain" "" "" (inr "not here"))).
  { exists "https://example.com/missing". vm_compute. left. reflexivity. }
  destruct (H "" (traceOf scenario.staleGet) (outcomeOf scenario.staleGet) _
              (exec_Run _ _ _) Hup eq_refl)
    as (d & r & t & _ & _ & _ & _ & Hlater).
  destruct (Hlater "" (traceOf scenario.staleAgain) (outcomeOf scenario.staleAgain)
              (exec_Run _ _ _)) as [_ [msg Hmsg]].
  - intros a Ha. vm_compute in Ha. destruct Ha.
  - intros a Ha. vm_compute in Ha. destruct Ha.
  - destruct stale_object_scenario as (_ & _ & _ & _ & _ & Hout).
    rewrite Hout in Hmsg. unfold http.Error in Hmsg. discriminate Hmsg.
Qed.

(** ** Path validation *)

Lemma IndexByte_lower p c : -1 <= Go.IndexByte p c.
Proof.
  induction p as [| a p IH]; cbn; [lia |].
  destruct (Ascii.eqb a c); [lia |].
  destruct (Z.ltb_spec (Go.IndexByte p c) 0); lia.
Qed.

Lemma IndexByte_none p : Go.IndexByte p "/" < 0 -> Go.noSlash p = true.
Proof.
  induction p as [| a p IH]; cbn; [reflexivity |].
  destruct (Ascii.eqb a "/"); [lia |].
  destruct (Z.ltb_spec (Go.IndexByte p "/") 0); [intros _; cbn; auto |].
  pose proof (IndexByte_lower p "/"). lia.
Qed.

(** The slices taken at the first slash. *)
Lemma IndexByte_split p :
  0 <= Go.IndexByte p "/" ->
  p = Go.sliceTo p (Go.IndexByte p "/") +:+ "/"
        +:+ Go.sliceFrom p (Go.IndexByte p "/" + 1) /\
  Go.noSlash (Go.sliceTo p (Go.IndexByte p "/")) = true.
Proof.
  unfold Go.sliceTo, Go.sliceFrom.
  induction p as [| a p IH]; cbn [Go.IndexByte]; [lia |].
  destruct (Ascii.eqb_spec a "/") as [-> | Hne].
  - intros _. cbn. auto.
  - destruct (Z.ltb_spec (Go.IndexByte p "/") 0) as [Hlt | Hge]; [lia |].
    intros _. destruct (IH Hge) as [Heq Hns].
    replace (Z.to_nat (Go.IndexByte p "/" + 1)) with (S (Z.to_nat (Go.IndexByte p "/"))) by lia.
    replace (Z.to_nat (Go.IndexByte p "/" + 1 + 1))
      with (S (Z.to_nat (Go.IndexByte p "/" + 1))) by lia.
    cbn [Go.take Go.drop Go.noSlash]. split.
    + etransitivity; [apply (f_equal (String a)), Heq | reflexivity].
    + rewrite Hns. apply Ascii.eqb_neq in Hne. now rewrite Hne.
Qed.

(** The first slash of a slash-free segment followed by a slash. *)
Lemma IndexByte_segment d r :
  Go.noSlash d = true -> Go.IndexByte (d +:+ "/" +:+ r) "/" = Go.len d.
Proof.
  induction d as [| a d IH]; [reflexivity |].
  cbn [Go.noSlash]. intros H. apply andb_prop in H as [Ha Hd].
  simpl. destruct (Ascii.eqb a "/"); [discriminate |].
  rewrite (IH Hd).
  assert (0 <= Go.len d) by (clear; induction d; simpl; lia).
  destruct (Z.ltb_spec (Go.len d) 0); lia.
Qed.

Lemma len_pos d : d <> "" -> 0 < Go.len d.
Proof.
  destruct d as [| a d]; [congruence |]. intros _. simpl.
  assert (0 <= Go.len d) by (clear; induction d; simpl; lia). lia.
Qed.

(** splitDomainAndRoute fails exactly on the paths without a domain and a
    route component; when it succeeds the domain is non-empty and holds no
    slash. *)
Lemma splitDomainAndRoute_Some path d r :
  server.splitDomainAndRoute path = Some (d, r) ->
  d <> "" /\ Go.noSlash d = true /\ Go.TrimPrefixSlash path = d +:+ "/" +:+ r.
Proof.
  unfold server.splitDomainAndRoute.
  destruct (Z.leb_spec (Go.IndexByte (Go.TrimPrefixSlash path) "/") 0) as [Hle | Hgt];
    [discriminate |].
  intros H. injection H as <- <-.
  destruct (IndexByte_split (Go.TrimPrefixSlash path)) as [Heq Hns]; [lia |].
  split; [| split; assumption].
  unfold Go.sliceTo.
  destruct (Z.to_nat (Go.IndexByte (Go.TrimPrefixSlash path) "/")) eqn:Hn; [lia |].
  destruct (Go.TrimPrefixSlash path); cbn in *; [lia | discriminate].
Qed.

Lemma splitDomainAndRoute_None path :
  server.splitDomainAndRoute path = None <-> ~ hasDomainAndRoute path.
Proof.
  split.
  - unfold server.splitDomainAndRoute.
    destruct (Z.leb_spec (Go.IndexByte (Go.TrimPrefixSlash path) "/") 0) as [Hle | Hgt];
      [| discriminate].
    intros _ (d & r & Hd & Hns & Heq). rewrite Heq, (IndexByte_segment d r Hns) in Hle.
    pose proof (len_pos d Hd). lia.
  - intros H. destruct (server.splitDomainAndRoute path) as [[d r] |] eqn:Hs; [| reflexivity].
    exfalso. apply H. exists d, r. now apply splitDomainAndRoute_Some.
Qed.

Ltac not_bad_path :=
  unfold badPathReply, cacheReply, http.Error; intros E; injection E; intros;
  cbn in *; discriminate.

(** No reply of the final switch is the reply to a bad path. *)
Lemma afterDo_not_bad_path objKey r post o :
  Run (afterDo objKey r) post o -> o <> Done badPathReply.
Proof.
  intros H. unfold afterDo, respond, serveFromCache in H.
  run_inv H; not_bad_path.
Qed.

(** C9, as amended: a handler answers with the validation failure, the
    400 whose text is "path must be /<domain>/<route>", exactly when the
    path, after one leading slash is stripped, has no non-empty first
    segment followed by a slash, that is when it has no slash or starts
    with one; no other path gets this reply, and it is produced before any
    call on the store, the upstream or the clock. *)
Theorem path_validation
    (timeParse : string -> option Z) (timeFormat : Z -> string)
    (urlOK : string -> bool) (s : Server) (path rawQuery : string)
    (tr : list Event) (o : Outcome http.Reply) :
  handlerRun timeParse timeFormat urlOK s path rawQuery tr o ->
  (o = Done badPathReply <-> ~ hasDomainAndRoute path) /\
  (~ hasDomainAndRoute path -> tr = []).
Proof.
  intros H. rewrite <- splitDomainAndRoute_None.
  destruct (server.splitDomainAndRoute path) as [[d r] |] eqn:Hs.
  - split; [| discriminate]. split; [| discriminate].
    intros Ho. exfalso. revert Ho.
    destruct (handlerRun_parsed _ _ _ _ _ _ _ _ _ _ H Hs) as (core & _ & Hrun).
    apply request_phases in Hrun
      as [[_ [-> | [obj ->]]] | (pre & c & post & res & _ & _ & _ & _ & Ho)];
      try not_bad_path.
    destruct res as [x |]; cbn in Ho.
    + eapply afterDo_not_bad_path, Ho.
    + destruct Ho as [_ ->]. discriminate.
  - destruct (handlerRun_unparsed _ _ _ _ _ _ _ _ H Hs) as [-> ->].
    repeat split; auto.
Qed.

(** Scenario E: the path /onlydomain. *)
Lemma path_validation_witness :
  (outcomeOf (scenario.get scenario.srv "/onlydomain" scenario.emptyStore)
   = Done badPathReply <-> ~ hasDomainAndRoute "/onlydomain") /\
  (~ hasDomainAndRoute "/onlydomain" ->
   traceOf (scenario.get scenario.srv "/onlydomain" scenario.emptyStore) = []).
Proof.
  apply (path_validation utctime.parse utctime.format scenario.anyURL scenario.srv
           "/onlydomain" ""
           (traceOf (scenario.get scenario.srv "/onlydomain" scenario.emptyStore))
           (outcomeOf (scenario.get scenario.srv "/onlydomain" scenario.emptyStore))).
  left. apply exec_Run.
Defined.

Example bad_path_scenario :
  scenario.get scenario.srv "/onlydomain" scenario.emptyStore
  = ([], Done (http.Error "path must be /<domain>/<route>" 400), scenario.emptyStore).
Proof. reflexivity. Qed.

(** C9 as stated fails on the path //x: it has the route component x
    after the leading slash is stripped, and the reply is 400, since the
    domain segment is empty. It also fails on a path with a domain and a
    route whose upstream answers 400: that status is forwarded. *)
Lemma path_validation_counterexample :
  ~ pathValidationAsStated utctime.parse utctime.format scenario.anyURL scenario.srv
      "//x" "" [] badPathReply /\
  ~ pathValidationAsStated utctime.parse utctime.format scenario.anyURL scenario.srv
      "/example.com/bad" "" (traceOf scenario.badGet)
      (http.Error "Upstream error" http.StatusBadRequest).
Proof.
  split; intros H.
  - destruct H as [H _].
    + cbn. auto.
    + apply H; [reflexivity |]. exists "", "x". reflexivity.
  - destruct H as [H _].
    + assert (E : outcomeOf scenario.badGet
                  = Done (http.Error "Upstream error" http.StatusBadRequest))
        by (vm_compute; reflexivity).
      rewrite <- E. apply exec_Run.
    + apply H; [reflexivity |]. exists "example.com", "bad". reflexivity.
Qed.

Example forwarded_400_scenario :
  fetches (traceOf scenario.badGet)
  = [("https://example.com/bad",
      inr (http.mkUpstreamResponse 400 "text/plain" "" "" (inr "bad request")))] /\
  outcomeOf scenario.badGet = Done (http.Error "Upstream error" 400).
Proof. vm_compute. split; reflexivity. Qed.

(** ** Failures of the store on the write path *)

Lemma putErrors_app a b : putErrors (a ++ b) = putErrors a ++ putErrors b.
Proof.
  induction a as [| ev a IH]; [reflexivity |].
  destruct ev as [| | ? ? ? [e |] | | | |]; simpl; now rewrite IH.
Qed.

Lemma metaWriteErrors_app a b :
  metaWriteErrors (a ++ b) = metaWriteErrors a ++ metaWriteErrors b.
Proof.
  induction a as [| ev a IH]; [reflexivity |].
  destruct ev as [| | | | ? ? [e |] | |]; simpl; now rewrite IH.
Qed.

Lemma quiet_no_write_errors l :
  forallb isQuiet l = true -> putErrors l = [] /\ metaWriteErrors l = [].
Proof.
  induction l as [| ev l IH]; simpl; [auto |].
  intros H. apply andb_prop in H as [Hq Hl]. destruct (IH Hl) as [E1 E2].
  destruct ev; simpl in *; auto; discriminate.
Qed.

Lemma probe_quiet l : forallb isProbe l = true -> forallb isQuiet l = true.
Proof.
  induction l as [| ev l IH]; simpl; [auto |].
  intros H. apply andb_prop in H as [Hq Hl]. rewrite (IH Hl).
  destruct ev; simpl in *; auto; discriminate.
Qed.

Lemma phases_write_errors pre c post :
  forallb isQuiet pre = true -> forallb isProbe post = true ->
  putErrors (pre ++ c ++ post) = putErrors c /\
  metaWriteErrors (pre ++ c ++ post) = metaWriteErrors c.
Proof.
  intros Hpre Hpost. apply probe_quiet in Hpost.
  destruct (quiet_no_write_errors _ Hpre) as [E1 E2].
  destruct (quiet_no_write_errors _ Hpost) as [E3 E4].
  rewrite !putErrors_app, !metaWriteErrors_app, E1, E2, E3, E4, !app_nil_r. auto.
Qed.

Section WritePath.

Variable timeParse : string -> option Z.
Variable timeFormat : Z -> string.
Variable urlOK : string -> bool.

(** The handler with inline steps: a failed write of the object makes
    the single-flight section return the error. *)
Lemma core_put_failure s objKey metaKey url c res err :
  Run (server.fetchAndPersist timeParse timeFormat urlOK s objKey metaKey url) c res ->
  In err (putErrors c) ->
  res = Done (inl err).
Proof.
  intros H Hin.
  unfold server.fetchAndPersist, negativeFresh, positiveFresh, NowISO in H.
  run_inv H; simpl in Hin; try contradiction;
    destruct Hin as [<- | []]; reflexivity.
Qed.

(** The handler over the Store interface: after a 2xx, a failed write
    of the object or of the metadata makes the single-flight section
    return the error. *)
Lemma iface_persist_failure s objKey metaKey url c res resp err :
  Run (server_iface.fetchAndPersist timeParse timeFormat urlOK s objKey metaKey url) c res ->
  upstreamAnswered c resp ->
  is2xx (http.StatusCode resp) = true ->
  In err (putErrors c ++ metaWriteErrors c) ->
  res = Done (inl err).
Proof.
  intros H [u Hu] H2 Hin.
  unfold server_iface.fetchAndPersist, server_iface.download, server_iface.persist,
    negativeFresh, positiveFresh, NowISO in H.
  unfold is2xx, http.StatusNotFound, http.StatusNotModified in *.
  run_inv H; simpl in Hu, Hin; try contradiction;
    destruct Hu as [Hu | []]; simplify_eq; try (exfalso; lia);
    destruct Hin as [<- | []]; reflexivity.
Qed.

(** Fail-closed on a failed write of the object, in the handler with
    inline steps: the reply is a 502 with the error text, not the
    bytes fetched. *)
Lemma server_put_fail_closed s path rawQuery tr o err :
  Run (server.ServeHTTP timeParse timeFormat urlOK s path rawQuery) tr o ->
  In err (putErrors tr) ->
  o = Done (failedReply err).
Proof.
  intros H Hin. unfold server.ServeHTTP in H.
  destruct (server.splitDomainAndRoute path) as [[d r] |].
  2:{ destruct H as [-> _]. destruct Hin. }
  apply request_phases in H
    as [[Hq _] | (pre & c & post & res & -> & Hpre & Hpost & Hc & Ho)].
  { apply quiet_no_write_errors in Hq as [Hq _]. rewrite Hq in Hin. destruct Hin. }
  destruct (phases_write_errors pre c post Hpre Hpost) as [E _]. rewrite E in Hin.
  rewrite (core_put_failure _ _ _ _ _ _ _ Hc Hin) in Ho.
  apply (afterDo_error (cache.ObjectKey d r)) in Ho as [_ ->]. reflexivity.
Qed.

(** Fail-closed on both writes, in the handler over the Store
    interface. *)
Lemma iface_persist_fail_closed s path rawQuery tr o resp err :
  Run (server_iface.ServeHTTP timeParse timeFormat urlOK s path rawQuery) tr o ->
  upstreamAnswered tr resp ->
  is2xx (http.StatusCode resp) = true ->
  In err (putErrors tr ++ metaWriteErrors tr) ->
  o = Done (failedReply err).
Proof.
  intros H [u Hu] H2 Hin. unfold server_iface.ServeHTTP in H.
  destruct (server_iface.parseAndBuildUpstream path rawQuery) as [[[d r] url] |].
  2:{ destruct H as [-> _]. destruct Hu. }
  apply request_phases in H
    as [[Hq _] | (pre & c & post & res & -> & Hpre & Hpost & Hc & Ho)].
  { apply quiet_silent in Hq as [Hq _]. rewrite Hq in Hu. destruct Hu. }
  destruct (phases_write_errors pre c post Hpre Hpost) as [E1 E2].
  destruct (phases_observed pre c post Hpre Hpost) as (Hf & _).
  rewrite E1, E2 in Hin. rewrite Hf in Hu.
  rewrite (iface_persist_failure _ _ _ _ _ _ _ _ Hc (ex_intro _ u Hu) H2 Hin) in Ho.
  apply (afterDo_error (cache.ObjectKey d r)) in Ho as [_ ->]. reflexivity.
Qed.

End WritePath.

(** C7 on the handler with inline steps, at a request whose metadata
    write fails after a 200 from the upstream: the error is dropped and
    the bytes fetched are served with status 200. The handler over the
    Store interface answers the same request with a 502. *)
Theorem metadata_write_failure_served :
  traceOf (scenario.get scenario.srv "/example.com/a.txt" scenario.metaWriteFails)
  = [EvReadMeta "meta/example.com/a.txt.json" (cache.zeroMeta, false, None);
     EvReadMeta "meta/example.com/a.txt.json" (cache.zeroMeta, false, None);
     EvClientDo "https://example.com/a.txt" None None
       (inr (http.mkUpstreamResponse 200 "text/plain" "x1" "" (inr "hello")));
     EvPutObject "objects/example.com/a.txt" "hello" "text/plain" None;
     EvNow scenario.t0;
     EvWriteMeta "meta/example.com/a.txt.json"
       (cache.mkMeta "x1" "" "2025-01-01T00:00:00Z" 3600 5 false)
       (Some memory.unreachable)] /\
  outcomeOf (scenario.get scenario.srv "/example.com/a.txt" scenario.metaWriteFails)
  = Done (http.mkReply 200
            [("Content-Type", "text/plain"); ("ETag", "x1"); ("Content-Length", "5")]
            "hello") /\
  outcomeOf (scenario.getIface scenario.srv "/example.com/a.txt" scenario.metaWriteFails)
  = Done (failedReply memory.unreachable).
Proof. vm_compute. repeat split; reflexivity. Qed.

(** ** The handler over the Store interface on upstream errors and 404 *)

(** This handler reads the body of every answer but a 304 before it looks
    at the status: on an error status, or a 404, whose body cannot be read
    the read error is returned instead, and nothing is written. *)
Section IfaceStatuses.

Variable timeParse : string -> option Z.
Variable timeFormat : Z -> string.
Variable urlOK : string -> bool.

Lemma iface_upstream_error s objKey metaKey url c res resp :
  Run (server_iface.fetchAndPersist timeParse timeFormat urlOK s objKey metaKey url) c res ->
  upstreamAnswered c resp ->
  is2xx (http.StatusCode resp) = false ->
  http.StatusCode resp <> http.StatusNotFound ->
  ~ (http.StatusCode resp = http.StatusNotModified /\ hadMeta c = true) ->
  writes c = [] /\
  (res = Done (inr (mkFetchResult kindUpstreamError (http.StatusCode resp) "" "" "" ""))
   \/ exists err, http.Body resp = inl err /\ res = Done (inl err)).
Proof.
  intros H [u Hu] H2 H4 H3.
  unfold server_iface.fetchAndPersist, server_iface.download, server_iface.persist,
    negativeFresh, positiveFresh, NowISO in H.
  unfold is2xx, hadMeta, http.StatusNotFound, http.StatusNotModified in *.
  run_inv H; cbn in Hu, H3 |- *; try contradiction;
    destruct Hu as [Hu | []]; simplify_eq;
    try (split; [reflexivity | eauto]; fail); exfalso; lia.
Qed.

Lemma iface_not_found s objKey metaKey url c res resp :
  Run (server_iface.fetchAndPersist timeParse timeFormat urlOK s objKey metaKey url) c res ->
  upstreamAnswered c resp ->
  http.StatusCode resp = http.StatusNotFound ->
  (exists t, lastNow c = Some t /\
     writes c = [WroteMeta metaKey (negativeRecord timeFormat s t)] /\
     res = Done (inr (resultOfKind kindNotFound)))
  \/ (exists err, http.Body resp = inl err /\ writes c = [] /\ res = Done (inl err)).
Proof.
  intros H [u Hu] H4.
  unfold server_iface.fetchAndPersist, server_iface.download, server_iface.persist,
    negativeFresh, positiveFresh, NowISO in H.
  unfold http.StatusNotFound, http.StatusNotModified in *.
  run_inv H; cbn in Hu |- *; try contradiction;
    destruct Hu as [Hu | []]; simplify_eq; try (exfalso; lia); eauto 10.
Qed.

End IfaceStatuses.

(** ** Keys of the requests the handlers serve *)

(** Two paths that parse to pairs differing after the leading slashes of
    the route are trimmed are stored under distinct keys. *)
Lemma request_keys_distinct p1 p2 d1 r1 d2 r2 :
  server.splitDomainAndRoute p1 = Some (d1, r1) ->
  server.splitDomainAndRoute p2 = Some (d2, r2) ->
  ~ sameAfterTrim d1 r1 d2 r2 ->
  keysDistinct d1 r1 d2 r2.
Proof.
  intros H1 H2 Hne.
  apply splitDomainAndRoute_Some in H1 as (_ & Hn1 & _).
  apply splitDomainAndRoute_Some in H2 as (_ & Hn2 & _).
  split; intros H; apply Hne; [now apply ObjectKey_inj | now apply MetaKey_inj].
Qed.

(** Trimming the leading slashes of the route again changes no key. *)
Lemma TrimLeftSlash_idempotent r : Go.TrimLeftSlash (Go.TrimLeftSlash r) = Go.TrimLeftSlash r.
Proof.
  induction r as [| c r IH]; [reflexivity |].
  simpl. destruct (Ascii.eqb_spec c "/") as [-> | Hne]; [exact IH |].
  destruct c as [[] [] [] [] [] [] [] []]; try reflexivity. congruence.
Qed.

Lemma keys_trim_idempotent d r :
  cache.ObjectKey d (Go.TrimLeftSlash r) = cache.ObjectKey d r /\
  cache.MetaKey d (Go.TrimLeftSlash r) = cache.MetaKey d r.
Proof. unfold cache.ObjectKey, cache.MetaKey. now rewrite TrimLeftSlash_idempotent. Qed.

(** ** Scenario A *)

(** A first request stores the body and its record and answers from
    memory; the same request a second later is served from the store with
    no upstream fetch. *)
Example first_fetch_scenario :
  fetches (traceOf scenario.firstGet)
  = [("https://example.com/a.txt",
      inr (http.mkUpstreamResponse 200 "text/plain" "x1" "" (inr "hello")))] /\
  writes (traceOf scenario.firstGet)
  = [WroteObject "objects/example.com/a.txt" "hello" "text/plain";
     WroteMeta "meta/example.com/a.txt.json" scenario.storedMeta] /\
  outcomeOf scenario.firstGet
  = Done (http.mkReply 200
            [("Content-Type", "text/plain"); ("ETag", "x1"); ("Content-Length", "5")]
            "hello") /\
  fetches (traceOf (scenario.get scenario.srv "/example.com/a.txt"
                      (memory.later 1000000000 [] (worldOf scenario.firstGet)))) = [] /\
  outcomeOf (scenario.get scenario.srv "/example.com/a.txt"
               (memory.later 1000000000 [] (worldOf scenario.firstGet)))
  = Done (http.mkReply 200 [("Content-Type", "text/plain"); ("Content-Length", "5")] "hello").
Proof. vm_compute. repeat split; reflexivity. Qed.

(** ** What happens outside the single-flight section *)

(** Every upstream fetch and every store write of a request is made by the
    function passed to [s.sf.Do] under the object key: the calls made
    before and after it are quiet. *)
Lemma fetches_and_writes_inside_Do timeParse timeFormat urlOK s path rawQuery tr o :
  handlerRun timeParse timeFormat urlOK s path rawQuery tr o ->
  (fetches tr = [] /\ writes tr = [])
  \/ exists d r core pre c post res,
       server.splitDomainAndRoute path = Some (d, r) /\
       (core = server.fetchAndPersist timeParse timeFormat urlOK s
                 (cache.ObjectKey d r) (cache.MetaKey d r)
                 (server.buildUpstreamURL d r rawQuery)
        \/ core = server_iface.fetchAndPersist timeParse timeFormat urlOK s
                   (cache.ObjectKey d r) (cache.MetaKey d r)
                   (server.buildUpstreamURL d r rawQuery)) /\
       tr = pre ++ c ++ post /\ Run (sfDo (cache.ObjectKey d r) core) c res /\
       fetches tr = fetches c /\ writes tr = writes c.
Proof.
  intros H. destruct (server.splitDomainAndRoute path) as [[d r] |] eqn:Hs.
  - destruct (handlerRun_parsed _ _ _ _ _ _ _ _ _ _ H Hs) as (core & Hcore & Hrun).
    apply request_phases in Hrun
      as [[Hq _] | (pre & c & post & res & -> & Hpre & Hpost & Hc & _)].
    + left. now apply quiet_silent.
    + right. destruct (phases_observed pre c post Hpre Hpost) as (Hf & Hw & _).
      exists d, r, core, pre, c, post, res. auto 10.
  - left. destruct (handlerRun_unparsed _ _ _ _ _ _ _ _ H Hs) as [-> _]. auto.
Qed.

(** ** The freshness window *)

(** A positive record without a TTL of its own is fresh at the instant it
    was cached and no longer fresh once the default TTL has elapsed. *)
Lemma IsFresh_window timeParse m t T now :
  cache.Neg m = false -> cache.TTL m = 0 ->
  cache.CachedAt m <> "" -> timeParse (cache.CachedAt m) = Some t ->
  0 < T -> Go.inInt64 (T * Go.Second) ->
  cache.IsFresh timeParse t m T = true /\
  (t + T * Go.Second <= now -> cache.IsFresh timeParse now m T = false).
Proof.
  intros Hn Httl He Hp HT Hfit. apply eqb_empty in He.
  unfold cache.IsFresh. rewrite Hn, Httl, He, Hp. cbn [Z.leb Z.compare].
  rewrite !Since_lt_seconds by exact Hfit. split.
  - apply Z.ltb_lt. unfold Go.Second. lia.
  - intros Hlate. apply Z.ltb_ge. lia.
Qed.

(** * Further properties of the code *)

(** ** Freshness over time and over the TTLs *)

Lemma Since_monotone now now' t : now' <= now -> Go.Since now' t <= Go.Since now t.
Proof. unfold Go.Since, Go.Sub. lia. Qed.

(** X1: freshness only decays: a record fresh, or negative-fresh, at one
    clock reading is so at every earlier reading; once stale it stays
    stale. *)
Theorem freshness_decays (timeParse : string -> option Z)
    (m : cache.Meta) (ttl now now' : Z) :
  now' <= now ->
  (cache.IsFresh timeParse now m ttl = true ->
   cache.IsFresh timeParse now' m ttl = true) /\
  (cache.IsNegativeFresh timeParse now m ttl = true ->
   cache.IsNegativeFresh timeParse now' m ttl = true).
Proof.
  intros Hle. unfold cache.IsFresh, cache.IsNegativeFresh.
  destruct (cache.Neg m); cbn [negb orb];
    destruct (String.eqb (cache.CachedAt m) "");
    destruct (timeParse (cache.CachedAt m)) as [t |]; split; try discriminate;
    intros H; apply Z.ltb_lt in H; apply Z.ltb_lt;
    pose proof (Since_monotone now now' t Hle); lia.
Qed.

Lemma freshness_decays_witness :
  1735689600000000000 <= 1735689660000000000 /\
  (cache.IsFresh utctime.parse 1735689660000000000 scenario.storedMeta 3600 = true ->
   cache.IsFresh utctime.parse 1735689600000000000 scenario.storedMeta 3600 = true) /\
  (cache.IsNegativeFresh utctime.parse 1735689660000000000 scenario.storedMeta 3600 = true ->
   cache.IsNegativeFresh utctime.parse 1735689600000000000 scenario.storedMeta 3600 = true).
Proof.
  assert (H : 1735689600000000000 <= 1735689660000000000) by lia.
  split; [exact H |].
  exact (freshness_decays utctime.parse scenario.storedMeta 3600
           1735689660000000000 1735689600000000000 H).
Defined.

(** X2: the two predicates apply one and the same test of age: a negative
    record is negative-fresh exactly when, read as a positive record, it
    is fresh under the same default. *)
Theorem negative_fresh_as_positive (timeParse : string -> option Z)
    (m : cache.Meta) (now ttl : Z) :
  cache.Neg m = true ->
  cache.IsNegativeFresh timeParse now m ttl
  = cache.IsFresh timeParse now (asPositive m) ttl.
Proof.
  intros H. unfold cache.IsFresh, cache.IsNegativeFresh, asPositive. rewrite H.
  cbn [negb orb cache.Neg cache.CachedAt cache.TTL].
  destruct (String.eqb (cache.CachedAt m) ""); [reflexivity |].
  destruct (timeParse (cache.CachedAt m)); reflexivity.
Qed.

Lemma negative_fresh_as_positive_witness :
  cache.Neg (cache.mkMeta "" "" "2025-01-01T00:00:00Z" 60 0 true) = true /\
  cache.IsNegativeFresh utctime.parse 1735689601000000000
    (cache.mkMeta "" "" "2025-01-01T00:00:00Z" 60 0 true) 60
  = cache.IsFresh utctime.parse 1735689601000000000
      (asPositive (cache.mkMeta "" "" "2025-01-01T00:00:00Z" 60 0 true)) 60.
Proof.
  split; [reflexivity |].
  apply (negative_fresh_as_positive utctime.parse
           (cache.mkMeta "" "" "2025-01-01T00:00:00Z" 60 0 true)).
  reflexivity.
Defined.

(** X3: a TTL of zero or less disables caching: when neither the record
    nor the caller gives a positive TTL, a record whose cachedAt is not in
    the future is neither fresh nor negative-fresh. *)
Theorem nonpositive_ttl_never_fresh (timeParse : string -> option Z)
    (m : cache.Meta) (now ttl t : Z) :
  cache.TTL m <= 0 -> ttl <= 0 ->
  Go.inInt64 (ttl * Go.Second) ->
  timeParse (cache.CachedAt m) = Some t -> t <= now ->
  cache.IsFresh timeParse now m ttl = false /\
  cache.IsNegativeFresh timeParse now m ttl = false.
Proof.
  intros Hm Httl Hfit Hp Hle.
  assert (Hcmp : (Go.Since now t <? Go.DurationSeconds ttl) = false).
  { rewrite Since_lt_seconds by exact Hfit. apply Z.ltb_ge. unfold Go.Second. lia. }
  unfold cache.IsFresh, cache.IsNegativeFresh.
  destruct (Z.leb_spec (cache.TTL m) 0); [| lia].
  rewrite Hp, Hcmp.
  destruct (cache.Neg m); cbn [negb orb];
    destruct (String.eqb (cache.CachedAt m) ""); split; reflexivity.
Qed.

Lemma nonpositive_ttl_never_fresh_witness :
  cache.IsFresh utctime.parse 1735689600000000000
    (cache.mkMeta "x1" "" "2025-01-01T00:00:00Z" 0 5 false) 0 = false /\
  cache.IsNegativeFresh utctime.parse 1735689600000000000
    (cache.mkMeta "x1" "" "2025-01-01T00:00:00Z" 0 5 false) 0 = false.
Proof.
  apply (nonpositive_ttl_never_fresh utctime.parse
           (cache.mkMeta "x1" "" "2025-01-01T00:00:00Z" 0 5 false)
           1735689600000000000 0 1735689600000000000).
  - simpl. lia.
  - lia.
  - vm_compute. split; discriminate.
  - vm_compute. reflexivity.
  - lia.
Defined.

(** ** More on the keys *)

(** X4: objects and metadata live apart: no object key is a metadata
    key, whatever the domains and routes. *)
Theorem object_and_meta_keys_disjoint (d1 r1 d2 r2 : string) :
  cache.ObjectKey d1 r1 <> cache.MetaKey d2 r2.
Proof. unfold cache.ObjectKey, cache.MetaKey. simpl. discriminate. Qed.

(** X5: the keys and the upstream URL do not see the leading slashes of
    the route: trimming them beforehand changes nothing. *)
Theorem leading_slashes_insignificant (d r rawQuery : string) :
  cache.ObjectKey d (Go.TrimLeftSlash r) = cache.ObjectKey d r /\
  cache.MetaKey d (Go.TrimLeftSlash r) = cache.MetaKey d r /\
  server.buildUpstreamURL d (Go.TrimLeftSlash r) rawQuery
  = server.buildUpstreamURL d r rawQuery.
Proof.
  unfold cache.ObjectKey, cache.MetaKey, server.buildUpstreamURL.
  now rewrite TrimLeftSlash_idempotent.
Qed.

(** ** What a request does and never does *)

(** Unfolds the function passed to [s.sf.Do], of either handler. *)
Ltac unfold_core H :=
  unfold server.fetchAndPersist, server_iface.fetchAndPersist, server_iface.download,
    server_iface.persist, server_iface.extractHeaders,
    negativeFresh, positiveFresh, NowISO in H.

(** A request as its phases, for either handler. *)
Lemma handler_phases timeParse timeFormat urlOK s path rawQuery tr o d r :
  handlerRun timeParse timeFormat urlOK s path rawQuery tr o ->
  server.splitDomainAndRoute path = Some (d, r) ->
  (forallb isQuiet tr = true /\
   (o = Done (http.Error "Upstream negative-cached 404" http.StatusNotFound)
    \/ exists obj, o = Done (cacheReply obj)))
  \/ exists core pre c post res,
       isCore timeParse timeFormat urlOK s (cache.ObjectKey d r) (cache.MetaKey d r)
         (server.buildUpstreamURL d r rawQuery) core /\
       tr = pre ++ c ++ post /\ forallb isQuiet pre = true /\
       forallb isProbe post = true /\ Run core c res /\
       afterCore (cache.ObjectKey d r) res post o.
Proof.
  intros H Hs.
  destruct (handlerRun_parsed _ _ _ _ _ _ _ _ _ _ H Hs) as (core & Hcore & Hrun).
  apply request_phases in Hrun as [Hq | (pre & c & post & res & Hrest)]; [now left |].
  right. exists core, pre, c, post, res. split; [exact Hcore | exact Hrest].
Qed.

Lemma afterDo_replies objKey r post o :
  Run (afterDo objKey r) post o ->
  exists reply, o = Done reply /\
    (http.status reply = http.StatusOK \/ 400 <= http.status reply <= 599).
Proof.
  intros H. unfold afterDo, respond, serveFromCache in H.
  run_inv H; eexists; (split; [reflexivity |]); cbn; try (left; reflexivity);
    right; unfold http.StatusInternalServerError, http.StatusNotFound, http.StatusBadGateway;
    lia.
Qed.

Lemma core_single_fetch timeParse timeFormat urlOK s objKey metaKey url core c res :
  isCore timeParse timeFormat urlOK s objKey metaKey url core ->
  Run core c res ->
  (length (fetches c) <= 1)%nat /\ (length (writes c) <= 2)%nat.
Proof.
  intros [-> | ->] H; unfold_core H; run_inv H; cbn; lia.
Qed.

Lemma core_panics timeParse timeFormat urlOK s objKey metaKey url core c :
  isCore timeParse timeFormat urlOK s objKey metaKey url core ->
  Run core c Panicked ->
  urlOK url = false /\ fetches c = [] /\ writes c = [].
Proof.
  intros [-> | ->] H; unfold_core H; run_inv H; try discriminate; auto.
Qed.

Lemma core_transport_error timeParse timeFormat urlOK s objKey metaKey url core c res err :
  isCore timeParse timeFormat urlOK s objKey metaKey url core ->
  Run core c res ->
  transportFailed c err ->
  writes c = [] /\ res = Done (inl err).
Proof.
  intros [-> | ->] H [u Hu]; unfold_core H; run_inv H; cbn in Hu |- *; try contradiction;
    destruct Hu as [Hu | []]; simplify_eq; auto.
Qed.

(** X6: no retry and no second write: a request issues at most one
    upstream fetch and at most two store writes. *)
Theorem at_most_one_fetch
    (timeParse : string -> option Z) (timeFormat : Z -> string)
    (urlOK : string -> bool) (s : Server) (path rawQuery : string)
    (tr : list Event) (o : Outcome http.Reply) :
  handlerRun timeParse timeFormat urlOK s path rawQuery tr o ->
  (length (fetches tr) <= 1)%nat /\ (length (writes tr) <= 2)%nat.
Proof.
  intros H. destruct (server.splitDomainAndRoute path) as [[d r] |] eqn:Hs.
  - destruct (handler_phases _ _ _ _ _ _ _ _ d r H Hs)
      as [[Hq _] | (core & pre & c & post & res & Hcore & -> & Hpre & Hpost & Hc & _)].
    + apply quiet_silent in Hq as [-> ->]. cbn. lia.
    + destruct (phases_observed pre c post Hpre Hpost) as (-> & -> & _).
      eapply core_single_fetch; eauto.
  - destruct (handlerRun_unparsed _ _ _ _ _ _ _ _ H Hs) as [-> _]. cbn. lia.
Qed.

Lemma at_most_one_fetch_witness :
  (length (fetches (traceOf scenario.firstGet)) <= 1)%nat /\
  (length (writes (traceOf scenario.firstGet)) <= 2)%nat.
Proof.
  apply (at_most_one_fetch utctime.parse utctime.format scenario.anyURL scenario.srv
           "/example.com/a.txt" "" (traceOf scenario.firstGet)
           (outcomeOf scenario.firstGet)).
  left. apply exec_Run.
Defined.

(** X7: every reply has status 200 or a status in 400..599: upstream
    statuses outside that range are never forwarded. *)
Theorem reply_status_class
    (timeParse : string -> option Z) (timeFormat : Z -> string)
    (urlOK : string -> bool) (s : Server) (path rawQuery : string)
    (tr : list Event) (reply : http.Reply) :
  handlerRun timeParse timeFormat urlOK s path rawQuery tr (Done reply) ->
  http.status reply = http.StatusOK \/ 400 <= http.status reply <= 599.
Proof.
  intros H. destruct (server.splitDomainAndRoute path) as [[d r] |] eqn:Hs.
  - destruct (handler_phases _ _ _ _ _ _ _ _ d r H Hs)
      as [[_ [E | [obj E]]] | (core & pre & c & post & res & _ & _ & _ & _ & _ & Ho)].
    + injection E as ->. right. cbn. unfold http.StatusNotFound. lia.
    + injection E as ->. left. reflexivity.
    + destruct res as [x |]; cbn in Ho.
      * apply afterDo_replies in Ho as (reply' & E & Hst). injection E as ->. exact Hst.
      * destruct Ho as [_ E]. discriminate E.
  - destruct (handlerRun_unparsed _ _ _ _ _ _ _ _ H Hs) as [_ E].
    injection E as ->. right. cbn. unfold http.StatusBadRequest. lia.
Qed.

(** The upstream answers 302 and the client receives 502. *)
Lemma reply_status_class_witness :
  outcomeOf more.movedGet = Done (http.Error "Upstream error" 502) /\
  (http.status (http.Error "Upstream error" 502) = http.StatusOK \/
   400 <= http.status (http.Error "Upstream error" 502) <= 599).
Proof.
  assert (E : outcomeOf more.movedGet = Done (http.Error "Upstream error" 502))
    by (vm_compute; reflexivity).
  split; [exact E |].
  apply (reply_status_class utctime.parse utctime.format scenario.anyURL scenario.srv
           "/example.com/moved" "" (traceOf more.movedGet)
           (http.Error "Upstream error" 502)).
  left. rewrite <- E. apply exec_Run.
Defined.

(** X8: a handler panics only on an upstream URL that NewRequest refuses,
    and then before any fetch or write; on every other URL the request ends
    with a reply. *)
Theorem panic_only_on_bad_url
    (timeParse : string -> option Z) (timeFormat : Z -> string)
    (urlOK : string -> bool) (s : Server) (path rawQuery : string)
    (tr : list Event) :
  handlerRun timeParse timeFormat urlOK s path rawQuery tr Panicked ->
  exists d r,
    server.splitDomainAndRoute path = Some (d, r) /\
    urlOK (server.buildUpstreamURL d r rawQuery) = false /\
    fetches tr = [] /\ writes tr = [].
Proof.
  intros H. destruct (server.splitDomainAndRoute path) as [[d r] |] eqn:Hs.
  - exists d, r. split; [reflexivity |].
    destruct (handler_phases _ _ _ _ _ _ _ _ d r H Hs)
      as [[_ [E | [obj E]]] | (core & pre & c & post & res & Hcore & -> & Hpre & Hpost & Hc & Ho)];
      [discriminate E | discriminate E |].
    destruct (phases_observed pre c post Hpre Hpost) as (-> & -> & _).
    destruct res as [x |]; cbn in Ho.
    + apply afterDo_replies in Ho as (reply & E & _). discriminate E.
    + eapply core_panics; eauto.
  - destruct (handlerRun_unparsed _ _ _ _ _ _ _ _ H Hs) as [_ E]. discriminate E.
Qed.

Lemma panic_only_on_bad_url_witness :
  outcomeOf more.spaceGet = Panicked /\
  exists d r,
    server.splitDomainAndRoute "/exa mple.com/a.txt" = Some (d, r) /\
    more.noSpace (server.buildUpstreamURL d r "") = false /\
    fetches (traceOf more.spaceGet) = [] /\ writes (traceOf more.spaceGet) = [].
Proof.
  assert (E : outcomeOf more.spaceGet = Panicked) by (vm_compute; reflexivity).
  split; [exact E |].
  apply (panic_only_on_bad_url utctime.parse utctime.format more.noSpace scenario.srv
           "/exa mple.com/a.txt" "" (traceOf more.spaceGet)).
  left. rewrite <- E. apply exec_Run.
Defined.

(** X9: a transport failure of the fetch is answered 502 with the text
    of the error, and nothing is written to the store. *)
Theorem transport_error_is_502
    (timeParse : string -> option Z) (timeFormat : Z -> string)
    (urlOK : string -> bool) (s : Server) (path rawQuery : string)
    (tr : list Event) (o : Outcome http.Reply) (err : error) :
  handlerRun timeParse timeFormat urlOK s path rawQuery tr o ->
  transportFailed tr err ->
  writes tr = [] /\ o = Done (failedReply err).
Proof.
  intros H [u Hu]. destruct (server.splitDomainAndRoute path) as [[d r] |] eqn:Hs.
  - destruct (handler_phases _ _ _ _ _ _ _ _ d r H Hs)
      as [[Hq _] | (core & pre & c & post & res & Hcore & -> & Hpre & Hpost & Hc & Ho)].
    + apply quiet_silent in Hq as [Hq _]. rewrite Hq in Hu. destruct Hu.
    + destruct (phases_observed pre c post Hpre Hpost) as (Hf & -> & _).
      rewrite Hf in Hu.
      destruct (core_transport_error _ _ _ _ _ _ _ _ _ _ _ Hcore Hc (ex_intro _ u Hu))
        as [Hw ->].
      split; [exact Hw |].
      apply (afterDo_error (cache.ObjectKey d r)) in Ho as [_ ->]. reflexivity.
  - destruct (handlerRun_unparsed _ _ _ _ _ _ _ _ H Hs) as [-> _]. destruct Hu.
Qed.

Lemma transport_error_is_502_witness :
  transportFailed
    (traceOf more.unreachableGet)
    "dial tcp: no such host" /\
  writes (traceOf more.unreachableGet) = [] /\
  outcomeOf more.unreachableGet
  = Done (failedReply "dial tcp: no such host").
Proof.
  assert (Hf : transportFailed
                 (traceOf more.unreachableGet)
                 "dial tcp: no such host").
  { exists "https://nowhere.invalid/x". vm_compute. left. reflexivity. }
  split; [exact Hf |].
  apply (transport_error_is_502 utctime.parse utctime.format scenario.anyURL scenario.srv
           "/nowhere.invalid/x" "").
  - left. apply exec_Run.
  - exact Hf.
Defined.

(** *** The path of a 2xx answer *)

Lemma core_stores_body timeParse timeFormat urlOK s objKey metaKey url core c res resp body :
  isCore timeParse timeFormat urlOK s objKey metaKey url core ->
  Run core c res ->
  upstreamAnswered c resp ->
  is2xx (http.StatusCode resp) = true ->
  http.Body resp = inr body ->
  putErrors c = [] -> metaWriteErrors c = [] ->
  exists t, lastNow c = Some t /\
    writes c = [WroteObject objKey body (http.hContentType resp);
                WroteMeta metaKey (positiveRecord timeFormat s resp body t)] /\
    res = Done (inr (mkFetchResult kindWroteBody 0 body (http.hContentType resp)
                       (http.hETag resp) (http.hLastModified resp))).
Proof.
  intros [-> | ->] H [u Hu] H2 Hb Hpe Hme; unfold_core H;
    unfold is2xx, http.StatusNotFound, http.StatusNotModified in *;
    run_inv H; cbn in Hu, Hpe, Hme |- *; try contradiction; try discriminate;
    destruct Hu as [Hu | []]; simplify_eq; try (exfalso; lia);
    match goal with
    | H1 : http.Body ?r = _, H2 : http.Body ?r = _ |- _ => rewrite H1 in H2; simplify_eq
    end; eauto.
Qed.

Lemma afterDo_wrote_body objKey resp body post o :
  Run (afterDo objKey
         (inr (mkFetchResult kindWroteBody 0 body (http.hContentType resp)
                 (http.hETag resp) (http.hLastModified resp)))) post o ->
  post = [] /\ o = Done (fetchedReply resp body).
Proof. cbn. intros [-> ->]. auto. Qed.

(** X10: a 2xx answer whose body is read and whose writes succeed is
    stored and served in one go: the object is written with the
    Content-Type of the answer, then the record with the validators of the
    answer, cachedAt the clock reading just taken, the default TTL and the
    length of the body; the reply is a 200 with the bytes just fetched,
    not a read of the store, with application/octet-stream when the answer
    names no Content-Type. *)
Theorem fetched_body_stored_and_served
    (timeParse : string -> option Z) (timeFormat : Z -> string)
    (urlOK : string -> bool) (s : Server) (path rawQuery : string)
    (tr : list Event) (o : Outcome http.Reply)
    (resp : http.UpstreamResponse) (body : string) :
  handlerRun timeParse timeFormat urlOK s path rawQuery tr o ->
  upstreamAnswered tr resp ->
  is2xx (http.StatusCode resp) = true ->
  http.Body resp = inr body ->
  putErrors tr = [] -> metaWriteErrors tr = [] ->
  exists d r t,
    server.splitDomainAndRoute path = Some (d, r) /\
    lastNow tr = Some t /\
    writes tr = [WroteObject (cache.ObjectKey d r) body (http.hContentType resp);
                 WroteMeta (cache.MetaKey d r) (positiveRecord timeFormat s resp body t)] /\
    o = Done (fetchedReply resp body).
Proof.
  intros H [u Hu] H2 Hb Hpe Hme.
  destruct (server.splitDomainAndRoute path) as [[d r] |] eqn:Hs.
  2:{ destruct (handlerRun_unparsed _ _ _ _ _ _ _ _ H Hs) as [-> _]. destruct Hu. }
  destruct (handler_phases _ _ _ _ _ _ _ _ d r H Hs)
    as [[Hq _] | (core & pre & c & post & res & Hcore & -> & Hpre & Hpost & Hc & Ho)].
  { apply quiet_silent in Hq as [Hq _]. rewrite Hq in Hu. destruct Hu. }
  destruct (phases_observed pre c post Hpre Hpost) as (Hf & Hw & _ & Hln).
  destruct (phases_write_errors pre c post Hpre Hpost) as [E1 E2].
  rewrite Hf in Hu. rewrite E1 in Hpe. rewrite E2 in Hme.
  destruct (core_stores_body _ _ _ _ _ _ _ _ _ _ _ _ Hcore Hc (ex_intro _ u Hu) H2 Hb Hpe Hme)
    as (t & Hnow & Hwc & ->).
  apply (afterDo_wrote_body (cache.ObjectKey d r)) in Ho as [-> ->].
  exists d, r, t. rewrite (Hln _ Hnow), Hw, Hwc. repeat split; reflexivity.
Qed.

Lemma fetched_body_stored_and_served_witness :
  upstreamAnswered (traceOf scenario.firstGet)
    (http.mkUpstreamResponse 200 "text/plain" "x1" "" (inr "hello")) /\
  exists d r t,
    server.splitDomainAndRoute "/example.com/a.txt" = Some (d, r) /\
    lastNow (traceOf scenario.firstGet) = Some t /\
    writes (traceOf scenario.firstGet)
    = [WroteObject (cache.ObjectKey d r) "hello" "text/plain";
       WroteMeta (cache.MetaKey d r)
         (positiveRecord utctime.format scenario.srv
            (http.mkUpstreamResponse 200 "text/plain" "x1" "" (inr "hello")) "hello" t)] /\
    outcomeOf scenario.firstGet
    = Done (fetchedReply (http.mkUpstreamResponse 200 "text/plain" "x1" "" (inr "hello"))
              "hello").
Proof.
  assert (Hup : upstreamAnswered (traceOf scenario.firstGet)
                  (http.mkUpstreamResponse 200 "text/plain" "x1" "" (inr "hello"))).
  { exists "https://example.com/a.txt". vm_compute. left. reflexivity. }
  split; [exact Hup |].
  apply (fetched_body_stored_and_served utctime.parse utctime.format scenario.anyURL
           scenario.srv "/example.com/a.txt" "" (traceOf scenario.firstGet)
           (outcomeOf scenario.firstGet)
           (http.mkUpstreamResponse 200 "text/plain" "x1" "" (inr "hello")) "hello").
  - left. apply exec_Run.
  - exact Hup.
  - reflexivity.
  - reflexivity.
  - vm_compute. reflexivity.
  - vm_compute. reflexivity.
Defined.

(** *** The keys and the URL of a request *)

Lemma touches_probes objKey metaKey url r post o :
  Run (afterDo objKey r) post o -> Forall (touches objKey metaKey url) post.
Proof.
  intros H. unfold afterDo, respond, serveFromCache in H.
  run_inv H; repeat constructor.
Qed.

Lemma touches_core timeParse timeFormat urlOK s objKey metaKey url core c res :
  isCore timeParse timeFormat urlOK s objKey metaKey url core ->
  Run core c res -> Forall (touches objKey metaKey url) c.
Proof.
  intros [-> | ->] H; unfold_core H; run_inv H; repeat constructor.
Qed.

Lemma touches_fastPaths timeParse s objKey metaKey url slow tr o :
  (forall rest, Run slow rest o -> Forall (touches objKey metaKey url) rest) ->
  Run (fastPaths timeParse s objKey metaKey slow) tr o ->
  Forall (touches objKey metaKey url) tr.
Proof.
  intros Hslow H.
  unfold fastPaths, serveIfStored, serveFromCache, negativeFresh, positiveFresh in H.
  run_inv H; repeat (constructor || (apply Hslow; assumption)).
Qed.

(** X11: a request touches one object key, one metadata key and one
    upstream URL: every store call is on the key derived from the domain
    and the route, every fetch is of the URL built from them and the
    query. The query is part of the URL and of no key. *)
Theorem request_touches_its_keys_only
    (timeParse : string -> option Z) (timeFormat : Z -> string)
    (urlOK : string -> bool) (s : Server) (path rawQuery : string)
    (tr : list Event) (o : Outcome http.Reply) (d r : string) :
  handlerRun timeParse timeFormat urlOK s path rawQuery tr o ->
  server.splitDomainAndRoute path = Some (d, r) ->
  Forall (touches (cache.ObjectKey d r) (cache.MetaKey d r)
            (server.buildUpstreamURL d r rawQuery)) tr.
Proof.
  intros H Hs.
  destruct (handlerRun_parsed _ _ _ _ _ _ _ _ _ _ H Hs) as (core & Hcore & Hrun).
  eapply touches_fastPaths; [| exact Hrun].
  intros rest Hrest. unfold sfDo in Hrest.
  apply Run_bind in Hrest as [(x & c & post & -> & Hc & Hp) | [-> Hc]].
  - apply Forall_app. split.
    + eapply touches_core; eauto.
    + eapply touches_probes; eauto.
  - eapply touches_core; eauto.
Qed.

Lemma request_touches_its_keys_only_witness :
  server.splitDomainAndRoute "/example.com/a.txt" = Some ("example.com", "a.txt") /\
  Forall (touches (cache.ObjectKey "example.com" "a.txt") (cache.MetaKey "example.com" "a.txt")
            (server.buildUpstreamURL "example.com" "a.txt" "v=2"))
    (traceOf more.queryGet).
Proof.
  assert (Hs : server.splitDomainAndRoute "/example.com/a.txt"
               = Some ("example.com", "a.txt")) by reflexivity.
  split; [exact Hs |].
  exact (request_touches_its_keys_only utctime.parse utctime.format scenario.anyURL
           scenario.srv "/example.com/a.txt" "v=2" (traceOf more.queryGet)
           (outcomeOf more.queryGet) "example.com" "a.txt"
           (or_introl (exec_Run _ _ _)) Hs).
Defined.

(** *** Hits *)






(** X13: the eager serve looks at nothing but the object: when the server
    serves if present and the stored object is found and read, the request
    consists of the existence check and the read, with no metadata read,
    no clock reading, no fetch; stale and negative records do not matter. *)
Theorem eager_serve_skips_metadata
    (timeParse : string -> option Z) (timeFormat : Z -> string)
    (urlOK : string -> bool) (s : Server) (path rawQuery : string)
    (tr : list Event) (o : Outcome http.Reply) (d r : string) :
  handlerRun timeParse timeFormat urlOK s path rawQuery tr o ->
  server.splitDomainAndRoute path = Some (d, r) ->
  ServeIfPresent s = true ->
  objectsServed tr = true ->
  exists e obj,
    tr = [EvHasObject (cache.ObjectKey d r) (true, e);
          EvGetObject (cache.ObjectKey d r) (inr obj)] /\
    o = Done (cacheReply obj).
Proof.
  intros H Hs He Hob.
  destruct (handlerRun_parsed _ _ _ _ _ _ _ _ _ _ H Hs) as (core & _ & Hrun).
  unfold fastPaths in Hrun. rewrite He in Hrun.
  unfold serveIfStored, serveFromCache, objectsServed in *.
  cbn in Hrun. destruct Hrun as ([ok e] & tr1 & -> & Hrun).
  cbn in Hob. apply andb_prop in Hob as [-> Hob]. cbn in Hrun.
  destruct Hrun as ([err | obj] & tr2 & -> & Hrun); cbn in Hob; [discriminate |].
  cbn in Hrun. destruct Hrun as [-> ->]. eauto.
Qed.

Lemma eager_serve_skips_metadata_witness :
  exists e obj,
    traceOf scenario.staleAgain
    = [EvHasObject (cache.ObjectKey "example.com" "missing") (true, e);
       EvGetObject (cache.ObjectKey "example.com" "missing") (inr obj)] /\
    outcomeOf scenario.staleAgain = Done (cacheReply obj).
Proof.
  assert (Hob : objectsServed (traceOf scenario.staleAgain) = true)
    by (vm_compute; reflexivity).
  exact (eager_serve_skips_metadata utctime.parse utctime.format scenario.anyURL
           scenario.srvEager "/example.com/missing" "" (traceOf scenario.staleAgain)
           (outcomeOf scenario.staleAgain) "example.com" "missing"
           (or_introl (exec_Run _ _ _)) eq_refl eq_refl Hob).
Defined.

(** *** Conditional headers *)

Lemma conditionals_app a b : conditionals (a ++ b) = conditionals a ++ conditionals b.
Proof.
  induction a as [| ev a IH]; [reflexivity |].
  destruct ev; simpl; now rewrite IH.
Qed.

Lemma quiet_unconditional l : forallb isQuiet l = true -> conditionals l = [].
Proof.
  induction l as [| ev l IH]; simpl; [auto |].
  intros H. apply andb_prop in H as [Hq Hl]. destruct ev; simpl in *; auto; discriminate.
Qed.

Lemma phases_conditionals pre c post :
  forallb isQuiet pre = true -> forallb isProbe post = true ->
  conditionals (pre ++ c ++ post) = conditionals c.
Proof.
  intros Hpre Hpost. apply probe_quiet in Hpost.
  rewrite !conditionals_app, (quiet_unconditional _ Hpre), (quiet_unconditional _ Hpost).
  now rewrite app_nil_r.
Qed.

(** The validators of a record as conditional headers: the non-empty
    ones. *)
Lemma core_conditionals timeParse timeFormat urlOK s objKey metaKey url c res m found :
  Run (server.fetchAndPersist timeParse timeFormat urlOK s objKey metaKey url) c res ->
  lastReadMeta c = Some (m, found) ->
  Forall (fun h => h = if found
                       then (headerOf (cache.ETag m), headerOf (cache.LastModified m))
                       else (None, None)) (conditionals c).
Proof.
  intros H Hm. unfold_core H.
  run_inv H; cbn in Hm |- *; simplify_eq; repeat constructor.
Qed.


(** X14: the handler with inline steps makes its fetch conditional on the
    prior metadata only when the read found it: If-None-Match carries its
    ETag and If-Modified-Since its lastModified, each when non-empty;
    without prior metadata the fetch is unconditional. *)
Theorem conditional_fetch_from_prior_metadata
    (timeParse : string -> option Z) (timeFormat : Z -> string)
    (urlOK : string -> bool) (s : Server) (path rawQuery : string)
    (tr : list Event) (o : Outcome http.Reply) (m : cache.Meta) (found : bool) :
  Run (server.ServeHTTP timeParse timeFormat urlOK s path rawQuery) tr o ->
  lastReadMeta tr = Some (m, found) ->
  Forall (fun h => h = if found
                       then (headerOf (cache.ETag m), headerOf (cache.LastModified m))
                       else (None, None)) (conditionals tr).
Proof.
  intros H Hm. unfold server.ServeHTTP in H.
  destruct (server.splitDomainAndRoute path) as [[d r] |].
  2:{ destruct H as [-> _]. constructor. }
  apply request_phases in H
    as [[Hq _] | (pre & c & post & res & -> & Hpre & Hpost & Hc & _)].
  { rewrite (quiet_unconditional _ Hq). constructor. }
  rewrite (phases_conditionals pre c post Hpre Hpost).
  destruct (core_reads_meta _ _ _ _ _ _ _ _ _ Hc) as (m0 & f & Hlast & _).
  destruct (phases_observed pre c post Hpre Hpost) as (_ & _ & Hlm & _).
  rewrite (Hlm _ Hlast) in Hm. injection Hm as -> ->.
  eapply core_conditionals; eauto.
Qed.

Lemma conditional_fetch_from_prior_metadata_witness :
  lastReadMeta (traceOf scenario.revalidation) = Some (scenario.storedMeta, true) /\
  Forall (fun h => h = (headerOf (cache.ETag scenario.storedMeta),
                        headerOf (cache.LastModified scenario.storedMeta)))
    (conditionals (traceOf scenario.revalidation)).
Proof.
  assert (Hm : lastReadMeta (traceOf scenario.revalidation)
               = Some (scenario.storedMeta, true)) by (vm_compute; reflexivity).
  split; [exact Hm |].
  exact (conditional_fetch_from_prior_metadata utctime.parse utctime.format
           scenario.anyURL scenario.srv "/example.com/a.txt" ""
           (traceOf scenario.revalidation) (outcomeOf scenario.revalidation)
           scenario.storedMeta true (exec_Run _ _ _) Hm).
Defined.

Example conditional_fetch_scenario :
  conditionals (traceOf scenario.revalidation) = [(Some "x1", None)].
Proof. vm_compute. reflexivity. Qed.



(** ** Parsing the path *)

Lemma take_segment d x : Go.take (Z.to_nat (Go.len d)) (d +:+ x) = d.
Proof.
  induction d as [| a d IH]; simpl.
  - now destruct x.
  - assert (0 <= Go.len d) by (clear; induction d; simpl; lia).
    replace (Z.to_nat (1 + Go.len d)) with (S (Z.to_nat (Go.len d))) by lia.
    simpl. now rewrite IH.
Qed.

Lemma drop_segment d c x : Go.drop (Z.to_nat (Go.len d + 1)) (d +:+ String c x) = x.
Proof.
  induction d as [| a d IH]; simpl; [reflexivity |].
  assert (0 <= Go.len d) by (clear; induction d; simpl; lia).
  replace (Z.to_nat (1 + Go.len d + 1)) with (S (Z.to_nat (Go.len d + 1))) by lia.
  simpl. exact IH.
Qed.

Lemma TrimPrefixSlash_segment d x :
  d <> "" -> Go.noSlash d = true -> Go.TrimPrefixSlash (d +:+ x) = d +:+ x.
Proof.
  destruct d as [| a d]; [congruence |]. intros _ H. simpl in *.
  apply andb_prop in H as [Ha _].
  destruct a as [[] [] [] [] [] [] [] []]; try reflexivity. discriminate Ha.
Qed.

(** X16: splitDomainAndRoute returns a domain and a route exactly when the
    path, after one leading slash is stripped, is the domain, non-empty and
    without a slash, a slash, and the route: joining what it returns gives
    the path back, and the route is whatever follows the first slash, as it
    stands. *)
Theorem splitDomainAndRoute_characterization (path d r : string) :
  server.splitDomainAndRoute path = Some (d, r) <->
  d <> "" /\ Go.noSlash d = true /\ Go.TrimPrefixSlash path = d +:+ "/" +:+ r.
Proof.
  split; [apply splitDomainAndRoute_Some |].
  intros (Hd & Hns & Heq). unfold server.splitDomainAndRoute.
  rewrite Heq, (IndexByte_segment d r Hns).
  pose proof (len_pos d Hd).
  destruct (Z.leb_spec (Go.len d) 0); [lia |].
  unfold Go.sliceTo, Go.sliceFrom.
  rewrite take_segment. change ("/" +:+ r) with (String "/" r).
  now rewrite drop_segment.
Qed.

Lemma splitDomainAndRoute_characterization_witness :
  server.splitDomainAndRoute "/example.com/dir/a.txt" = Some ("example.com", "dir/a.txt").
Proof.
  apply (proj2 (splitDomainAndRoute_characterization "/example.com/dir/a.txt"
                  "example.com" "dir/a.txt")).
  split; [discriminate |]. split; reflexivity.
Defined.

(** ** Routes that differ in their leading slashes *)

(** X17: two paths with the same domain whose routes differ only in
    leading slashes are one and the same request: the handler is the same
    program for both, so it makes the same calls and gives the same reply
    against any store and upstream. *)
Theorem same_request_up_to_leading_slashes
    (timeParse : string -> option Z) (timeFormat : Z -> string)
    (urlOK : string -> bool) (s : Server) (p1 p2 rawQuery d r1 r2 : string) :
  server.splitDomainAndRoute p1 = Some (d, r1) ->
  server.splitDomainAndRoute p2 = Some (d, r2) ->
  Go.TrimLeftSlash r1 = Go.TrimLeftSlash r2 ->
  server.ServeHTTP timeParse timeFormat urlOK s p1 rawQuery
  = server.ServeHTTP timeParse timeFormat urlOK s p2 rawQuery /\
  server_iface.ServeHTTP timeParse timeFormat urlOK s p1 rawQuery
  = server_iface.ServeHTTP timeParse timeFormat urlOK s p2 rawQuery.
Proof.
  intros H1 H2 Hr.
  unfold server.ServeHTTP, server_iface.ServeHTTP.
  rewrite !parseAndBuildUpstream_split, H1, H2.
  unfold cache.ObjectKey, cache.MetaKey, server.buildUpstreamURL. rewrite Hr. auto.
Qed.

Lemma same_request_up_to_leading_slashes_witness :
  server.ServeHTTP utctime.parse utctime.format scenario.anyURL scenario.srv
    "/example.com//a.txt" ""
  = server.ServeHTTP utctime.parse utctime.format scenario.anyURL scenario.srv
      "/example.com/a.txt" "" /\
  server_iface.ServeHTTP utctime.parse utctime.format scenario.anyURL scenario.srv
    "/example.com//a.txt" ""
  = server_iface.ServeHTTP utctime.parse utctime.format scenario.anyURL scenario.srv
      "/example.com/a.txt" "".
Proof.
  apply (same_request_up_to_leading_slashes utctime.parse utctime.format scenario.anyURL
           scenario.srv "/example.com//a.txt" "/example.com/a.txt" ""
           "example.com" "/a.txt" "a.txt"); reflexivity.
Defined.

(** ** The store over the MinIO client *)

Ltac mrun_inv H :=
  repeat (
    lazymatch type of H with
    | _ /\ _ => destruct H as [? ?]; subst
    | exists _, _ => destruct H as (? & ? & ? & H); subst
    | minio.Run ?p _ _ =>
        first [ progress cbn in H
              | match p with
                | context [match ?x with _ => _ end] => destruct x eqn:?
                end ]
    end).

(** X18: for the existence check a 404 of the client is absence, not an
    error: HasObject makes one stat of the object in the bucket of the
    store, answers true only when the stat succeeds, never true together
    with an error, and false without an error when the client answers
    404. *)
Theorem HasObject_absence_is_not_an_error (s : store.Store) (key : string)
    (tr : list minio.Event) (ok : bool) (err : option store.Error) :
  minio.Run (store.HasObject s key) tr (ok, err) ->
  exists ans,
    tr = [minio.EvStatObject (store.bucket s) key ans] /\
    (ok = true <-> exists info, ans = inr info) /\
    (ok = true -> err = None) /\
    (forall e, ans = inl e -> isNotFound e = true -> err = None).
Proof.
  intros H. unfold store.HasObject, isNotFound in *.
  mrun_inv H; simplify_eq; eexists; (split; [reflexivity |]);
    repeat split; try discriminate; try (intros [? ?]; discriminate); eauto;
    intros; simplify_eq;
    repeat match goal with
      | H : _ || _ = false |- _ => apply orb_false_elim in H as [? ?]
      end; congruence.
Qed.

Lemma HasObject_absence_is_not_an_error_witness :
  exists ans,
    [minio.EvStatObject "proxy-cache" "objects/example.com/a.txt"
       (inl (minio.mkErr "NoSuchKey" 404 "The specified key does not exist."))]
    = [minio.EvStatObject (store.bucket (store.mkStore "proxy-cache"))
         "objects/example.com/a.txt" ans] /\
    (false = true <-> exists info, ans = inr info) /\
    (false = true -> @None store.Error = None) /\
    (forall e, ans = inl e -> isNotFound e = true -> @None store.Error = None).
Proof.
  apply (HasObject_absence_is_not_an_error (store.mkStore "proxy-cache")
           "objects/example.com/a.txt").
  simpl. eexists _, _. split; [reflexivity |]. simpl. auto.
Defined.

Section StoreCodec.

Variable jsonMarshal : cache.Meta -> string + string.
Variable jsonUnmarshal : string -> cache.Meta * option string.

(** X19: ReadMeta makes one GetObject call and reports metadata as found
    exactly when the object was opened, read to the end and decoded
    without error, and then without an error; a text that does not decode
    is reported like a missing object, found false and no error, and so
    is a 404 of the GetObject call; an error of reading the opened object
    is returned as it is, whatever its status; an error comes only with
    the zero record. *)
Theorem ReadMeta_found_means_decoded (s : store.Store) (key : string)
    (tr : list minio.Event) (m : cache.Meta) (found : bool) (err : option store.Error) :
  minio.Run (store.ReadMeta jsonUnmarshal s key) tr (m, found, err) ->
  exists ans,
    tr = [minio.EvGetObject (store.bucket s) key ans] /\
    (found = true <-> exists b, ans = inr (inr b) /\ jsonUnmarshal b = (m, None)) /\
    (found = true -> err = None) /\
    (forall b, ans = inr (inr b) -> err = None) /\
    (forall e, ans = inl e -> isNotFound e = true -> err = None) /\
    (forall e, ans = inr (inl e) -> err = Some (store.ClientError e)) /\
    (err <> None -> m = cache.zeroMeta).
Proof.
  intros H. unfold store.ReadMeta, isNotFound in *.
  mrun_inv H; simplify_eq; eexists; (split; [reflexivity |]);
    repeat split; try discriminate; try congruence; eauto;
    try (intros (? & ? & ?); simplify_eq; congruence);
    intros; simplify_eq;
    repeat match goal with
      | H : _ || _ = false |- _ => apply orb_false_elim in H as [? ?]
      end; congruence.
Qed.

(** X20: what WriteMeta stores ReadMeta reads back: when the record
    encodes, WriteMeta makes one put, of the encoded record with the
    content type application/json, under the key in the bucket of the
    store; when a later read of that key delivers the bytes put and the
    codec decodes what it encoded, ReadMeta returns the record, found,
    without error. *)
Theorem meta_write_read_round_trip (s : store.Store) (key : string)
    (m : cache.Meta) (b : string)
    (wtr rtr : list minio.Event) (werr : option store.Error)
    (res : cache.Meta * bool * option store.Error) :
  jsonMarshal m = inr b ->
  jsonUnmarshal b = (m, None) ->
  minio.Run (store.WriteMeta jsonMarshal s key m) wtr werr ->
  minio.Run (store.ReadMeta jsonUnmarshal s key) rtr res ->
  (forall bkt k data ct, In (bkt, k, data, ct) (puts wtr) ->
     rtr = [minio.EvGetObject bkt k (inr (inr data))]) ->
  puts wtr = [(store.bucket s, key, b, "application/json")] /\
  res = (m, true, None).
Proof.
  intros Hm Hu Hw Hr Hd.
  unfold store.WriteMeta in Hw. rewrite Hm in Hw. cbn in Hw.
  destruct Hw as (ans & wtr' & -> & Hw).
  assert (wtr' = []) as -> by (destruct ans; cbn in Hw; tauto).
  split; [reflexivity |].
  rewrite (Hd (store.bucket s) key b "application/json") in Hr by (simpl; auto).
  unfold store.ReadMeta in Hr. cbn in Hr.
  destruct Hr as (x & tr' & E & Hr). injection E as <- <-.
  cbn in Hr. rewrite Hu in Hr. cbn in Hr. now destruct Hr as [_ ->].
Qed.

End StoreCodec.

Lemma ReadMeta_found_means_decoded_witness :
  exists ans,
    [minio.EvGetObject "proxy-cache" "meta/example.com/a.txt.json"
       (inr (inr "{"))]
    = [minio.EvGetObject (store.bucket (store.mkStore "proxy-cache"))
         "meta/example.com/a.txt.json" ans] /\
    (false = true <->
     exists b, ans = inr (inr b) /\ samples.jsonUnmarshal b = (cache.zeroMeta, None)) /\
    (false = true -> @None store.Error = None) /\
    (forall b, ans = inr (inr b) -> @None store.Error = None) /\
    (forall e, ans = inl e -> isNotFound e = true -> @None store.Error = None) /\
    (forall e, ans = inr (inl e) -> @None store.Error = Some (store.ClientError e)) /\
    (@None store.Error <> None -> cache.zeroMeta = cache.zeroMeta).
Proof.
  apply (ReadMeta_found_means_decoded samples.jsonUnmarshal (store.mkStore "proxy-cache")
           "meta/example.com/a.txt.json").
  simpl. eexists _, _. split; [reflexivity |]. simpl. auto.
Defined.

Example encodeMeta_stored :
  samples.encodeMeta scenario.storedMeta
  = "{" +:+ String "034" "etag" +:+ String "034" ":" +:+ String "034" "x1" +:+ String "034" ","
      +:+ String "034" "cached_at" +:+ String "034" ":" +:+ String "034" "2025-01-01T00:00:00Z"
      +:+ String "034" "," +:+ String "034" "ttl_sec" +:+ String "034" ":3600,"
      +:+ String "034" "size" +:+ String "034" ":5}".
Proof. reflexivity. Qed.

Lemma meta_write_read_round_trip_witness :
  puts [minio.EvPutObject "proxy-cache" "meta/example.com/a.txt.json"
          (samples.encodeMeta scenario.storedMeta)
          (Go.len (samples.encodeMeta scenario.storedMeta)) "application/json" None]
  = [(store.bucket (store.mkStore "proxy-cache"), "meta/example.com/a.txt.json",
      samples.encodeMeta scenario.storedMeta, "application/json")] /\
  (scenario.storedMeta, true, @None store.Error) = (scenario.storedMeta, true, None).
Proof.
  apply (meta_write_read_round_trip samples.jsonMarshal samples.jsonUnmarshal
           (store.mkStore "proxy-cache") "meta/example.com/a.txt.json"
           scenario.storedMeta (samples.encodeMeta scenario.storedMeta)
           [minio.EvPutObject "proxy-cache" "meta/example.com/a.txt.json"
              (samples.encodeMeta scenario.storedMeta)
              (Go.len (samples.encodeMeta scenario.storedMeta)) "application/json" None]
           [minio.EvGetObject "proxy-cache" "meta/example.com/a.txt.json"
              (inr (inr (samples.encodeMeta scenario.storedMeta)))]
           None).
  - reflexivity.
  - vm_compute. reflexivity.
  - simpl. eexists _, _. split; [reflexivity |]. simpl. auto.
  - simpl. eexists _, _. split; [reflexivity |]. vm_compute. auto.
  - simpl. intros bkt k data ct [H | []]. injection H as <- <- <- <-. reflexivity.
Defined.

(** X21: the object read from the store carries the size and the headers
    of its stat: GetObject stats before it opens the object, opens
    nothing when the stat fails, and on success returns the size of the
    stat and a header map with ETag and Content-Type always present (also
    when empty) and Last-Modified present exactly when the modification
    time of the stat is not the zero time. *)
Theorem GetObject_headers_from_stat (formatRFC1123 : Z -> string)
    (s : store.Store) (key : string) (tr : list minio.Event)
    (res : store.Error + (minio.Reader * Z * gmap string string)) :
  minio.Run (store.GetObject formatRFC1123 s key) tr res ->
  exists stat,
    (forall e, stat = inl e ->
       tr = [minio.EvStatObject (store.bucket s) key stat] /\
       res = inl (store.ClientError e)) /\
    (forall st, stat = inr st ->
       exists opened,
         tr = [minio.EvStatObject (store.bucket s) key stat;
               minio.EvGetObject (store.bucket s) key opened] /\
         (forall e, opened = inl e -> res = inl (store.ClientError e)) /\
         (forall rd, opened = inr rd ->
            exists h,
              res = inr (rd, minio.Size st, h) /\
              h !! "ETag" = Some (minio.ETag st) /\
              h !! "Content-Type" = Some (minio.ContentType st) /\
              h !! "Last-Modified"
              = (if minio.LastModified st =? minio.zeroTime then None
                 else Some (formatRFC1123 (minio.LastModified st))) /\
              (forall k, k <> "ETag" -> k <> "Content-Type" -> k <> "Last-Modified" ->
                 h !! k = None))).
Proof.
  intros H. unfold store.GetObject in H. cbn in H.
  destruct H as (stat & tr' & -> & H). exists stat.
  destruct stat as [e | st]; cbn in H.
  - destruct H as [-> ->]. split; intros; simplify_eq. split; reflexivity.
  - destruct H as (opened & tr'' & -> & H). split; intros; simplify_eq.
    exists opened.
    destruct opened as [e | rd]; cbn in H; destruct H as [-> ->];
      (split; [reflexivity |]); split; intros; simplify_eq; [reflexivity |].
    eexists. split; [reflexivity |]. unfold store.headersOf.
    destruct (minio.LastModified _ =? minio.zeroTime);
      repeat split; intros; simplify_map_eq; reflexivity.
Qed.

Lemma GetObject_headers_from_stat_witness :
  exists stat,
    (forall e, stat = inl e ->
       [minio.EvStatObject "proxy-cache" "objects/example.com/a.txt"
          (inl (minio.mkErr "NoSuchKey" 404 "The specified key does not exist."))]
       = [minio.EvStatObject (store.bucket (store.mkStore "proxy-cache"))
            "objects/example.com/a.txt" stat] /\
       @inl store.Error (minio.Reader * Z * gmap string string)
         (store.ClientError
            (minio.mkErr "NoSuchKey" 404 "The specified key does not exist."))
       = inl (store.ClientError e)) /\
    (forall st, stat = inr st ->
       exists opened,
         [minio.EvStatObject "proxy-cache" "objects/example.com/a.txt"
            (inl (minio.mkErr "NoSuchKey" 404 "The specified key does not exist."))]
         = [minio.EvStatObject (store.bucket (store.mkStore "proxy-cache"))
              "objects/example.com/a.txt" stat;
            minio.EvGetObject (store.bucket (store.mkStore "proxy-cache"))
              "objects/example.com/a.txt" opened] /\
         (forall e, opened = inl e ->
            @inl store.Error (minio.Reader * Z * gmap string string)
              (store.ClientError
                 (minio.mkErr "NoSuchKey" 404 "The specified key does not exist."))
            = inl (store.ClientError e)) /\
         (forall rd, opened = inr rd ->
            exists h,
              @inl store.Error (minio.Reader * Z * gmap string string)
                (store.ClientError
                   (minio.mkErr "NoSuchKey" 404 "The specified key does not exist."))
              = inr (rd, minio.Size st, h) /\
              h !! "ETag" = Some (minio.ETag st) /\
              h !! "Content-Type" = Some (minio.ContentType st) /\
              h !! "Last-Modified"
              = (if minio.LastModified st =? minio.zeroTime then None
                 else Some (utctime.format (minio.LastModified st))) /\
              (forall k, k <> "ETag" -> k <> "Content-Type" -> k <> "Last-Modified" ->
                 h !! k = None))).
Proof.
  apply (GetObject_headers_from_stat utctime.format (store.mkStore "proxy-cache")
           "objects/example.com/a.txt").
  simpl. eexists _, _. split; [reflexivity |]. simpl. auto.
Defined.

(** ** Opening the store *)

Lemma len_app (p rest : string) : Go.len (p +:+ rest) = Go.len p + Go.len rest.
Proof. induction p as [| a p IH]; simpl; [reflexivity | rewrite IH; lia]. Qed.

Lemma len_nonneg (s : string) : 0 <= Go.len s.
Proof. induction s; simpl; lia. Qed.

Lemma startsWith_app (p rest : string) : store.startsWith (p +:+ rest) p = true.
Proof.
  unfold store.startsWith, Go.sliceTo.
  rewrite take_segment, String.eqb_refl, len_app.
  pose proof (len_nonneg rest). apply andb_true_intro. split; [lia | reflexivity].
Qed.

Lemma take_drop (n : nat) (s : string) : Go.take n s +:+ Go.drop n s = s.
Proof.
  revert s. induction n as [| n IH]; intros [| c s]; simpl; try reflexivity.
  change (String c (Go.take n s +:+ Go.drop n s) = String c s).
  now rewrite IH.
Qed.

Lemma startsWith_inv (s p : string) :
  store.startsWith s p = true -> s = p +:+ Go.sliceFrom s (Go.len p).
Proof.
  unfold store.startsWith, Go.sliceTo, Go.sliceFrom. intros H.
  apply andb_prop in H as [_ H]. apply String.eqb_eq in H.
  rewrite <- H at 1. symmetry. apply take_drop.
Qed.

(** X22: the endpoint loses one leading scheme and TLS follows it:
    https:// gives TLS on and the rest of the endpoint, http:// gives TLS
    off and the rest; TLS is on only for an endpoint that starts with
    https://, in this very spelling, and an endpoint is changed only by
    the removal of one of the two prefixes. *)
Theorem schemeOf_characterization (endpoint : string) :
  (forall rest, endpoint = "https://" +:+ rest ->
     store.schemeOf endpoint = (true, rest)) /\
  (forall rest, endpoint = "http://" +:+ rest ->
     store.schemeOf endpoint = (false, rest)) /\
  ((store.schemeOf endpoint).1 = true ->
     endpoint = "https://" +:+ (store.schemeOf endpoint).2) /\
  ((store.schemeOf endpoint).2 <> endpoint ->
     endpoint = "https://" +:+ (store.schemeOf endpoint).2 \/
     endpoint = "http://" +:+ (store.schemeOf endpoint).2).
Proof.
  repeat split.
  - intros rest ->. unfold store.schemeOf. rewrite startsWith_app.
    unfold Go.sliceFrom. reflexivity.
  - intros rest ->. unfold store.schemeOf.
    replace (store.startsWith ("http://" +:+ rest) "https://") with false.
    + rewrite startsWith_app. reflexivity.
    + unfold store.startsWith. simpl. now rewrite andb_false_r.
  - unfold store.schemeOf.
    destruct (store.startsWith endpoint "https://") eqn:E.
    + intros _. exact (startsWith_inv _ _ E).
    + destruct (store.startsWith endpoint "http://"); discriminate.
  - unfold store.schemeOf.
    destruct (store.startsWith endpoint "https://") eqn:E.
    + intros _. left. exact (startsWith_inv _ _ E).
    + destruct (store.startsWith endpoint "http://") eqn:E'.
      * intros _. right. exact (startsWith_inv _ _ E').
      * intros H. now elim H.
Qed.

Lemma schemeOf_characterization_witness :
  store.schemeOf "https://minio.example.com:9000" = (true, "minio.example.com:9000").
Proof.
  apply (proj1 (schemeOf_characterization "https://minio.example.com:9000")).
  reflexivity.
Defined.

(** X23: NewStore creates the bucket only when the client said, without
    error, that it is missing, and returns a store only for a bucket that
    exists or was made: the first call makes the client for the endpoint
    without its scheme; a store is returned, for the bucket asked for,
    only after BucketExists answered true or MakeBucket succeeded;
    MakeBucket is called only for that bucket and only after BucketExists
    answered false without error; an error returned is the one of the
    last call made. *)
Theorem NewStore_ensures_bucket (endpoint access secret bucket : string)
    (tr : list minio.Event) (res : store.Error + store.Store) :
  minio.Run (store.NewStore endpoint access secret bucket) tr res ->
  (exists ans tr',
     tr = minio.EvNew (store.schemeOf endpoint).2 access secret
            (store.schemeOf endpoint).1 ans :: tr') /\
  (forall st, res = inr st ->
     store.bucket st = bucket /\
     (In (minio.EvBucketExists bucket (true, None)) tr \/
      In (minio.EvMakeBucket bucket None) tr)) /\
  (forall b ans, In (minio.EvMakeBucket b ans) tr ->
     b = bucket /\ In (minio.EvBucketExists bucket (false, None)) tr) /\
  (forall e, res = inl e ->
     exists e', e = store.ClientError e' /\
       (last tr = Some (minio.EvNew (store.schemeOf endpoint).2 access secret
                          (store.schemeOf endpoint).1 (Some e')) \/
        (exists b, last tr = Some (minio.EvBucketExists bucket (b, Some e'))) \/
        last tr = Some (minio.EvMakeBucket bucket (Some e')))).
Proof.
  intros H. unfold store.NewStore in H.
  destruct (store.schemeOf endpoint) as [secure ep] eqn:E. cbn [fst snd].
  mrun_inv H; simplify_eq;
    (split; [eexists _, _; reflexivity |]);
    (split; [intros st Hst; simplify_eq; (split; [reflexivity | simpl; auto]) |]);
    (split; [intros b' ans' Hin; simpl in Hin;
             intuition (simplify_eq; simpl; auto) |]);
    intros e0 He; simplify_eq; eexists; (split; [reflexivity |]); simpl; eauto.
Qed.

Lemma NewStore_ensures_bucket_witness :
  (exists ans tr',
     samples.firstOpen = minio.EvNew (store.schemeOf "http://minio:9000").2 "minio" "minio12345"
            (store.schemeOf "http://minio:9000").1 ans :: tr') /\
  (forall st, samples.opened = inr st ->
     store.bucket st = "proxy-cache" /\
     (In (minio.EvBucketExists "proxy-cache" (true, None)) samples.firstOpen \/
      In (minio.EvMakeBucket "proxy-cache" None) samples.firstOpen)) /\
  (forall b ans, In (minio.EvMakeBucket b ans) samples.firstOpen ->
     b = "proxy-cache" /\ In (minio.EvBucketExists "proxy-cache" (false, None)) samples.firstOpen) /\
  (forall e, samples.opened = inl e ->
     exists e', e = store.ClientError e' /\
       (last samples.firstOpen = Some (minio.EvNew (store.schemeOf "http://minio:9000").2 "minio"
                          "minio12345" (store.schemeOf "http://minio:9000").1 (Some e')) \/
        (exists b, last samples.firstOpen = Some (minio.EvBucketExists "proxy-cache" (b, Some e'))) \/
        last samples.firstOpen = Some (minio.EvMakeBucket "proxy-cache" (Some e')))).
Proof.
  apply (NewStore_ensures_bucket "http://minio:9000" "minio" "minio12345" "proxy-cache"
           samples.firstOpen samples.opened).
  unfold samples.firstOpen, samples.opened. simpl. eexists _, _. split; [reflexivity |]. simpl.
  eexists _, _. split; [reflexivity |]. simpl.
  eexists _, _. split; [reflexivity |]. simpl. auto.
Defined.

(** ** The health check *)

(** X24: the health check answers 200 with the status up exactly when the
    one BucketExists call it makes, on the bucket of the store, succeeds
    and finds the bucket; a missing bucket is answered like a failed
    call, 503 with the status down. *)
Theorem health_up_iff_bucket_exists (encodeHealth : string -> string)
    (s : store.Store) (tr : list minio.Event) (reply : http.Reply) :
  minio.Run (metrics.HealthCheckHandler encodeHealth s) tr reply ->
  exists ans,
    tr = [minio.EvBucketExists (store.bucket s) ans] /\
    (ans = (true, None) -> reply = metrics.writeHealth encodeHealth 200 "up") /\
    (ans <> (true, None) -> reply = metrics.writeHealth encodeHealth 503 "down") /\
    (http.status reply = 200 <-> ans = (true, None)).
Proof.
  intros H. unfold metrics.HealthCheckHandler, store.Ping in H.
  mrun_inv H; simplify_eq; eexists; (split; [reflexivity |]);
    repeat split; intros; simplify_eq; try reflexivity; try congruence;
    simpl in *; try discriminate.
Qed.

Lemma health_up_iff_bucket_exists_witness :
  exists ans,
    [minio.EvBucketExists "proxy-cache" (false, None)]
    = [minio.EvBucketExists (store.bucket (store.mkStore "proxy-cache")) ans] /\
    (ans = (true, None) ->
     metrics.writeHealth samples.encodeHealth 503 "down"
     = metrics.writeHealth samples.encodeHealth 200 "up") /\
    (ans <> (true, None) ->
     metrics.writeHealth samples.encodeHealth 503 "down"
     = metrics.writeHealth samples.encodeHealth 503 "down") /\
    (http.status (metrics.writeHealth samples.encodeHealth 503 "down") = 200 <->
     ans = (true, None)).
Proof.
  apply (health_up_iff_bucket_exists samples.encodeHealth (store.mkStore "proxy-cache")).
  simpl. eexists _, _. split; [reflexivity |]. simpl. auto.
Defined.

(** ** The configuration *)

Section LoadFacts.

Variable getenv : string -> string.
Variable readFile : string -> option string.
Variable yamlUnmarshal : string -> config.Config -> config.Config.
Variable Atoi : string -> option Z.
Variable EqualFold : string -> string -> bool.


(** X25: without a readable configuration file, Load succeeds exactly
    when the environment gives the MinIO endpoint, access key and secret
    key: the bucket has a default and is never what is missing. The
    configuration is returned in both cases. *)
Theorem Load_without_file :
  readFile (config.override getenv "RAW_CACHER_CONFIG" "config.yaml") = None ->
  ((config.Load getenv readFile yamlUnmarshal Atoi EqualFold).2 = None <->
   getenv "MINIO_ENDPOINT" <> "" /\ getenv "MINIO_ACCESS_KEY" <> "" /\
   getenv "MINIO_SECRET_KEY" <> "") /\
  config.MinioBucket (config.Load getenv readFile yamlUnmarshal Atoi EqualFold).1 <> "" /\
  (getenv "MINIO_BUCKET" = "" ->
   config.MinioBucket (config.Load getenv readFile yamlUnmarshal Atoi EqualFold).1
   = "proxy-cache").
Proof.
  intros Hf. unfold config.Load. rewrite Hf.
  unfold config.override. cbn [config.MinioEndpoint config.MinioAccess config.MinioSecret
    config.MinioBucket config.defaults].
  destruct (String.eqb (getenv "MINIO_ENDPOINT") "") eqn:E1;
    destruct (String.eqb (getenv "MINIO_ACCESS_KEY") "") eqn:E2;
    destruct (String.eqb (getenv "MINIO_SECRET_KEY") "") eqn:E3;
    destruct (String.eqb (getenv "MINIO_BUCKET") "") eqn:E4;
    rewrite ?E1, ?E2, ?E3, ?E4; cbn;
    repeat match goal with
      | H : String.eqb _ "" = true |- _ => apply String.eqb_eq in H
      | H : String.eqb _ "" = false |- _ => apply String.eqb_neq in H
      end;
    repeat split; try discriminate; try congruence; try tauto;
    try (intros (? & ? & ?); congruence).
Qed.

(** X26: a TTL variable that strconv.Atoi refuses is dropped without an
    error: Load returns what it returns with the variable unset, so the
    value of the file or the default stays. *)
Theorem unparsable_ttl_is_ignored (name : string) :
  name = "TTL_DEFAULT" \/ name = "TTL_404" ->
  Atoi (getenv name) = None ->
  config.Load getenv readFile yamlUnmarshal Atoi EqualFold
  = config.Load (unsetenv getenv name) readFile yamlUnmarshal Atoi EqualFold.
Proof.
  intros [-> | ->] Ha; unfold config.Load, config.override, config.overrideInt, unsetenv;
    cbn [String.eqb Ascii.eqb Bool.eqb]; rewrite Ha.
  - destruct (String.eqb (getenv "TTL_DEFAULT") ""); reflexivity.
  - destruct (String.eqb (getenv "TTL_404") ""); reflexivity.
Qed.


End LoadFacts.

Lemma Load_without_file_witness :
  (samples.loaded.2 = None <->
   samples.getenv "MINIO_ENDPOINT" <> "" /\ samples.getenv "MINIO_ACCESS_KEY" <> "" /\
   samples.getenv "MINIO_SECRET_KEY" <> "") /\
  config.MinioBucket samples.loaded.1 <> "" /\
  (samples.getenv "MINIO_BUCKET" = "" ->
   config.MinioBucket samples.loaded.1 = "proxy-cache").
Proof.
  apply (Load_without_file samples.getenv samples.noFiles samples.yamlUnmarshal
           samples.Atoi samples.EqualFold).
  reflexivity.
Defined.

Lemma unparsable_ttl_is_ignored_witness :
  samples.loaded
  = config.Load (unsetenv samples.getenv "TTL_DEFAULT") samples.noFiles
      samples.yamlUnmarshal samples.Atoi samples.EqualFold.
Proof.
  apply (unparsable_ttl_is_ignored samples.getenv samples.noFiles samples.yamlUnmarshal
           samples.Atoi samples.EqualFold "TTL_DEFAULT").
  - left. reflexivity.
  - vm_compute. reflexivity.
Defined.

